(** * fastdbchkrep: metadata ingestion and RAC reconciliation

    A shallow embedding of the metadata core of fastdbchkrep
    ([meta/json_schema.py], [meta/rac_parser.py], [meta/parser.py],
    [meta/mysql/parser.py]) and the properties of its specification.

    Conventions of the embedding.
    - A Python [str] is a [string]; a character is a code point below 256,
      where [\d] is exactly [0-9].
    - A path is the string [str(Path(p))] gives: no trailing slash, kept as
      it is written.
    - [None] is [None]; an optional string is [option string]; Python
      truthiness is written out ([truthy]).
    - The file system, the clock and [json.load] are read through an
      explicit environment record ([Env]).
    - A manifest ([file_status.json]) is well typed: its identity fields are
      JSON strings when present; the [files] field is an array of objects or
      an object of objects.
    - ['raise'] is the [Raise] constructor of [res]; a [try/except] is a
      match on it. *)

From Stdlib Require Import Ascii String List Bool Arith ZArith Lia DecimalString.
From Stdlib Require Import Sorted Permutation.
From stdpp Require Import base option gmap strings.

Import ListNotations.
Local Open Scope string_scope.
Local Open Scope list_scope.

(** String concatenation computes under [simpl] as in the Standard
    Library. *)
Local Arguments String.append !_ _ / : simpl nomatch.

(* ================================================================== *)
(** * Python strings *)
(* ================================================================== *)

Module Py.

(** The line feed, the only character [$] and [.] treat specially. *)
Definition LF : ascii := "010"%char.

Definition is_digit (c : ascii) : bool :=
  (48 <=? nat_of_ascii c)%nat && (nat_of_ascii c <=? 57)%nat.

Definition is_lower (c : ascii) : bool :=
  (97 <=? nat_of_ascii c)%nat && (nat_of_ascii c <=? 122)%nat.

Definition is_upper (c : ascii) : bool :=
  (65 <=? nat_of_ascii c)%nat && (nat_of_ascii c <=? 90)%nat.

(** The class [[a-zA-Z0-9_-]]. *)
Definition is_ident (c : ascii) : bool :=
  is_lower c || is_upper c || is_digit c
  || Ascii.eqb c "_"%char || Ascii.eqb c "-"%char.

(** The class [.] without DOTALL: anything but a line feed. *)
Definition is_dot (c : ascii) : bool := negb (Ascii.eqb c LF).

(** [bool(s)] for a [str]. *)
Definition nonempty (s : string) : bool :=
  match s with EmptyString => false | String _ _ => true end.

(** [bool(x)] for a value that is [None] or a [str]. *)
Definition truthy (o : option string) : bool :=
  match o with Some s => nonempty s | None => false end.

(** [a or b] on optional strings. *)
Definition or_else (a b : option string) : option string :=
  if truthy a then a else b.

Fixpoint forall_chars (p : ascii -> bool) (s : string) : bool :=
  match s with
  | EmptyString => true
  | String c s' => p c && forall_chars p s'
  end.

Fixpoint map_chars (f : ascii -> ascii) (s : string) : string :=
  match s with
  | EmptyString => EmptyString
  | String c s' => String (f c) (map_chars f s')
  end.

(** [s.split(sep)] for a one-character separator: the pieces between the
    separators, always at least one piece.  The accumulator holds the characters of
    the piece being read. *)
Fixpoint split_acc (sep : ascii) (acc : string) (s : string) : list string :=
  match s with
  | EmptyString => [acc]
  | String c s' =>
      if Ascii.eqb c sep then acc :: split_acc sep EmptyString s'
      else split_acc sep (acc ++ String c EmptyString) s'
  end.

Definition split (sep : ascii) (s : string) : list string :=
  split_acc sep EmptyString s.

(** [sep.join(parts)]. *)
Definition join (sep : string) (parts : list string) : string :=
  String.concat sep parts.

(** [s.replace(old, '')] for a one-character [old]. *)
Fixpoint remove_char (old : ascii) (s : string) : string :=
  match s with
  | EmptyString => EmptyString
  | String c s' =>
      if Ascii.eqb c old then remove_char old s'
      else String c (remove_char old s')
  end.

(** [s[:n]]. *)
Definition take (n : nat) (s : string) : string := String.substring 0 n s.

(** [str(n)] for a natural number. *)
Definition str_of_nat (n : nat) : string :=
  NilZero.string_of_uint (Nat.to_uint n).

(** [os.path.basename(p)]: what follows the last slash. *)
Definition basename (p : string) : string :=
  List.last (split "/"%char p) EmptyString.

Definition ends_with_slash (s : string) : bool :=
  match List.last (list_ascii_of_string s) "a"%char with
  | "/"%char => true
  | _ => false
  end.

(** [os.path.join(d, name)]: an absolute [name] replaces [d]; a slash is
    put between the two unless [d] is empty or ends with one.  For a [Path]
    [d] other than ["."] and a plain file name, [str(d / name)] is the same
    string. *)
Definition path_join (d name : string) : string :=
  match name with
  | String "/"%char _ => name
  | _ => if negb (nonempty d) || ends_with_slash d then d ++ name
         else d ++ "/" ++ name
  end.

(** The position of the last ['.'] of [s], as [s.rfind('.')]. *)
Fixpoint rfind_dot (s : string) : option nat :=
  match s with
  | EmptyString => None
  | String c s' =>
      match rfind_dot s' with
      | Some i => Some (S i)
      | None => if Ascii.eqb c "."%char then Some 0%nat else None
      end
  end.

(** [Path(filename).stem]: the final component without its last suffix; a
    dot in first or last position of the name does not start a suffix. *)
Definition stem (filename : string) : string :=
  let name := List.last
                (List.filter (fun p => negb (String.eqb p "") && negb (String.eqb p "."))
                             (split "/"%char filename)) EmptyString in
  match rfind_dot name with
  | Some i =>
      if (0 <? i)%nat && (i <? String.length name - 1)%nat
      then String.substring 0 i name else name
  | None => name
  end.

(** [max(l)] on a list of strings, in Python's order on [str]
    (lexicographic on code points, [String.ltb]): the first of the largest;
    [None] stands for the [ValueError] on an empty list. *)
Definition max_str (l : list string) : option string :=
  match l with
  | [] => None
  | x :: l' => Some (fold_left (fun m y => if String.ltb m y then y else m) l' x)
  end.

(** [sorted(l)]: a stable insertion sort gives the list [sorted] gives. *)
Fixpoint insert_sorted (x : string) (l : list string) : list string :=
  match l with
  | [] => [x]
  | y :: l' => if String.leb x y then x :: l else y :: insert_sorted x l'
  end.

Definition sorted (l : list string) : list string :=
  fold_right insert_sorted [] l.

(** The distinct elements of a list, in order of first occurrence: the
    carrier of [set(l)]. *)
Fixpoint distinct (l : list string) : list string :=
  match l with
  | [] => []
  | x :: l' => x :: List.filter (fun y => negb (String.eqb x y)) (distinct l')
  end.

End Py.

(* ================================================================== *)
(** * [pathlib] on POSIX *)
(* ================================================================== *)

(** A [Path] is given by the string [str] returns for it.  [Path(p)] keeps
    the root of [p] (["/"], or ["//"] for exactly two leading slashes) and
    its parts, the empty ones and the ["."] ones left out. *)
Module Path.

Definition root (p : string) : string :=
  match p with
  | String "/" (String "/" (String "/" _)) => "/"
  | String "/" (String "/" _) => "//"
  | String "/" _ => "/"
  | _ => ""
  end.

Definition parts (p : string) : list string :=
  List.filter (fun s => Py.nonempty s && negb (String.eqb s "."))
              (Py.split "/"%char p).

(** [str(path)] for a root and parts. *)
Definition path_str (root : string) (parts : list string) : string :=
  if Py.nonempty root then (root ++ Py.join "/" parts)%string
  else match parts with
       | [] => "."
       | _ => Py.join "/" parts
       end.

(** [str(Path(p))]. *)
Definition normal (p : string) : string := path_str (root p) (parts p).

(** [str(Path(p).parent)]. *)
Definition parent (p : string) : string :=
  path_str (root p) (List.removelast (parts p)).

(** [Path(p).name]. *)
Definition name (p : string) : string := List.last (parts p) "".

(** [str(Path(d) / name)]: a [name] with a root replaces [d]. *)
Definition div (d name : string) : string :=
  if Py.nonempty (root name) then normal name
  else path_str (root d) (parts d ++ parts name).

End Path.


(* ================================================================== *)
(** * The fragment of Python's [re] the sources use *)
(* ================================================================== *)

Module Re.

(** Patterns.  Every quantifier of the sources ranges over a one-character
    class, so the quantifiers take the class itself. *)
Inductive regex : Type :=
| Chr (c : ascii)                    (* a literal character        *)
| Cls (p : ascii -> bool)            (* a class, [\d], [.]         *)
| Plus (p : ascii -> bool)           (* [X+], greedy               *)
| PlusLazy (p : ascii -> bool)       (* [X+?], lazy                *)
| Rep (n : nat) (p : ascii -> bool)  (* [X{n}]                     *)
| Bol                                (* [^]                        *)
| Eol                                (* [$]                        *)
| Seq (r1 r2 : regex)
| Grp (i : nat) (r : regex).         (* the capturing group [i]    *)

Definition captures := list (nat * string).

(** A backtracking matcher in continuation style.  [pos] is the offset of
    [s] in the subject; the continuation receives the offset and the rest
    after the match and the groups closed so far, and answers [None] to ask
    for the next alternative. *)
Section Matcher.
Context {R : Type}.
Definition cont := nat -> string -> captures -> option R.

Fixpoint star_greedy (p : ascii -> bool) (pos : nat) (s : string)
         (caps : captures) (k : cont) : option R :=
  match s with
  | String a s' =>
      if p a then
        match star_greedy p (S pos) s' caps k with
        | Some r => Some r
        | None => k pos s caps
        end
      else k pos s caps
  | EmptyString => k pos s caps
  end.

Fixpoint star_lazy (p : ascii -> bool) (pos : nat) (s : string)
         (caps : captures) (k : cont) : option R :=
  match k pos s caps with
  | Some r => Some r
  | None =>
      match s with
      | String a s' => if p a then star_lazy p (S pos) s' caps k else None
      | EmptyString => None
      end
  end.

Fixpoint repeat_n (n : nat) (p : ascii -> bool) (pos : nat) (s : string)
         (caps : captures) (k : cont) : option R :=
  match n with
  | O => k pos s caps
  | S n' =>
      match s with
      | String a s' => if p a then repeat_n n' p (S pos) s' caps k else None
      | EmptyString => None
      end
  end.

(** [$] without MULTILINE: at the end of the subject, or just before a
    line feed that ends the subject. *)
Definition at_eol (s : string) : bool :=
  match s with
  | EmptyString => true
  | String a EmptyString => Ascii.eqb a Py.LF
  | _ => false
  end.

Fixpoint run (r : regex) (pos : nat) (s : string) (caps : captures)
         (k : cont) : option R :=
  match r with
  | Chr c =>
      match s with
      | String a s' => if Ascii.eqb a c then k (S pos) s' caps else None
      | EmptyString => None
      end
  | Cls p =>
      match s with
      | String a s' => if p a then k (S pos) s' caps else None
      | EmptyString => None
      end
  | Plus p =>
      match s with
      | String a s' => if p a then star_greedy p (S pos) s' caps k else None
      | EmptyString => None
      end
  | PlusLazy p =>
      match s with
      | String a s' => if p a then star_lazy p (S pos) s' caps k else None
      | EmptyString => None
      end
  | Rep n p => repeat_n n p pos s caps k
  | Bol => if (pos =? 0)%nat then k pos s caps else None
  | Eol => if at_eol s then k pos s caps else None
  | Seq r1 r2 => run r1 pos s caps (fun pos' s' caps' => run r2 pos' s' caps' k)
  | Grp i r =>
      run r pos s caps
          (fun pos' s' caps' => k pos' s' ((i, Py.take (pos' - pos) s) :: caps'))
  end.
End Matcher.

(** [re.match(r, s)]: a match that starts at the start of [s]. *)
Definition re_match (r : regex) (s : string) : option captures :=
  run r 0 s [] (fun _ _ caps => Some caps).

(** [m.group(i)]. *)
Fixpoint group (caps : captures) (i : nat) : option string :=
  match caps with
  | [] => None
  | (j, v) :: caps' => if (i =? j)%nat then Some v else group caps' i
  end.

(** The end offset of the match of [r] at offset [pos], if there is one. *)
Definition match_end (r : regex) (pos : nat) (s : string) : option nat :=
  run r pos s [] (fun pos' _ _ => Some pos').

(** [re.sub(r, repl, s)] for a replacement without escapes: the leftmost
    matches, left to right, are replaced.  [skip] counts the characters of
    the current match still to drop.  An empty match is replaced and the
    scan moves one character on. *)
Fixpoint sub_from (r : regex) (repl : string) (pos skip : nat) (s : string)
  : string :=
  match skip with
  | S skip' =>
      match s with
      | String _ s' => sub_from r repl (S pos) skip' s'
      | EmptyString => EmptyString
      end
  | O =>
      match match_end r pos s with
      | Some e =>
          repl ++
          match s with
          | String a s' =>
              if (e =? pos)%nat then String a (sub_from r repl (S pos) 0 s')
              else sub_from r repl (S pos) (e - pos - 1) s'
          | EmptyString => EmptyString
          end
      | None =>
          match s with
          | String a s' => String a (sub_from r repl (S pos) 0 s')
          | EmptyString => EmptyString
          end
      end
  end.

Definition re_sub (r : regex) (repl s : string) : string :=
  sub_from r repl 0 0 s.

(** The patterns of the sources. *)

(** [r'[^a-zA-Z0-9_-]'] *)
Definition not_ident : regex := Cls (fun c => negb (Py.is_ident c)).

(** [r'\d+$'] *)
Definition digits_eol : regex := Seq (Plus Py.is_digit) Eol.

(** [r'^\d{8}$'] *)
Definition date8 : regex := Seq Bol (Seq (Rep 8 Py.is_digit) Eol).

(** [r'^[a-zA-Z0-9_-]+$'] *)
Definition ident : regex := Seq Bol (Seq (Plus Py.is_ident) Eol).

(** [r'^\(([a-z]+)-([a-z]+)\)-([a-zA-Z0-9_-]+)\.json$'] *)
Definition filename_pattern : regex :=
  Seq Bol (Seq (Chr "(") (Seq (Grp 1 (Plus Py.is_lower)) (Seq (Chr "-")
  (Seq (Grp 2 (Plus Py.is_lower)) (Seq (Chr ")") (Seq (Chr "-")
  (Seq (Grp 3 (Plus Py.is_ident)) (Seq (Chr ".") (Seq (Chr "j")
  (Seq (Chr "s") (Seq (Chr "o") (Seq (Chr "n") Eol)))))))))))).

(** [r'^(.+?)(\d+)_(.+?)(\d+)_(\d{8})$'] *)
Definition rac_dir_pattern : regex :=
  Seq Bol (Seq (Grp 1 (PlusLazy Py.is_dot)) (Seq (Grp 2 (Plus Py.is_digit))
  (Seq (Chr "_") (Seq (Grp 3 (PlusLazy Py.is_dot)) (Seq (Grp 4 (Plus Py.is_digit))
  (Seq (Chr "_") (Seq (Grp 5 (Rep 8 Py.is_digit)) Eol))))))).

End Re.

(* ================================================================== *)
(** * Exceptions *)
(* ================================================================== *)

Inductive exn : Type :=
| ValueError (msg : string)
| TypeError
| IndexError
| OSError.

Inductive res (A : Type) : Type :=
| Ok (a : A)
| Raise (e : exn).
Arguments Ok {A} a.
Arguments Raise {A} e.

Definition bind {A B : Type} (m : res A) (f : A -> res B) : res B :=
  match m with
  | Ok a => f a
  | Raise e => Raise e
  end.

Notation "'do' x <- m ; f" := (bind m (fun x => f))
  (at level 10, x name, m at level 100, f at level 200).

Definition is_some {A : Type} (o : option A) : bool :=
  match o with Some _ => true | None => false end.


(* ================================================================== *)
(** * The data model *)
(* ================================================================== *)

(** One object of the manifest's [files] field.  A key that is absent is
    [None]. *)
Record FileInfo : Type := mkFileInfo {
  fi_filename : option string;
  fi_status : option string;
  fi_description : option string;
  fi_exists : option bool;
  fi_size : option Z;
  fi_modified : option string
}.

(** The [files] field: an array of objects, or an object of objects in the
    order of its keys. *)
Inductive FilesData : Type :=
| FilesList (l : list FileInfo)
| FilesDict (d : list (string * FileInfo)).

(** A decoded [file_status.json].  [m_other_keys] tells whether the object
    has keys besides the ones named here; it only matters for the
    truthiness of the object. *)
Record Manifest : Type := mkManifest {
  m_hostname : option string;
  m_oracle_sid : option string;
  m_sid : option string;
  m_collect_date : option string;
  m_inspection_time : option string;
  m_dbname : option string;
  m_db_model : option string;
  m_files : option FilesData;
  m_other_keys : bool
}.

(** [bool(data)] for the decoded object: it has a key. *)
Definition manifest_truthy (m : Manifest) : bool :=
  is_some (m_hostname m) || is_some (m_oracle_sid m) || is_some (m_sid m)
  || is_some (m_collect_date m) || is_some (m_inspection_time m)
  || is_some (m_dbname m) || is_some (m_db_model m)
  || match m_files m with Some _ => true | None => false end
  || m_other_keys m.

(** The environment a run reads. *)
Record Env : Type := mkEnv {
  path_exists : string -> bool;           (* [os.path.exists], [Path.exists] *)
  path_is_dir : string -> bool;           (* [os.path.isdir], [Path.is_dir]  *)
  listdir : string -> option (list string);
    (* [os.listdir]; [None]: it raises (not a directory, no permission) *)
  load_json : string -> option Manifest;  (* [json.load]; [None]: it raises  *)
  mkdir_ok : string -> bool;              (* [mkdir(parents, exist_ok)] succeeds *)
  writable : string -> bool;              (* [open(path, 'w')] and the dump succeed *)
  set_first : list string -> option string;
    (* [list(s)[0]] for the set of the given distinct strings: the order of
       a set of strings changes with the hash seed of the process *)
  today : string;                         (* [now().strftime("%Y%m%d")]      *)
  now_iso : string;                       (* [now().isoformat()]             *)
  base_path : string
    (* [str(Config.BASE_PATH)]: the fourth parent of [parser.py] *)
}.

(** A value of a node's [files] object in the document. *)
Record FileEntry : Type := mkFileEntry {
  fe_path : string;
  fe_exists : option bool;
  fe_size : option Z;
  fe_modified : option string;
  fe_filename : option string;
  fe_status : option string;
  fe_description : option string
}.

Inductive ValidationStatus : Type := passed | failed.

(** An element of [metainfo]. *)
Record NodeRecord : Type := mkNodeRecord {
  nr_hostname : option string;
  nr_sid : option string;
  nr_dbname : option string;
  nr_collect_date : option string;
  nr_source_dir : string;
  nr_node_info : option (nat * string);   (* node_number, node_name *)
  nr_files : gmap string FileEntry;
  nr_validation_status : option ValidationStatus
}.

Record ClusterInfoField : Type := mkClusterInfoField {
  ci_cluster_name : option string;
  ci_dbname : option string;
  ci_node_count : nat;
  ci_consistency_check : bool
}.

(** The document ([meta_data]). *)
Record Document : Type := mkDocument {
  doc_version : string;
  doc_dbtype : string;
  doc_dbmodel : string;
  doc_identifier : string;
  doc_timestamp : string;
  doc_metainfo : list NodeRecord;
  doc_cluster_info : option ClusterInfoField
}.

Definition set_identifier (d : Document) (i : string) : Document :=
  mkDocument (doc_version d) (doc_dbtype d) (doc_dbmodel d) i
             (doc_timestamp d) (doc_metainfo d) (doc_cluster_info d).

Definition set_timestamp (d : Document) (t : string) : Document :=
  mkDocument (doc_version d) (doc_dbtype d) (doc_dbmodel d) (doc_identifier d)
             t (doc_metainfo d) (doc_cluster_info d).

Definition set_metainfo (d : Document) (l : list NodeRecord) : Document :=
  mkDocument (doc_version d) (doc_dbtype d) (doc_dbmodel d) (doc_identifier d)
             (doc_timestamp d) l (doc_cluster_info d).

Definition set_cluster_info (d : Document) (c : option ClusterInfoField) : Document :=
  mkDocument (doc_version d) (doc_dbtype d) (doc_dbmodel d) (doc_identifier d)
             (doc_timestamp d) (doc_metainfo d) c.

Definition set_validation_status (n : NodeRecord) (v : ValidationStatus) : NodeRecord :=
  mkNodeRecord (nr_hostname n) (nr_sid n) (nr_dbname n) (nr_collect_date n)
               (nr_source_dir n) (nr_node_info n) (nr_files n) (Some v).

Definition mem_str (x : string) (l : list string) : bool :=
  List.existsb (String.eqb x) l.

(* ================================================================== *)
(** * json_schema.py *)
(* ================================================================== *)

Module JsonSchemaValidator.

Definition CURRENT_VERSION : string := "2.0".

(** The reasons [validate_json] gives, in the order it checks them.  The
    top-level and per-record required keys are always present in
    [Document] and [NodeRecord]. *)
Inductive error : Type :=
| EmptyVersion
| BadDbtype
| BadDbmodel
| BadIdentifier
| EmptyMetainfo
| OneNeedsExactlyOne
| RacNeedsTwo
| BadCollectDate (idx : nat)
| MissingNodeInfo (idx : nat)
| NodeNumberRange (idx : nat)
| ValidationRaised.           (* the [except Exception] branch *)

Definition valid_dbtypes : list string :=
  ["oracle"; "mysql"; "postgresql"; "sqlserver"; "oracle_db_file"].

Definition valid_dbmodels : list string := ["one"; "rac"].

(** The loop over [enumerate(data["metainfo"])]. *)
Fixpoint validate_metainfo (dbmodel : string) (idx : nat) (l : list NodeRecord)
  : option error :=
  match l with
  | [] => None
  | meta :: l' =>
      match nr_collect_date meta with
      | None => Some ValidationRaised        (* [re.match] on [None] *)
      | Some d =>
          if negb (is_some (Re.re_match Re.date8 d)) then Some (BadCollectDate idx)
          else if String.eqb dbmodel "rac" then
            match nr_node_info meta with
            | None => Some (MissingNodeInfo idx)
            | Some (node_number, _) =>
                if negb ((1 <=? node_number)%nat && (node_number <=? 4)%nat)
                then Some (NodeNumberRange idx)
                else validate_metainfo dbmodel (S idx) l'
            end
          else validate_metainfo dbmodel (S idx) l'
      end
  end.

(** [validate_json(data)]: [None] is [(True, None)], [Some e] is
    [(False, message)]. *)
Definition validate_json (data : Document) : option error :=
  if negb (Py.nonempty (doc_version data)) then Some EmptyVersion
  else if negb (mem_str (doc_dbtype data) valid_dbtypes) then Some BadDbtype
  else if negb (mem_str (doc_dbmodel data) valid_dbmodels) then Some BadDbmodel
  else if negb (is_some (Re.re_match Re.ident (doc_identifier data)))
       then Some BadIdentifier
  else if (List.length (doc_metainfo data) =? 0)%nat then Some EmptyMetainfo
  else if String.eqb (doc_dbmodel data) "one"
          && negb (List.length (doc_metainfo data) =? 1)%nat
       then Some OneNeedsExactlyOne
  else if String.eqb (doc_dbmodel data) "rac"
          && (List.length (doc_metainfo data) <? 2)%nat
       then Some RacNeedsTwo
  else validate_metainfo (doc_dbmodel data) 0 (doc_metainfo data).

(** [generate_filename]: [f"({dbtype}-{dbmodel})-{identifier}.json"]. *)
Definition generate_filename (dbtype dbmodel identifier : string) : string :=
  "(" ++ dbtype ++ "-" ++ dbmodel ++ ")-" ++ identifier ++ ".json".

(** [parse_filename]: the three groups of the pattern, or [None]. *)
Definition parse_filename (filename : string) : option (string * string * string) :=
  match Re.re_match Re.filename_pattern filename with
  | Some m =>
      match Re.group m 1, Re.group m 2, Re.group m 3 with
      | Some t, Some md, Some i => Some (t, md, i)
      | _, _, _ => None
      end
  | None => None
  end.

(** [create_empty_json]. *)
Definition create_empty_json (env : Env) (dbtype dbmodel identifier : string)
  : Document :=
  mkDocument CURRENT_VERSION dbtype dbmodel identifier (now_iso env) [] None.

End JsonSchemaValidator.

(* ================================================================== *)
(** * rac_parser.py *)
(* ================================================================== *)

Module RacNodeInfo.

Record t : Type := mk {
  directory : string;
  dirname : string;
  hostname : option string;
  sid : option string;
  dbname : option string;
  collect_date : option string;
  file_status_path : option string;
  file_status_data : option Manifest
}.

(** [_parse_dirname]: [hostname_sid_date], the database name being the sid
    without its digit suffix. *)
Definition _parse_dirname (self : t) : t :=
  match Py.split "_"%char (dirname self) with
  | p0 :: p1 :: p2 :: _ =>
      mk (directory self) (dirname self) (Some p0) (Some p1)
         (Some (Re.re_sub Re.digits_eol "" p1)) (Some p2)
         (file_status_path self) (file_status_data self)
  | _ => self
  end.

(** The body of the [try] of [_load_file_status], once [json.load] has
    returned [data]. *)
Definition apply_file_status (self : t) (path : string) (data : Manifest) : t :=
  let hostname' :=
    match m_hostname data with Some h => Some h | None => hostname self end in
  let sid' :=
    match m_oracle_sid data with
    | Some s => Some s
    | None => match m_sid data with Some s => Some s | None => sid self end
    end in
  let dbname' :=
    match sid' with
    | Some s => if Py.nonempty s then Some (Re.re_sub Re.digits_eol "" s)
                else dbname self
    | None => dbname self
    end in
  mk (directory self) (dirname self) hostname' sid' dbname'
     (collect_date self) (Some path) (Some data).

(** [_load_file_status]. *)
Definition _load_file_status (env : Env) (self : t) : t :=
  let path := Py.path_join (directory self) "file_status.json" in
  let self' := mk (directory self) (dirname self) (hostname self) (sid self)
                  (dbname self) (collect_date self) (Some path)
                  (file_status_data self) in
  if path_exists env path then
    match load_json env path with
    | Some data => apply_file_status self' path data
    | None => self'                          (* the [except] branch *)
    end
  else self'.

(** [__init__]. *)
Definition init (env : Env) (directory : string) : t :=
  _load_file_status env
    (_parse_dirname
       (mk directory (Py.basename directory) None None None None None None)).

(** [is_valid]: [all([hostname, sid, dbname, file_status_data])]. *)
Definition is_valid (self : t) : bool :=
  Py.truthy (hostname self) && Py.truthy (sid self) && Py.truthy (dbname self)
  && match file_status_data self with
     | Some data => manifest_truthy data
     | None => false
     end.

End RacNodeInfo.

Module RacClusterInfo.

Record t : Type := mk {
  nodes : list RacNodeInfo.t;
  dbname : option string;
  cluster_name : option string;
  node_count : nat;
  collect_date : option string
}.

(** [set(f(node) for node in nodes if f(node))]: the distinct truthy
    values. *)
Definition truthy_set (f : RacNodeInfo.t -> option string)
           (nodes : list RacNodeInfo.t) : list string :=
  Py.distinct
    (List.flat_map (fun n => match f n with
                             | Some v => if Py.nonempty v then [v] else []
                             | None => []
                             end) nodes).

(** [__init__] with [_extract_cluster_info]. *)
Definition init (env : Env) (nodes : list RacNodeInfo.t) : res t :=
  match nodes with
  | [] => Raise (ValueError "RAC cluster needs at least one node")
  | first :: _ =>
      let dbnames := truthy_set RacNodeInfo.dbname nodes in
      let dbname :=
        match dbnames with
        | [d] => Some d
        | [] => None
        | _ => set_first env dbnames
        end in
      let dates := truthy_set RacNodeInfo.collect_date nodes in
      let collect_date :=
        match dates with
        | [d] => Some d
        | _ => Py.max_str dates
        end in
      match RacNodeInfo.hostname first with
      | None => Raise TypeError              (* [re.sub] on [None] *)
      | Some h =>
          Ok (mk nodes dbname (Some (Re.re_sub Re.digits_eol "" h))
                 (List.length nodes) collect_date)
      end
  end.

Inductive issue : Type :=
| DbnameMismatch
| DateMismatch
| MissingFileStatus (hostname : option string)
| DbModelMismatch
| DbModelNotRac.

Definition has_data (n : RacNodeInfo.t) : bool :=
  match RacNodeInfo.file_status_data n with
  | Some data => manifest_truthy data
  | None => false
  end.

(** The [db_model] values of the nodes' manifests, as a set. *)
Definition db_models (nodes : list RacNodeInfo.t) : list string :=
  Py.distinct
    (List.flat_map (fun n => match RacNodeInfo.file_status_data n with
                             | Some data =>
                                 if manifest_truthy data then
                                   match m_db_model data with
                                   | Some v => [v]
                                   | None => []
                                   end
                                 else []
                             | None => []
                             end) nodes).

(** [validate_consistency]. *)
Definition validate_consistency (self : t) : bool * list issue :=
  let i1 := if (1 <? List.length (truthy_set RacNodeInfo.dbname (nodes self)))%nat
            then [DbnameMismatch] else [] in
  let i2 := if (1 <? List.length (truthy_set RacNodeInfo.collect_date (nodes self)))%nat
            then [DateMismatch] else [] in
  let i3 := List.flat_map
              (fun n => if has_data n then []
                        else [MissingFileStatus (RacNodeInfo.hostname n)])
              (nodes self) in
  let ms := db_models (nodes self) in
  let i4 := if (1 <? List.length ms)%nat then [DbModelMismatch]
            else if negb (List.length ms =? 0)%nat && negb (mem_str "rac" ms)
                 then [DbModelNotRac] else [] in
  let issues := i1 ++ i2 ++ i3 ++ i4 in
  ((List.length issues =? 0)%nat, issues).

(** [generate_identifier]: the non-empty ones of cluster name, database
    name and date, joined by ['_']; else the first node's directory name. *)
Definition generate_identifier (self : t) : string :=
  let part (o : option string) :=
    match o with
    | Some v => if Py.nonempty v then [v] else []
    | None => []
    end in
  let parts := part (cluster_name self) ++ part (dbname self)
               ++ part (collect_date self) in
  match parts with
  | [] => match nodes self with
          | n :: _ => RacNodeInfo.dirname n
          | [] => "unknown_rac"
          end
  | _ => Py.join "_" parts
  end.

End RacClusterInfo.

Module RacParser.

(** The loop of [parse_rac_directories]: the directories that exist and
    give a valid node, in input order. *)
Fixpoint parse_nodes (env : Env) (directories : list string)
  : list RacNodeInfo.t :=
  match directories with
  | [] => []
  | directory :: rest =>
      if negb (path_exists env directory) then parse_nodes env rest
      else
        let node := RacNodeInfo.init env directory in
        if RacNodeInfo.is_valid node then node :: parse_nodes env rest
        else parse_nodes env rest
  end.

(** [parse_rac_directories]. *)
Definition parse_rac_directories (env : Env) (directories : list string)
  : res RacClusterInfo.t :=
  match directories with
  | [] => Raise (ValueError "at least one RAC node directory is needed")
  | _ =>
      match parse_nodes env directories with
      | [] => Raise (ValueError "no valid RAC node")
      | nodes => RacClusterInfo.init env nodes
      end
  end.

(** The entry [merge_node_files] makes of an array element that has both
    keys. *)
Definition list_entry (directory filename status : string) (fi : FileInfo)
  : FileEntry :=
  mkFileEntry (Py.path_join directory filename)
              (Some (default false (fi_exists fi)))
              (Some (default 0%Z (fi_size fi)))
              None
              (Some filename) (Some status)
              (Some (default "" (fi_description fi))).

(** The [for file_info in files_data] loop over the array format. *)
Fixpoint merge_list (directory : string) (l : list FileInfo)
         (files : gmap string FileEntry) : gmap string FileEntry :=
  match l with
  | [] => files
  | fi :: l' =>
      match fi_filename fi, fi_status fi with
      | Some filename, Some status =>
          let key := List.hd "" (Py.split "."%char filename) in
          merge_list directory l'
                     (<[key := list_entry directory filename status fi]> files)
      | _, _ => merge_list directory l' files
      end
  end.

(** The entry made of a value of the object format: the value itself with
    its [path] set. *)
Definition dict_entry (directory key : string) (fi : FileInfo) : FileEntry :=
  mkFileEntry (Py.path_join directory (default (key ++ ".txt")%string (fi_filename fi)))
              (fi_exists fi) (fi_size fi) (fi_modified fi)
              (fi_filename fi) (fi_status fi) (fi_description fi).

Fixpoint merge_dict (directory : string) (d : list (string * FileInfo))
         (files : gmap string FileEntry) : gmap string FileEntry :=
  match d with
  | [] => files
  | (key, fi) :: d' =>
      merge_dict directory d' (<[key := dict_entry directory key fi]> files)
  end.

Definition node_files (node : RacNodeInfo.t) : gmap string FileEntry :=
  match RacNodeInfo.file_status_data node with
  | Some data =>
      if manifest_truthy data then
        match m_files data with
        | Some (FilesList l) => merge_list (RacNodeInfo.directory node) l ∅
        | Some (FilesDict d) => merge_dict (RacNodeInfo.directory node) d ∅
        | None => ∅
        end
      else ∅
  | None => ∅
  end.

Definition node_record (idx : nat) (node : RacNodeInfo.t) : NodeRecord :=
  mkNodeRecord (RacNodeInfo.hostname node) (RacNodeInfo.sid node)
               (RacNodeInfo.dbname node) (RacNodeInfo.collect_date node)
               (RacNodeInfo.directory node)
               (Some (idx, ("node" ++ Py.str_of_nat idx)%string))
               (node_files node)
               (Some (if RacNodeInfo.is_valid node then passed else failed)).

(** [for idx, node in enumerate(cluster.nodes, 1)]. *)
Fixpoint merge_from (idx : nat) (nodes : list RacNodeInfo.t) : list NodeRecord :=
  match nodes with
  | [] => []
  | node :: rest => node_record idx node :: merge_from (S idx) rest
  end.

(** [merge_node_files]. *)
Definition merge_node_files (cluster : RacClusterInfo.t) : list NodeRecord :=
  merge_from 1 (RacClusterInfo.nodes cluster).

(** [rac_groups]: a [dict] from group key to the list of its
    directories, in insertion order. *)
Definition groups := list (string * list string).

(** [if key not in rac_groups: rac_groups[key] = []] and
    [rac_groups[key].append(subdir)]. *)
Fixpoint add_to_group (key subdir : string) (g : groups) : groups :=
  match g with
  | [] => [(key, [subdir])]
  | (k, members) :: g' =>
      if String.eqb k key then (k, members ++ [subdir]) :: g'
      else (k, members) :: add_to_group key subdir g'
  end.

(** The key of a directory that matches the naming pattern:
    [f"{cluster_prefix}_{sid_prefix}_{date}"]. *)
Definition group_key (subdir : string) : option string :=
  match Re.re_match Re.rac_dir_pattern (Py.basename subdir) with
  | Some m =>
      match Re.group m 1, Re.group m 3, Re.group m 5 with
      | Some cluster_prefix, Some sid_prefix, Some date =>
          Some (cluster_prefix ++ "_" ++ sid_prefix ++ "_" ++ date)%string
      | _, _, _ => None
      end
  | None => None
  end.

Definition group_subdirs (key_of : string -> option string)
           (subdirs : list string) : groups :=
  fold_left (fun g subdir => match key_of subdir with
                             | Some key => add_to_group key subdir g
                             | None => g
                             end) subdirs [].

(** [max(values, key=len)]: the first of the longest. *)
Definition max_by_len (vs : list (list string)) : list string :=
  match vs with
  | [] => []
  | v :: vs' =>
      fold_left (fun m x => if (List.length m <? List.length x)%nat then x else m)
                vs' v
  end.

(** What [detect_rac_nodes] returns for the sub-directories it collected. *)
Definition largest_group (key_of : string -> option string)
           (subdirs : list string) : list string :=
  match group_subdirs key_of subdirs with
  | [] => []
  | g =>
      let largest := max_by_len (List.map snd g) in
      if (1 <? List.length largest)%nat then Py.sorted largest else []
  end.

(** [detect_rac_nodes]; [os.listdir] is not under a [try]. *)
Definition detect_rac_nodes (env : Env) (base_dir : string) : res (list string) :=
  if negb (path_exists env base_dir) then Ok []
  else
    match listdir env base_dir with
    | None => Raise OSError
    | Some items =>
        let subdirs :=
          List.filter (path_is_dir env)
                      (List.map (Py.path_join base_dir) items) in
        Ok (largest_group group_key subdirs)
    end.

End RacParser.

(* ================================================================== *)
(** * parser.py *)
(* ================================================================== *)

Module Config.

(** [DEFAULT_JSON_DIR = BASE_PATH / "data" / "json"]. *)
Definition DEFAULT_JSON_DIR (env : Env) : string :=
  Path.div (Path.div (base_path env) "data") "json".

Definition FILE_STATUS_JSON : string := "file_status.json".

(** [SUPPORTED_DATABASES]: the required files of each database type. *)
Definition SUPPORTED_DATABASES : list (string * list string) :=
  [ ("oracle", ["file_status.json"; "01_system_info.txt"; "02_hardware_info.json"]);
    ("oracle_db_file", ["file_status.json"; "01_system_info.txt"; "02_hardware_info.json"]);
    ("mysql", ["file_status.json"; "mysql_status.json"]);
    ("postgresql", ["file_status.json"; "pg_status.json"]);
    ("sqlserver", ["file_status.json"; "sqlserver_status.json"]) ].

Fixpoint lookup_db (db_type : string) (l : list (string * list string))
  : option (list string) :=
  match l with
  | [] => None
  | (k, v) :: l' => if String.eqb k db_type then Some v else lookup_db db_type l'
  end.

End Config.

(** What [generate_meta_json] logs. *)
Inductive log_event : Type :=
| LogValidationFailed (e : JsonSchemaValidator.error)
| LogWritten (path : string) (node_count : nat)
| LogWriteFailed.

(** What a call leaves behind: its return value, the file it wrote, its
    log. *)
Record outcome : Type := mkOutcome {
  ret : bool;
  written : option (string * Document);
  log : list log_event
}.

Definition failure : outcome := mkOutcome false None [].

Module DatabaseMetaParser.

Record t : Type := mk {
  db_type : string;
  db_model : string;
  required_files : list string;           (* [db_config['required_files']] *)
  import_dirs : list string;
  json_out_dir : string;
  identifier : option string;
  meta_data : Document
}.

Definition set_meta_data (self : t) (d : Document) : t :=
  mk (db_type self) (db_model self) (required_files self) (import_dirs self)
     (json_out_dir self) (identifier self) d.

Definition set_self_identifier (self : t) (i : option string) : t :=
  mk (db_type self) (db_model self) (required_files self) (import_dirs self)
     (json_out_dir self) i (meta_data self).

(** [__init__]: the parameter checks, then the attributes: the
    directories as [Path]s, the output directory as a [Path] or the default
    one when it is empty, and the empty document. *)
Definition init (env : Env) (db_type db_model : string)
           (import_dirs : list string) (json_out_dir : string)
           (identifier : option string) : res t :=
  match Config.lookup_db db_type Config.SUPPORTED_DATABASES with
  | None => Raise (ValueError "unsupported database type")
  | Some required =>
      if negb (mem_str db_model ["one"; "rac"])
      then Raise (ValueError "unsupported database model")
      else if (List.length import_dirs =? 0)%nat
      then Raise (ValueError "at least one input directory is needed")
      else if String.eqb db_model "one" && negb (List.length import_dirs =? 1)%nat
      then Raise (ValueError "single mode needs exactly one input directory")
      else if String.eqb db_model "rac"
              && negb ((2 <=? List.length import_dirs)%nat
                       && (List.length import_dirs <=? 4)%nat)
      then Raise (ValueError "RAC mode needs 2 to 4 input directories")
      else
        Ok (mk db_type db_model required (List.map Path.normal import_dirs)
               (if Py.nonempty json_out_dir then Path.normal json_out_dir
                else Config.DEFAULT_JSON_DIR env)
               identifier
               (JsonSchemaValidator.create_empty_json env db_type db_model
                  (default "temp" (Py.or_else identifier None))))
  end.

(** [_extract_identifier_from_dir]: (hostname, sid, dbname, collect_date)
    from [hostname_sid_date], or the defaults. *)
Definition _extract_identifier_from_dir (env : Env) (dir_path : string)
  : string * string * string * string :=
  let dir_name := Path.name dir_path in
  let parts := Py.split "_"%char dir_name in
  let fallback := ("unknown", "unknown", "unknown", today env) in
  if (3 <=? List.length parts)%nat then
    let date_part := List.last parts "" in
    if is_some (Re.re_match Re.date8 date_part) then
      let hostname := List.hd "" parts in
      let sid_or_dbname :=
        if (3 <? List.length parts)%nat
        then Py.join "_" (List.removelast (List.tl parts))
        else List.nth 1 parts "" in
      (hostname, sid_or_dbname, sid_or_dbname, date_part)
    else fallback
  else fallback.

(** The part of [_generate_identifier] after the early return: the
    identifier of the first input directory, with every character outside
    [[a-zA-Z0-9_-]] replaced. *)
Definition derived_identifier (env : Env) (self : t) : res string :=
  match import_dirs self with
  | [] => Raise IndexError
  | first_dir :: _ =>
      let '(hostname, sid, dbname, collect_date) :=
        _extract_identifier_from_dir env first_dir in
      let identifier :=
        if String.eqb (db_model self) "one"
        then (hostname ++ "_" ++ sid ++ "_" ++ collect_date)%string
        else (dbname ++ "_" ++ collect_date)%string in
      Ok (Re.re_sub Re.not_ident "_" identifier)
  end.

(** [_generate_identifier]: [if self.identifier: return self.identifier]
    comes first. *)
Definition _generate_identifier (env : Env) (self : t) : res string :=
  match identifier self with
  | Some i => if Py.nonempty i then Ok i else derived_identifier env self
  | None => derived_identifier env self
  end.

(** The date of the record: [collect_date], else the first ten characters
    of [inspection_time] without ['-'], else the directory's date. *)
Definition actual_date (data : Manifest) (collect_date : string) : string :=
  let from_data :=
    if Py.truthy (m_collect_date data) then m_collect_date data
    else
      match m_inspection_time data with
      | Some inspection_time =>
          if Py.nonempty inspection_time
             && (10 <=? String.length inspection_time)%nat
          then Some (Py.remove_char "-"%char (Py.take 10 inspection_time))
          else m_collect_date data
      | None => m_collect_date data
      end in
  default collect_date (Py.or_else from_data None).

(** The entry [parse_file_status] makes of a file object. *)
Definition status_entry (path : string) (fi : FileInfo) : FileEntry :=
  mkFileEntry path (Some (default false (fi_exists fi)))
              (Some (default 0%Z (fi_size fi))) (fi_modified fi)
              None None None.

Fixpoint files_of_list (directory : string) (l : list FileInfo)
         (files : gmap string FileEntry) : gmap string FileEntry :=
  match l with
  | [] => files
  | fi :: l' =>
      let filename := default "" (fi_filename fi) in
      if Py.nonempty filename then
        files_of_list directory l'
          (<[Py.stem filename := status_entry (Path.div directory filename) fi]> files)
      else files_of_list directory l' files
  end.

Fixpoint files_of_dict (directory : string) (d : list (string * FileInfo))
         (files : gmap string FileEntry) : gmap string FileEntry :=
  match d with
  | [] => files
  | (file_key, fi) :: d' =>
      let filename := default "" (fi_filename fi) in
      let path := if Py.nonempty filename then Path.div directory filename
                  else "" in
      files_of_dict directory d' (<[file_key := status_entry path fi]> files)
  end.

(** [parse_file_status]: the record of one directory, [None] on any
    failure. *)
Definition parse_file_status (env : Env) (self : t) (directory : string)
           (node_number : option nat) : option NodeRecord :=
  let status_file := Py.path_join directory Config.FILE_STATUS_JSON in
  if negb (path_exists env status_file) then None
  else
    match load_json env status_file with
    | None => None
    | Some data =>
        match m_hostname data, m_files data with
        | Some data_hostname, Some files_data =>
            if negb (is_some (m_sid data)) && negb (is_some (m_oracle_sid data))
            then None
            else if negb (is_some (m_collect_date data))
                    && negb (is_some (m_inspection_time data))
            then None
            else
              let '(hostname, sid, dbname, collect_date) :=
                _extract_identifier_from_dir env directory in
              let actual_sid :=
                default sid (Py.or_else (m_sid data)
                                        (Py.or_else (m_oracle_sid data) None)) in
              let node_info :=
                match node_number with
                | Some n =>
                    if String.eqb (db_model self) "rac" && negb (n =? 0)%nat
                    then Some (n, ("node" ++ Py.str_of_nat n)%string)
                    else None
                | None => None
                end in
              let files :=
                match files_data with
                | FilesList l => files_of_list directory l ∅
                | FilesDict d => files_of_dict directory d ∅
                end in
              Some (mkNodeRecord (Some data_hostname) (Some actual_sid)
                                 (Some (default dbname (m_dbname data)))
                                 (Some (actual_date data collect_date))
                                 directory node_info files None)
        | _, _ => None
        end
    end.

(** The second loop of [validate_directory]: a recorded [exists] that
    differs from the file system. *)
Definition entry_consistent (env : Env) (e : FileEntry) : bool :=
  if Py.nonempty (fe_path e)
  then Bool.eqb (default false (fe_exists e)) (path_exists env (fe_path e))
  else true.

(** [validate_directory]. *)
Definition validate_directory (env : Env) (self : t) (directory : string)
           (data : NodeRecord) : bool :=
  List.forallb (fun required_file =>
                  path_exists env (Py.path_join directory required_file))
               (required_files self)
  && List.forallb (fun kv => entry_consistent env (snd kv))
                  (map_to_list (nr_files data)).

(** [generate_meta_json].  The second component is the parser after the
    call ([meta_data["identifier"]] is set before anything can fail). *)
Definition generate_meta_json (env : Env) (self : t) : res (t * outcome) :=
  if negb (mkdir_ok env (json_out_dir self)) then Raise OSError
  else
    do final_identifier <- _generate_identifier env self;
    let self := set_meta_data self (set_identifier (meta_data self) final_identifier) in
    let filename :=
      JsonSchemaValidator.generate_filename (db_type self) (db_model self)
                                            final_identifier in
    let output_file := Path.div (json_out_dir self) filename in
    match JsonSchemaValidator.validate_json (meta_data self) with
    | Some error_msg =>
        Ok (self, mkOutcome false None [LogValidationFailed error_msg])
    | None =>
        if writable env output_file then
          Ok (self, mkOutcome true (Some (output_file, meta_data self))
                              [LogWritten output_file
                                          (List.length (doc_metainfo (meta_data self)))])
        else Ok (self, mkOutcome false None [LogWriteFailed])
    end.

(** [_parse_rac_mode]; the whole body is under [try], so an exception is a
    [False]. *)
Definition rac_mode_body (env : Env) (self : t) : res (t * outcome) :=
  do cluster <- RacParser.parse_rac_directories env (import_dirs self);
  let '(is_consistent, issues) := RacClusterInfo.validate_consistency cluster in
  let metainfo := RacParser.merge_node_files cluster in
  let self := set_meta_data self (set_metainfo (meta_data self) metainfo) in
  let self :=
    if Py.truthy (identifier self) then self
    else set_self_identifier self (Some (RacClusterInfo.generate_identifier cluster)) in
  let self :=
    if Py.truthy (RacClusterInfo.dbname cluster) then
      set_meta_data self
        (set_cluster_info (meta_data self)
           (Some (mkClusterInfoField (RacClusterInfo.cluster_name cluster)
                                     (RacClusterInfo.dbname cluster)
                                     (RacClusterInfo.node_count cluster)
                                     is_consistent)))
    else self in
  let self := set_meta_data self (set_timestamp (meta_data self) (now_iso env)) in
  generate_meta_json env self.

Definition _parse_rac_mode (env : Env) (self : t) : t * outcome :=
  match rac_mode_body env self with
  | Ok r => r
  | Raise _ => (self, failure)
  end.

(** The loop of the single-instance path of [parse]: [None] is the early
    [return False]. *)
Fixpoint parse_dirs (env : Env) (self : t) (dirs : list string)
  : option (list NodeRecord) :=
  match dirs with
  | [] => Some []
  | directory :: rest =>
      match parse_file_status env self directory None with
      | None => None
      | Some meta_item =>
          let meta_item :=
            if validate_directory env self directory meta_item
            then set_validation_status meta_item passed
            else set_validation_status meta_item failed in
          match parse_dirs env self rest with
          | Some items => Some (meta_item :: items)
          | None => None
          end
      end
  end.

(** [parse]. *)
Definition parse (env : Env) (self : t) : res (t * outcome) :=
  if negb (List.forallb (fun d => path_exists env d && path_is_dir env d)
                        (import_dirs self))
  then Ok (self, failure)
  else if String.eqb (db_model self) "rac" then Ok (_parse_rac_mode env self)
  else
    match parse_dirs env self (import_dirs self) with
    | None => Ok (self, failure)
    | Some items =>
        let self :=
          set_meta_data self
            (set_metainfo (meta_data self) (doc_metainfo (meta_data self) ++ items)) in
        if (List.length (doc_metainfo (meta_data self)) =? 0)%nat
        then Ok (self, failure)
        else
          let self := set_meta_data self
                        (set_timestamp (meta_data self) (now_iso env)) in
          generate_meta_json env self
    end.

End DatabaseMetaParser.

(* ================================================================== *)
(** * mysql/parser.py *)
(* ================================================================== *)

Module MySQLMetaParser.

Record t : Type := mk {
  db_type : string;
  db_model : string;
  import_dirs : list string;
  json_out_dir : string;
  identifier : option string;
  meta_data : Document
}.

Definition set_meta_data (self : t) (d : Document) : t :=
  mk (db_type self) (db_model self) (import_dirs self) (json_out_dir self)
     (identifier self) d.

(** [__init__]: no parameter is checked; the directories and the output
    directory become [Path]s as in the generic parser. *)
Definition init (env : Env) (import_dirs : list string) (json_out_dir : string)
           (identifier : option string) : t :=
  mk "mysql" "one" (List.map Path.normal import_dirs)
     (if Py.nonempty json_out_dir then Path.normal json_out_dir
      else Config.DEFAULT_JSON_DIR env)
     identifier
     (JsonSchemaValidator.create_empty_json env "mysql" "one"
        (default "unknown" (Py.or_else identifier None))).

(** [_extract_identifier_from_dir]: (hostname, dbname, collect_date). *)
Definition _extract_identifier_from_dir (env : Env) (dir_path : string)
  : string * string * string :=
  let parts := Py.split "_"%char (Path.name dir_path) in
  let fallback := ("unknown", "mysql", today env) in
  if (3 <=? List.length parts)%nat then
    let date_part := List.last parts "" in
    if is_some (Re.re_match Re.date8 date_part) then
      (List.hd "" parts,
       if (3 <? List.length parts)%nat
       then Py.join "_" (List.removelast (List.tl parts))
       else List.nth 1 parts "",
       date_part)
    else fallback
  else fallback.

(** [_generate_identifier]. *)
Definition _generate_identifier (env : Env) (self : t) : res string :=
  if Py.truthy (identifier self) then Ok (default "" (identifier self))
  else
    match import_dirs self with
    | [] => Raise IndexError
    | first_dir :: _ =>
        let '(hostname, dbname, collect_date) :=
          _extract_identifier_from_dir env first_dir in
        Ok (Re.re_sub Re.not_ident "_"
                      (hostname ++ "_" ++ dbname ++ "_" ++ collect_date)%string)
    end.

Definition mysql_entry (path : string) (fi : FileInfo) : FileEntry :=
  mkFileEntry path (Some (default false (fi_exists fi)))
              (Some (default 0%Z (fi_size fi))) None None None None.

Fixpoint files_of_list (directory : string) (l : list FileInfo)
         (files : gmap string FileEntry) : gmap string FileEntry :=
  match l with
  | [] => files
  | fi :: l' =>
      let filename := default "" (fi_filename fi) in
      if Py.nonempty filename then
        files_of_list directory l'
          (<[Py.stem filename := mysql_entry (Path.div directory filename) fi]> files)
      else files_of_list directory l' files
  end.

(** [parse_file_status]: the sid is the constant ["mysql"]; the record's
    [mysql_connection] field is not part of [NodeRecord]. *)
Definition parse_file_status (env : Env) (self : t) (directory : string)
  : option NodeRecord :=
  let status_file := Py.path_join directory Config.FILE_STATUS_JSON in
  if negb (path_exists env status_file) then None
  else
    match load_json env status_file with
    | None => None
    | Some data =>
        match m_hostname data, m_files data with
        | Some data_hostname, Some files_data =>
            if negb (is_some (m_collect_date data))
               && negb (is_some (m_inspection_time data))
            then None
            else
              let '(hostname, dbname, collect_date) :=
                _extract_identifier_from_dir env directory in
              let files :=
                match files_data with
                | FilesList l => files_of_list directory l ∅
                | FilesDict _ => ∅
                end in
              Some (mkNodeRecord (Some data_hostname) (Some "mysql") (Some dbname)
                      (Some (DatabaseMetaParser.actual_date data collect_date))
                      directory None files None)
        | _, _ => None
        end
    end.

Definition required_files : list string :=
  ["file_status.json"; "01_system_info.txt"; "02_hardware_info.json"].

(** [validate_directory]. *)
Definition validate_directory (env : Env) (directory : string) : bool :=
  List.forallb (fun required_file =>
                  path_exists env (Py.path_join directory required_file))
               required_files.

(** The body of the [try] of [generate_meta_json]: a failed validation is
    logged and the write follows; a write that raises is the [except]
    branch. *)
Definition generate_body (env : Env) (self : t) : res (t * outcome) :=
  if negb (mkdir_ok env (json_out_dir self)) then Raise OSError
  else
    do self <- (if Py.truthy (identifier self) then Ok self
                else do i <- _generate_identifier env self;
                     Ok (mk (db_type self) (db_model self) (import_dirs self)
                            (json_out_dir self) (Some i)
                            (set_identifier (meta_data self) i)));
    let filename :=
      JsonSchemaValidator.generate_filename
        (db_type self) (db_model self) (default "" (identifier self)) in
    let output_file := Path.div (json_out_dir self) filename in
    let validation_log :=
      match JsonSchemaValidator.validate_json (meta_data self) with
      | Some error_msg => [LogValidationFailed error_msg]
      | None => []
      end in
    if writable env output_file then
      Ok (self, mkOutcome true (Some (output_file, meta_data self))
                          (validation_log ++
                           [LogWritten output_file
                                       (List.length (doc_metainfo (meta_data self)))]))
    else Ok (self, mkOutcome false None (validation_log ++ [LogWriteFailed])).

(** [generate_meta_json]. *)
Definition generate_meta_json (env : Env) (self : t) : t * outcome :=
  match generate_body env self with
  | Ok r => r
  | Raise _ => (self, mkOutcome false None [LogWriteFailed])
  end.

Fixpoint parse_dirs (env : Env) (self : t) (dirs : list string)
  : option (list NodeRecord) :=
  match dirs with
  | [] => Some []
  | directory :: rest =>
      match parse_file_status env self directory with
      | None => None
      | Some meta_item =>
          let meta_item :=
            if validate_directory env directory
            then set_validation_status meta_item passed
            else set_validation_status meta_item failed in
          match parse_dirs env self rest with
          | Some items => Some (meta_item :: items)
          | None => None
          end
      end
  end.

(** [parse]. *)
Definition parse (env : Env) (self : t) : t * outcome :=
  if negb (List.forallb (fun d => path_exists env d && path_is_dir env d)
                        (import_dirs self))
  then (self, failure)
  else
    match parse_dirs env self (import_dirs self) with
    | None => (self, failure)
    | Some items =>
        let self :=
          set_meta_data self
            (set_metainfo (meta_data self) (doc_metainfo (meta_data self) ++ items)) in
        if (List.length (doc_metainfo (meta_data self)) =? 0)%nat
        then (self, failure)
        else
          generate_meta_json env
            (set_meta_data self (set_timestamp (meta_data self) (now_iso env)))
    end.

End MySQLMetaParser.

(** [parse_mysql_metadata]. *)
Definition parse_mysql_metadata (env : Env) (import_dirs : list string)
           (json_out_dir : string) (identifier : option string) : outcome :=
  snd (MySQLMetaParser.parse env
         (MySQLMetaParser.init env import_dirs json_out_dir identifier)).

(** [parse_metadata]: the entry point [main.py] calls; any exception is a
    [False]. *)
Definition parse_metadata (env : Env) (db_type db_model : string)
           (import_dirs : list string) (json_out_dir : string)
           (identifier : option string) : outcome :=
  match DatabaseMetaParser.init env db_type db_model import_dirs json_out_dir
                                identifier with
  | Raise _ => failure
  | Ok parser =>
      match DatabaseMetaParser.parse env parser with
      | Ok (_, o) => o
      | Raise _ => failure
      end
  end.

(* ================================================================== *)
(** * The words of the specification, and the vocabulary of the proofs *)
(* ================================================================== *)

Module Spec.

(** A non-empty string of characters of one class. *)
Definition nonempty_all (p : ascii -> bool) (s : string) : bool :=
  Py.nonempty s && Py.forall_chars p s.

(** An identifier of the document: non-empty, every character in
    [[A-Za-z0-9_-]]. *)
Definition valid_identifier (s : string) : bool :=
  nonempty_all Py.is_ident s.

(** What sanitising does to one character. *)
Definition sanitize_char (c : ascii) : ascii :=
  if Py.is_ident c then c else "_"%char.

(** A string without its trailing run of decimal digits: the string is
    cut at the first position from which only digits follow. *)
Fixpoint strip_trailing_digits (s : string) : string :=
  match s with
  | EmptyString => EmptyString
  | String c s' =>
      if Py.is_digit c && Py.forall_chars Py.is_digit s' then EmptyString
      else String c (strip_trailing_digits s')
  end.

Fixpoint ends_with (p : ascii -> bool) (s : string) : bool :=
  match s with
  | EmptyString => false
  | String c EmptyString => p c
  | String _ s' => ends_with p s'
  end.

Definition ends_with_LF (s : string) : bool :=
  ends_with (fun c => Ascii.eqb c Py.LF) s.

(** A string without its leading digits, and their number. *)
Fixpoint drop_digits (s : string) : string :=
  match s with
  | EmptyString => EmptyString
  | String c s' => if Py.is_digit c then drop_digits s' else s
  end.

Fixpoint count_digits (s : string) : nat :=
  match s with
  | EmptyString => 0
  | String c s' => if Py.is_digit c then S (count_digits s') else 0
  end.

(** [re.sub(r'\d+$', '', s)] in closed form: the scan cuts at the first
    digit from which digits run up to the end or up to a line feed that
    ends the string, and keeps that line feed. *)
Fixpoint sub_digits_eol (s : string) : string :=
  match s with
  | EmptyString => EmptyString
  | String c s' =>
      if Py.is_digit c && Re.at_eol (drop_digits s') then drop_digits s'
      else String c (sub_digits_eol s')
  end.

(** The head of a string is outside a class, or the string is empty. *)
Definition stops (p : ascii -> bool) (rest : string) : Prop :=
  match rest with
  | EmptyString => True
  | String c _ => p c = false
  end.

(** The continuation of [\d+] in [\d+$]. *)
Definition eol_cont : @Re.cont nat :=
  fun pos' s' caps' => Re.run Re.Eol pos' s' caps' (fun p _ _ => Some p).

(** The three parts of a directory name the naming pattern of
    [detect_rac_nodes] reads: (prefix, sidPrefix, date). *)
Definition name_triple (name : string) : option (string * string * string) :=
  match Re.re_match Re.rac_dir_pattern name with
  | Some m =>
      match Re.group m 1, Re.group m 3, Re.group m 5 with
      | Some prefix, Some sid_prefix, Some date => Some (prefix, sid_prefix, date)
      | _, _, _ => None
      end
  | None => None
  end.

(** A directory resolves to a node: it exists and the node read from it
    is valid (the test of the loop of [parse_rac_directories]). *)
Definition resolves (env : Env) (directory : string) : bool :=
  path_exists env directory
  && RacNodeInfo.is_valid (RacNodeInfo.init env directory).

(** The reasons of the specification for a directory not to resolve,
    negated: the directory exists, its manifest exists, loads and is not
    empty, and the node has host name, sid and database name. *)
Definition resolvable (env : Env) (directory : string) : bool :=
  let status_file := Py.path_join directory "file_status.json" in
  let node := RacNodeInfo.init env directory in
  path_exists env directory
  && (Py.truthy (RacNodeInfo.hostname node)
      && Py.truthy (RacNodeInfo.sid node)
      && Py.truthy (RacNodeInfo.dbname node)
      && (path_exists env status_file
          && match load_json env status_file with
             | Some data => manifest_truthy data
             | None => false
             end)).

(** An object of the [files] array has both a [filename] and a [status]
    key. *)
Definition has_filename_and_status (fi : FileInfo) : bool :=
  is_some (fi_filename fi) && is_some (fi_status fi).

(** The key [merge_node_files] gives an array element: its file name up
    to the first dot. *)
Definition rac_key (fi : FileInfo) : string :=
  List.hd "" (Py.split "."%char (default "" (fi_filename fi))).

(** A node of the list carries the non-empty date [d]. *)
Definition has_date (nodes : list RacNodeInfo.t) (d : string) : Prop :=
  exists n, In n nodes /\ RacNodeInfo.collect_date n = Some d
            /\ Py.nonempty d = true.

(** A part of a path: it has no slash, is not empty and is not ["."]. *)
Definition no_slash (s : string) : bool :=
  Py.forall_chars (fun c => negb (Ascii.eqb c "/")) s.

Definition part_ok (s : string) : bool :=
  Py.nonempty s && negb (String.eqb s ".").

(** The output directory of a parser: [Path(json_out_dir) if json_out_dir
    else Config.DEFAULT_JSON_DIR]. *)
Definition output_dir (env : Env) (json_out_dir : string) : string :=
  if Py.nonempty json_out_dir then Path.normal json_out_dir
  else Config.DEFAULT_JSON_DIR env.

(** The file [MySQLMetaParser.generate_meta_json] writes to. *)
Definition mysql_output_file (self : MySQLMetaParser.t) : string :=
  Path.div (MySQLMetaParser.json_out_dir self)
    (JsonSchemaValidator.generate_filename
       (MySQLMetaParser.db_type self) (MySQLMetaParser.db_model self)
       (default "" (MySQLMetaParser.identifier self))).

(** What the MySQL parser logs about validation before it writes. *)
Definition validation_log (d : Document) : list log_event :=
  match JsonSchemaValidator.validate_json d with
  | Some e => [LogValidationFailed e]
  | None => []
  end.

(** The directories of a list that have the group key [k]. *)
Definition has_key (key_of : string -> option string) (k d : string) : bool :=
  match key_of d with
  | Some k' => String.eqb k' k
  | None => false
  end.

Definition members (key_of : string -> option string) (k : string)
           (l : list string) : list string :=
  List.filter (has_key key_of k) l.

(** [rac_groups.get(k, [])]. *)
Fixpoint lookup_group (k : string) (g : RacParser.groups) : list string :=
  match g with
  | [] => []
  | (k', ms) :: g' => if String.eqb k' k then ms else lookup_group k g'
  end.

(** The step of the loop that fills [rac_groups]. *)
Definition group_step (key_of : string -> option string)
           (g : RacParser.groups) (subdir : string) : RacParser.groups :=
  match key_of subdir with
  | Some key => RacParser.add_to_group key subdir g
  | None => g
  end.

(** The keys of the dictionary are distinct and no group is empty. *)
Definition well_formed (g : RacParser.groups) : Prop :=
  NoDup (List.map fst g) /\ Forall (fun kv => snd kv <> []) g.

(** Ascending in the order of Python on strings. *)
Definition ascending (l : list string) : Prop :=
  Sorted (fun a b => String.leb a b = true) l.

(** The required files of a database type. *)
Definition required_of (db_type : string) : list string :=
  default [] (Config.lookup_db db_type Config.SUPPORTED_DATABASES).

(** The node numbers of the records of a document. *)
Definition node_numbers (l : list NodeRecord) : list (option nat) :=
  List.map (fun r => option_map fst (nr_node_info r)) l.

End Spec.

(* ================================================================== *)
(** * Further vocabulary: what the patterns accept *)
(* ================================================================== *)

Module Accepts.

(** [s] is [x], or [x] followed by the line feed [$] lets pass. *)
Definition up_to_LF (x s : string) : Prop :=
  s = x \/ s = (x ++ String Py.LF "")%string.

(** The strings [re.match(r'^[a-zA-Z0-9_-]+$', s)] accepts. *)
Definition identifier (s : string) : Prop :=
  exists x, Spec.valid_identifier x = true /\ up_to_LF x s.

(** The strings [re.match(r'^\d{8}$', s)] accepts. *)
Definition date (s : string) : Prop :=
  exists x, String.length x = 8%nat /\ Py.forall_chars Py.is_digit x = true
            /\ up_to_LF x s.

(** What [validate_json] asks of a record of the document. *)
Definition record (dbmodel : string) (r : NodeRecord) : Prop :=
  (exists d, nr_collect_date r = Some d /\ date d)
  /\ (dbmodel = "rac" ->
      exists n name, nr_node_info r = Some (n, name) /\ (1 <= n <= 4)%nat).

(** What [validate_json] asks of a document. *)
Definition document (d : Document) : Prop :=
  Py.nonempty (doc_version d) = true
  /\ In (doc_dbtype d) JsonSchemaValidator.valid_dbtypes
  /\ identifier (doc_identifier d)
  /\ ((doc_dbmodel d = "one" /\ List.length (doc_metainfo d) = 1%nat)
      \/ (doc_dbmodel d = "rac" /\ (2 <= List.length (doc_metainfo d))%nat))
  /\ Forall (record (doc_dbmodel d)) (doc_metainfo d).

End Accepts.

(** What [validate_consistency] asks of the nodes of a cluster. *)
Module Consistent.

(** The nodes that have a non-empty value of a field have the same one. *)
Definition agree (f : RacNodeInfo.t -> option string)
           (nodes : list RacNodeInfo.t) : Prop :=
  forall n1 n2 v1 v2,
    In n1 nodes -> In n2 nodes ->
    f n1 = Some v1 -> Py.nonempty v1 = true ->
    f n2 = Some v2 -> Py.nonempty v2 = true ->
    v1 = v2.

(** Every [db_model] of a manifest is ['rac']. *)
Definition models_rac (nodes : list RacNodeInfo.t) : Prop :=
  forall n data v,
    In n nodes ->
    RacNodeInfo.file_status_data n = Some data ->
    manifest_truthy data = true ->
    m_db_model data = Some v ->
    v = "rac".

Definition cluster (nodes : list RacNodeInfo.t) : Prop :=
  agree RacNodeInfo.dbname nodes
  /\ agree RacNodeInfo.collect_date nodes
  /\ Forall (fun n => RacClusterInfo.has_data n = true) nodes
  /\ models_rac nodes.

End Consistent.

(** What the two paths keep of a [files] array. *)
Module Kept.

(** The last element of the array that is stored under the key [k]. *)
Fixpoint last_keyed (key_of : FileInfo -> option string) (k : string)
         (l : list FileInfo) : option FileInfo :=
  match l with
  | [] => None
  | fi :: l' =>
      match last_keyed key_of k l' with
      | Some later => Some later
      | None =>
          match key_of fi with
          | Some k' => if String.eqb k' k then Some fi else None
          | None => None
          end
      end
  end.

(** The single-instance path stores an element that has a non-empty file
    name under the stem of that name, with its path, [exists], [size] and
    [modified]. *)
Definition single_key (fi : FileInfo) : option string :=
  match fi_filename fi with
  | Some filename => if Py.nonempty filename then Some (Py.stem filename) else None
  | None => None
  end.

Definition single_entry (directory : string) (fi : FileInfo) : FileEntry :=
  mkFileEntry (Path.div directory (default "" (fi_filename fi)))
              (Some (default false (fi_exists fi)))
              (Some (default 0%Z (fi_size fi)))
              (fi_modified fi) None None None.

(** The cluster path stores an element that has both a [filename] and a
    [status] key under the file name up to its first dot, with its file
    name, status, description, [exists], [size] and path. *)
Definition cluster_key (fi : FileInfo) : option string :=
  if Spec.has_filename_and_status fi then Some (Spec.rac_key fi) else None.

Definition cluster_entry (directory : string) (fi : FileInfo) : FileEntry :=
  mkFileEntry (Py.path_join directory (default "" (fi_filename fi)))
              (Some (default false (fi_exists fi)))
              (Some (default 0%Z (fi_size fi)))
              None (fi_filename fi) (fi_status fi)
              (Some (default "" (fi_description fi))).

End Kept.

(* ================================================================== *)
(** * Concrete runs *)
(* ================================================================== *)

Module Examples.

(** An environment given by its paths, its directories, the listing of
    [/data] and its manifests; every write succeeds. *)
Fixpoint lookup_manifest (p : string) (l : list (string * Manifest))
  : option Manifest :=
  match l with
  | [] => None
  | (k, m) :: l' => if String.eqb k p then Some m else lookup_manifest p l'
  end.

Definition env_of (dirs : list string) (listing : list string)
           (manifests : list (string * Manifest)) : Env :=
  mkEnv (fun p => mem_str p ("/data" :: dirs ++ List.map fst manifests))
        (fun p => mem_str p ("/data" :: dirs))
        (fun p => if String.eqb p "/data" then Some listing
                  else if mem_str p dirs then Some [] else None)
        (fun p => lookup_manifest p manifests)
        (fun _ => true) (fun _ => true)
        (fun l => List.hd_error l)
        "20250827" "2025-08-27T09:00:00" "/opt/fastdbchkrep".

Definition file (name : string) : FileInfo :=
  mkFileInfo (Some name) (Some "ok") None (Some false) (Some 10%Z) None.

Definition file_without_status (name : string) : FileInfo :=
  mkFileInfo (Some name) None None (Some false) (Some 10%Z) None.

Definition files : FilesData :=
  FilesList [file "01_system_info.txt"; file_without_status "02_hardware_info.json"].

(** A manifest as the collector writes it, and one that names the
    instance by [oracle_sid]. *)
Definition manifest (hostname sid collect_date : string) : Manifest :=
  mkManifest (Some hostname) None (Some sid) (Some collect_date) None None
             (Some "rac") (Some files) false.

Definition manifest_oracle_sid (hostname oracle_sid : string) : Manifest :=
  mkManifest (Some hostname) (Some oracle_sid) None (Some "20250826") None None
             (Some "rac") (Some files) false.

Definition status_of (d : string) : string := (d ++ "/file_status.json")%string.

(** Scenario A of the specification: two nodes of one cluster.  No file
    but the manifests is on disk. *)
Definition dir1 : string := "/data/oms-db1_hnoms1_20250826".
Definition dir2 : string := "/data/oms-db2_hnoms2_20250826".
Definition dir3 : string := "/data/oms-db3_hnoms3_20250826".

Definition env_cluster : Env :=
  env_of [dir1; dir2]
         ["oms-db2_hnoms2_20250826"; "notes.txt"; "oms-db1_hnoms1_20250826"]
         [(status_of dir1, manifest "oms-db1" "hnoms1" "20250826");
          (status_of dir2, manifest "oms-db2" "hnoms2" "20250826")].

(** Three directories, the second without a manifest. *)
Definition env_three : Env :=
  env_of [dir1; dir2; dir3] []
         [(status_of dir1, manifest "oms-db1" "hnoms1" "20250826");
          (status_of dir3, manifest "oms-db3" "hnoms3" "20250826")].

(** Host names with a dot. *)
Definition dot1 : string := "/data/db.a1_hnoms1_20250826".
Definition dot2 : string := "/data/db.a2_hnoms2_20250826".

Definition env_dots : Env :=
  env_of [dot1; dot2] []
         [(status_of dot1, manifest "db.a1" "hnoms1" "20250826");
          (status_of dot2, manifest "db.a2" "hnoms2" "20250826")].

(** Directory names that end with a line feed. *)
Definition lf : string := String Py.LF "".
Definition lf1 : string := ("/data/h1_s1_20250826" ++ lf)%string.
Definition lf2 : string := ("/data/h2_s2_20250826" ++ lf)%string.

Definition env_lf : Env :=
  env_of [lf1; lf2] []
         [(status_of lf1, mkManifest (Some "h1") None (Some "s1") None None None
                                     (Some "rac") (Some files) false);
          (status_of lf2, mkManifest (Some "h2") None (Some "s2") None None None
                                     (Some "rac") (Some files) false)].

(** Two nodes collected on different days. *)
Definition late2 : string := "/data/oms-db2_hnoms2_20250827".

Definition env_two_dates : Env :=
  env_of [dir1; late2] []
         [(status_of dir1, manifest "oms-db1" "hnoms1" "20250826");
          (status_of late2, manifest "oms-db2" "hnoms2" "20250827")].

(** A manifest whose date is written with dashes. *)
Definition env_dashed_date : Env :=
  env_of [dir1] [] [(status_of dir1, manifest "oms-db1" "hnoms1" "2025-08-26")].

(** The two parsers just before [generate_meta_json], holding a document
    whose only record has a date with dashes. *)
Definition dashed_record : NodeRecord :=
  mkNodeRecord (Some "oms-db1") (Some "hnoms1") (Some "hnoms1")
               (Some "2025-08-26") dir1 None ∅ (Some failed).

Definition dashed_document (dbtype : string) : Document :=
  mkDocument "2.0" dbtype "one" "oms-db1_hnoms1_20250826"
             "2025-08-27T09:00:00" [dashed_record] None.

Definition generic_parser : DatabaseMetaParser.t :=
  DatabaseMetaParser.mk "oracle" "one" (Spec.required_of "oracle") [dir1]
                        "/out" None (dashed_document "oracle").

Definition mysql_parser : MySQLMetaParser.t :=
  MySQLMetaParser.mk "mysql" "one" [dir1] "/out" None (dashed_document "mysql").

(** A manifest whose [oracle_sid] ends with a line feed. *)
Definition sid_lf : string := ("orcl1" ++ lf)%string.

Definition env_sid_lf : Env :=
  env_of [dir1] [] [(status_of dir1, manifest_oracle_sid "oms-db1" sid_lf)].

(** Two directories whose names split differently around ['_']. *)
Definition env_collision : Env :=
  env_of ["/data/a_b1_c1_20250101"; "/data/a1_b_c1_20250101"]
         ["a_b1_c1_20250101"; "a1_b_c1_20250101"] [].

(** What a run of the generic parser leaves in [meta_data["identifier"]],
    written or not. *)
Definition placed_identifier (env : Env) (db_type db_model : string)
           (import_dirs : list string) (identifier : option string)
  : option string :=
  match DatabaseMetaParser.init env db_type db_model import_dirs "/out" identifier with
  | Ok parser =>
      match DatabaseMetaParser.parse env parser with
      | Ok (self, _) => Some (doc_identifier (DatabaseMetaParser.meta_data self))
      | Raise _ => None
      end
  | Raise _ => None
  end.

(** The identifier, the source directories, the node numbers and the
    validation states of the document a run wrote. *)
Definition written_identifier (o : outcome) : option string :=
  option_map (fun pd => doc_identifier (snd pd)) (written o).

Definition written_dirs (o : outcome) : option (list string) :=
  option_map (fun pd => List.map nr_source_dir (doc_metainfo (snd pd))) (written o).

Definition written_numbers (o : outcome) : option (list (option nat)) :=
  option_map (fun pd => List.map (fun r => option_map fst (nr_node_info r))
                                 (doc_metainfo (snd pd))) (written o).


(** A manifest that names the instance twice, gives a database name and
    a date, and lists its files as an object. *)
Definition files_object : FilesData :=
  FilesDict [("system_info", file "01_system_info.txt");
             ("hardware_info", file_without_status "02_hardware_info.json")].

Definition manifest_both : Manifest :=
  mkManifest (Some "oms-db1") (Some "orcl1") (Some "hnoms1") (Some "20250901")
             None (Some "OMS") (Some "rac") (Some files_object) false.

Definition env_both : Env := env_of [dir1] [] [(status_of dir1, manifest_both)].

(** A manifest without [collect_date], dated by its [inspection_time]. *)
Definition manifest_inspection : Manifest :=
  mkManifest (Some "oms-db1") None (Some "hnoms1") None
             (Some "2025-08-26T10:45:29+0800") None None (Some files) false.

Definition env_inspection : Env :=
  env_of [dir1] [] [(status_of dir1, manifest_inspection)].

(** A manifest that lists two files with the same stem. *)
Definition manifest_same_stem : Manifest :=
  mkManifest (Some "oms-db1") None (Some "hnoms1") (Some "20250826") None None
             (Some "rac") (Some (FilesList [file "a.txt"; file "a.json"])) false.

Definition env_same_stem : Env :=
  env_of [dir1] [] [(status_of dir1, manifest_same_stem)].


(** A cluster document with two records. *)
Definition cluster_record (n : nat) : NodeRecord :=
  mkNodeRecord (Some "oms-db1") (Some "hnoms1") (Some "hnoms")
               (Some "20250826") dir1 (Some (n, "node1")) ∅ (Some passed).

Definition cluster_document : Document :=
  mkDocument "2.0" "oracle" "rac" "oms-db_hnoms_20250826"
             "2025-08-27T09:00:00" [cluster_record 1; cluster_record 2] None.

End Examples.
(* ================================================================== *)
(** * main.py: the [parse] command *)
(* ================================================================== *)

Module Main.

(** [str(Path(p))] and [str(Path(p).parent)]. *)
Definition normal (p : string) : string := Path.normal p.

Definition parent (p : string) : string := Path.parent p.

(** The arguments of the [parse] sub-command; an option that is not given
    is [None]. *)
Record args : Type := mkArgs {
  dbtype : option string;
  dbmodel : option string;
  jsonout : option string;
  import_dir : option string;
  import_dir_1 : option string;
  import_dir_2 : option string;
  import_dir_3 : option string;
  import_dir_4 : option string;
  identifier : option string;
  quiet : bool
}.

(** [validate_directory_exists]; the result is the path as [str] gives it
    back. *)
Definition validate_directory_exists (env : Env) (path_str : string) : res string :=
  if path_is_dir env (normal path_str) then Ok (normal path_str)
  else Raise (ValueError "directory does not exist").

(** [validate_parent_directory_exists]. *)
Definition validate_parent_directory_exists (env : Env) (path_str : string)
  : res string :=
  if path_exists env (parent path_str) then Ok (normal path_str)
  else Raise (ValueError "parent directory does not exist").

(** The directories of an optional argument of ['rac'] mode. *)
Definition optional_dir (env : Env) (a : option string) : res (list string) :=
  if Py.truthy a then
    do d <- validate_directory_exists env (default "" a); Ok [d]
  else Ok [].

(** The list [import_dirs] of [handle_parse_command]; [None] is the
    [return 1] for a missing argument. *)
Definition collect_import_dirs (env : Env) (a : args) : option (res (list string)) :=
  if String.eqb (default "" (dbmodel a)) "one" then
    if negb (Py.truthy (import_dir a)) then None
    else Some (do d <- validate_directory_exists env (default "" (import_dir a));
               Ok [d])
  else
    if negb (Py.truthy (import_dir_1 a)) || negb (Py.truthy (import_dir_2 a))
    then None
    else Some (do d1 <- validate_directory_exists env (default "" (import_dir_1 a));
               do d2 <- validate_directory_exists env (default "" (import_dir_2 a));
               do d3 <- optional_dir env (import_dir_3 a);
               do d4 <- optional_dir env (import_dir_4 a);
               Ok ([d1; d2] ++ d3 ++ d4)).

(** [handle_parse_command]: the exit code and what the parser left
    behind.  Every exception is caught and gives the exit code 1. *)
Definition handle_parse_command (env : Env) (a : args) : nat * outcome :=
  if negb (Py.truthy (dbtype a)) then (1, failure)
  else if negb (Py.truthy (dbmodel a)) then (1, failure)
  else if negb (Py.truthy (jsonout a)) then (1, failure)
  else if negb (mem_str (default "" (dbtype a))
                        ["oracle"; "mysql"; "postgresql"; "sqlserver"])
  then (1, failure)
  else if negb (mem_str (default "" (dbmodel a)) ["one"; "rac"]) then (1, failure)
  else
    match collect_import_dirs env a with
    | None => (1, failure)
    | Some (Raise _) => (1, failure)
    | Some (Ok import_dirs) =>
        match validate_parent_directory_exists env (default "" (jsonout a)) with
        | Raise _ => (1, failure)
        | Ok jsonout_path =>
            let o :=
              if String.eqb (default "" (dbtype a)) "mysql"
              then parse_mysql_metadata env import_dirs jsonout_path (identifier a)
              else parse_metadata env (default "" (dbtype a))
                                  (default "" (dbmodel a)) import_dirs
                                  jsonout_path (identifier a) in
            (if ret o then 0 else 1, o)
        end
    end.

End Main.

(* ================================================================== *)
(** * Facts about strings and patterns *)
(* ================================================================== *)

Module PyFacts.

Lemma append_nil_r (s : string) : (s ++ "")%string = s.
Proof. induction s as [|c s IH]; simpl; [reflexivity | now rewrite IH]. Qed.

Lemma append_assoc (a b c : string) :
  ((a ++ b) ++ c)%string = (a ++ (b ++ c))%string.
Proof. induction a as [|x a IH]; simpl; [reflexivity | now rewrite IH]. Qed.

Lemma length_append (a b : string) :
  String.length (a ++ b) = (String.length a + String.length b)%nat.
Proof. induction a as [|x a IH]; simpl; [reflexivity | now rewrite IH]. Qed.

Lemma take_append (a b : string) : Py.take (String.length a) (a ++ b) = a.
Proof.
  unfold Py.take. induction a as [|x a IH]; simpl.
  - destruct b; reflexivity.
  - now rewrite IH.
Qed.

Lemma forall_chars_append (p : ascii -> bool) (a b : string) :
  Py.forall_chars p (a ++ b) = Py.forall_chars p a && Py.forall_chars p b.
Proof.
  induction a as [|x a IH]; simpl; [reflexivity |].
  now rewrite IH, andb_assoc.
Qed.

Lemma nonempty_map_chars (f : ascii -> ascii) (s : string) :
  Py.nonempty (Py.map_chars f s) = Py.nonempty s.
Proof. destruct s; reflexivity. Qed.

Lemma nonempty_append_r (a b : string) :
  Py.nonempty b = true -> Py.nonempty (a ++ b) = true.
Proof. destruct a; simpl; auto. Qed.

(** The digits are not line feeds, and they are identifier characters. *)
Lemma digit_not_LF (c : ascii) : Py.is_digit c = true -> Ascii.eqb c Py.LF = false.
Proof.
  intros H. apply Ascii.eqb_neq. intros ->. discriminate H.
Qed.

End PyFacts.

(** ** [pathlib]: the parts of a path survive [str] *)

Module PathFacts.
Import PyFacts Spec.

Lemma split_acc_append (acc x rest : string) :
  no_slash x = true ->
  Py.split_acc "/" acc (x ++ rest) = Py.split_acc "/" (acc ++ x) rest.
Proof.
  revert acc. induction x as [|c x IH]; intros acc Hx.
  - cbn [String.append]. now rewrite append_nil_r.
  - cbn [no_slash Py.forall_chars] in Hx. apply andb_true_iff in Hx as [Hc Hx].
    cbn [String.append Py.split_acc].
    apply negb_true_iff in Hc. rewrite Hc. rewrite IH by exact Hx.
    now rewrite append_assoc.
Qed.

Lemma split_join (l : list string) :
  l <> [] -> Forall (fun s => no_slash s = true) l ->
  Py.split "/" (Py.join "/" l) = l.
Proof.
  unfold Py.split. induction l as [|x l IH]; [contradiction |]. intros _ Hl.
  apply Forall_cons_iff in Hl as [Hx Hl]. destruct l as [|y l].
  - cbn [Py.join String.concat].
    rewrite <- (append_nil_r x) at 1. rewrite split_acc_append by exact Hx.
    reflexivity.
  - change (Py.join "/" (x :: y :: l))
      with (x ++ String "/" (Py.join "/" (y :: l)))%string.
    rewrite split_acc_append by exact Hx. cbn [Py.split_acc Ascii.eqb Bool.eqb].
    cbn [String.append]. f_equal. apply IH; [discriminate | exact Hl].
Qed.

Lemma split_acc_no_slash (acc s : string) :
  no_slash acc = true ->
  Forall (fun x => no_slash x = true) (Py.split_acc "/" acc s).
Proof.
  revert acc. induction s as [|c s IH]; intros acc Ha; cbn [Py.split_acc].
  - now constructor.
  - destruct (Ascii.eqb c "/") eqn:Hc.
    + constructor; [exact Ha | now apply IH].
    + apply IH. unfold no_slash. rewrite forall_chars_append.
      unfold no_slash in Ha. rewrite Ha. cbn. now rewrite Hc.
Qed.

Lemma parts_ok (p : string) :
  Forall (fun x => no_slash x = true) (Path.parts p)
  /\ Forall (fun x => part_ok x = true) (Path.parts p).
Proof.
  unfold Path.parts. split.
  - apply List.Forall_forall. intros x Hx. apply List.filter_In in Hx as [Hx _].
    pose proof (split_acc_no_slash "" p eq_refl) as H.
    rewrite List.Forall_forall in H. now apply H.
  - apply List.Forall_forall. intros x Hx. now apply List.filter_In in Hx as [_ Hx].
Qed.

Lemma filter_ok (l : list string) :
  Forall (fun x => part_ok x = true) l ->
  List.filter (fun s => Py.nonempty s && negb (String.eqb s ".")) l = l.
Proof.
  induction 1 as [|x l Hx _ IH]; [reflexivity |]. cbn [List.filter].
  unfold part_ok in Hx. now rewrite Hx, IH.
Qed.

Lemma root_cases (p : string) :
  Path.root p = "" \/ Path.root p = "/" \/ Path.root p = "//".
Proof.
  unfold Path.root.
  repeat match goal with
         | |- context [match ?s with EmptyString => _ | String _ _ => _ end] =>
             destruct s
         | |- context [match ?a with Ascii _ _ _ _ _ _ _ _ => _ end] =>
             destruct a
         | |- context [if ?b then _ else _] => destruct b
         end; auto.
Qed.

Lemma parts_path_str (r : string) (l : list string) :
  r = "" \/ r = "/" \/ r = "//" ->
  Forall (fun x => no_slash x = true) l ->
  Forall (fun x => part_ok x = true) l ->
  Path.parts (Path.path_str r l) = l.
Proof.
  intros Hr Hs Hok. unfold Path.parts, Path.path_str.
  destruct l as [|x l].
  - destruct Hr as [-> | [-> | ->]]; reflexivity.
  - assert (Py.split "/" (Py.join "/" (x :: l)) = x :: l) as Hsplit
      by (apply split_join; [discriminate | exact Hs]).
    unfold Py.split in *.
    destruct Hr as [-> | [-> | ->]]; cbn [Py.nonempty String.append Py.split_acc
      Ascii.eqb Bool.eqb]; rewrite Hsplit; exact (filter_ok _ Hok).
Qed.

Lemma parts_normal (p : string) : Path.parts (Path.normal p) = Path.parts p.
Proof.
  unfold Path.normal. destruct (parts_ok p) as [Hs Hok].
  apply parts_path_str; [apply root_cases | exact Hs | exact Hok].
Qed.

Lemma name_normal (p : string) : Path.name (Path.normal p) = Path.name p.
Proof. unfold Path.name. now rewrite parts_normal. Qed.

Lemma head_not_slash (x rest : string) :
  no_slash x = true -> Py.nonempty x = true ->
  exists c s, (x ++ rest)%string = String c s /\ Ascii.eqb c "/" = false.
Proof.
  destruct x as [|c x]; [discriminate |]. intros H _.
  cbn [no_slash Py.forall_chars] in H. apply andb_true_iff in H as [Hc _].
  exists c, (x ++ rest)%string. split; [reflexivity | now apply negb_true_iff].
Qed.

Lemma join_head (x : string) (l : list string) :
  no_slash x = true -> Py.nonempty x = true ->
  exists c s, Py.join "/" (x :: l) = String c s /\ Ascii.eqb c "/" = false.
Proof.
  intros Hs Hn. destruct l as [|y l].
  - destruct (head_not_slash x "" Hs Hn) as (c & s & He & Hc).
    rewrite append_nil_r in He. eauto.
  - exact (head_not_slash x _ Hs Hn).
Qed.

Lemma root_path_str (r : string) (l : list string) :
  r = "" \/ r = "/" \/ r = "//" ->
  Forall (fun x => no_slash x = true) l ->
  Forall (fun x => part_ok x = true) l ->
  Path.root (Path.path_str r l) = r.
Proof.
  intros Hr Hs Hok. unfold Path.path_str. destruct l as [|x l].
  - destruct Hr as [-> | [-> | ->]]; reflexivity.
  - apply Forall_cons_iff in Hs as [Hx _]. apply Forall_cons_iff in Hok as [Hk _].
    unfold part_ok in Hk. apply andb_true_iff in Hk as [Hn _].
    destruct (join_head x l Hx Hn) as (c & s & -> & Hc).
    assert (c <> "/"%char) as Hne by (now apply Ascii.eqb_neq).
    destruct Hr as [-> | [-> | ->]]; cbn [Py.nonempty String.append Path.root];
      destruct c as [[] [] [] [] [] [] [] []]; try reflexivity; now contradiction Hne.
Qed.

Lemma normal_idem (p : string) : Path.normal (Path.normal p) = Path.normal p.
Proof.
  unfold Path.normal at 1. destruct (parts_ok p) as [Hs Hok].
  rewrite parts_normal. unfold Path.normal at 1.
  now rewrite root_path_str by (apply root_cases || assumption).
Qed.

End PathFacts.

Module ReFacts.
Import PyFacts Spec.

(** ** [re.sub(r'[^a-zA-Z0-9_-]', '_', s)] *)

(** One step of the scan of [re.sub]. *)
Lemma sub_from_match (r : Re.regex) (repl : string) (pos e : nat)
      (a : ascii) (s : string) :
  Re.match_end r pos (String a s) = Some e -> e <> pos ->
  Re.sub_from r repl pos 0 (String a s)
  = (repl ++ Re.sub_from r repl (S pos) (e - pos - 1) s)%string.
Proof.
  intros He Hne. cbn [Re.sub_from]. rewrite He.
  apply Nat.eqb_neq in Hne. now rewrite Hne.
Qed.

Lemma sub_from_no_match (r : Re.regex) (repl : string) (pos : nat)
      (a : ascii) (s : string) :
  Re.match_end r pos (String a s) = None ->
  Re.sub_from r repl pos 0 (String a s)
  = String a (Re.sub_from r repl (S pos) 0 s).
Proof. intros He. cbn [Re.sub_from]. now rewrite He. Qed.

Lemma sub_from_skip (r : Re.regex) (repl : string) (pos skip : nat)
      (a : ascii) (s : string) :
  Re.sub_from r repl pos (S skip) (String a s)
  = Re.sub_from r repl (S pos) skip s.
Proof. reflexivity. Qed.

Lemma match_end_not_ident (pos : nat) (a : ascii) (s : string) :
  Re.match_end Re.not_ident pos (String a s)
  = if Py.is_ident a then None else Some (S pos).
Proof. unfold Re.match_end. cbn. now destruct (Py.is_ident a). Qed.

Lemma sub_from_not_ident (s : string) (pos : nat) :
  Re.sub_from Re.not_ident "_" pos 0 s = Py.map_chars sanitize_char s.
Proof.
  revert pos. induction s as [|a s IH]; intros pos.
  - reflexivity.
  - pose proof (match_end_not_ident pos a s) as Hm.
    cbn [Py.map_chars]. unfold sanitize_char at 1.
    destruct (Py.is_ident a) eqn:Ha.
    + rewrite sub_from_no_match by exact Hm. now rewrite IH.
    + rewrite (sub_from_match _ _ _ (S pos)) by (auto; lia).
      replace (S pos - pos - 1)%nat with 0%nat by lia.
      now rewrite IH.
Qed.

Lemma re_sub_not_ident (s : string) :
  Re.re_sub Re.not_ident "_" s = Py.map_chars sanitize_char s.
Proof. apply sub_from_not_ident. Qed.

Lemma sanitize_char_ident (c : ascii) : Py.is_ident (sanitize_char c) = true.
Proof. unfold sanitize_char. destruct (Py.is_ident c) eqn:H; [exact H | reflexivity]. Qed.

Lemma sanitized_all_ident (s : string) :
  Py.forall_chars Py.is_ident (Re.re_sub Re.not_ident "_" s) = true.
Proof.
  rewrite re_sub_not_ident. induction s as [|a s IH]; simpl; [reflexivity |].
  now rewrite sanitize_char_ident, IH.
Qed.

Lemma sanitized_nonempty (s : string) :
  Py.nonempty (Re.re_sub Re.not_ident "_" s) = Py.nonempty s.
Proof. rewrite re_sub_not_ident. apply nonempty_map_chars. Qed.

(** ** [re.sub(r'\d+$', '', s)] *)

Lemma star_greedy_digits_eol (s : string) (pos : nat) :
  Re.star_greedy Py.is_digit pos s [] eol_cont
  = if Re.at_eol (drop_digits s) then Some (pos + count_digits s)%nat else None.
Proof.
  revert pos. induction s as [|a s IH]; intros pos.
  - cbn. now rewrite Nat.add_0_r.
  - cbn [Re.star_greedy drop_digits count_digits].
    destruct (Py.is_digit a) eqn:Ha.
    + rewrite IH. destruct (Re.at_eol (drop_digits s)).
      * f_equal. lia.
      * unfold eol_cont. cbn [Re.run].
        assert (Re.at_eol (String a s) = false) as ->; [|reflexivity].
        cbn. destruct s; [apply digit_not_LF, Ha | reflexivity].
    + unfold eol_cont. cbn [Re.run].
      destruct (Re.at_eol (String a s)); [f_equal; lia | reflexivity].
Qed.

Lemma match_end_digits_eol (pos : nat) (a : ascii) (s : string) :
  Re.match_end Re.digits_eol pos (String a s)
  = if Py.is_digit a && Re.at_eol (drop_digits s)
    then Some (S pos + count_digits s)%nat else None.
Proof.
  unfold Re.match_end, Re.digits_eol. cbn [Re.run].
  destruct (Py.is_digit a); [|reflexivity].
  change (Re.star_greedy Py.is_digit (S pos) s [] eol_cont
          = if true && Re.at_eol (drop_digits s)
            then Some (S pos + count_digits s)%nat else None).
  now rewrite star_greedy_digits_eol.
Qed.

Lemma sub_from_skip_digits (r : Re.regex) (repl s : string) (pos : nat) :
  Re.sub_from r repl pos (count_digits s) s
  = Re.sub_from r repl (pos + count_digits s) 0 (drop_digits s).
Proof.
  revert pos. induction s as [|a s IH]; intros pos.
  - cbn [count_digits drop_digits]. now rewrite Nat.add_0_r.
  - cbn [count_digits drop_digits]. destruct (Py.is_digit a).
    + rewrite sub_from_skip, IH. f_equal. lia.
    + now rewrite Nat.add_0_r.
Qed.

Lemma sub_from_at_eol (t : string) (pos : nat) :
  Re.at_eol t = true -> Re.sub_from Re.digits_eol "" pos 0 t = t.
Proof.
  destruct t as [|a [|b t]]; cbn [Re.at_eol]; intros H; try discriminate.
  - reflexivity.
  - apply Ascii.eqb_eq in H. subst a. reflexivity.
Qed.

Lemma sub_from_digits_eol (s : string) (pos : nat) :
  Re.sub_from Re.digits_eol "" pos 0 s = sub_digits_eol s.
Proof.
  revert pos. induction s as [|a s IH]; intros pos.
  - reflexivity.
  - pose proof (match_end_digits_eol pos a s) as Hm.
    cbn [sub_digits_eol].
    destruct (Py.is_digit a && Re.at_eol (drop_digits s)) eqn:Hc.
    + rewrite (sub_from_match _ _ _ _ _ _ Hm) by lia.
      replace (S pos + count_digits s - pos - 1)%nat with (count_digits s) by lia.
      rewrite sub_from_skip_digits. cbn [String.append].
      apply sub_from_at_eol.
      now apply andb_true_iff in Hc.
    + rewrite sub_from_no_match by exact Hm. now rewrite IH.
Qed.

(** [re.sub(r'\d+$', '', s)] is its closed form. *)
Lemma re_sub_digits_eol (s : string) :
  Re.re_sub Re.digits_eol "" s = sub_digits_eol s.
Proof. apply sub_from_digits_eol. Qed.

Lemma drop_digits_all (s : string) :
  Py.forall_chars Py.is_digit s = true -> drop_digits s = "".
Proof.
  induction s as [|a s IH]; cbn; [reflexivity |].
  destruct (Py.is_digit a); cbn; [exact IH | discriminate].
Qed.

Lemma at_eol_drop_digits (s : string) :
  Re.at_eol (drop_digits s) = true ->
  Py.forall_chars Py.is_digit s = true \/ ends_with_LF s = true.
Proof.
  induction s as [|a s IH]; cbn [drop_digits Py.forall_chars]; [now left |].
  destruct (Py.is_digit a) eqn:Ha.
  - intros H. destruct (IH H) as [Hd | Hl]; [now left | right].
    unfold ends_with_LF in *. cbn [ends_with]. destruct s; [discriminate | exact Hl].
  - intros H. right. unfold ends_with_LF. cbn in H |- *.
    destruct s; [exact H | discriminate].
Qed.

Lemma ends_with_LF_tail (a : ascii) (s : string) :
  ends_with_LF (String a s) = false -> ends_with_LF s = false.
Proof.
  unfold ends_with_LF. cbn [ends_with]. destruct s; [reflexivity | auto].
Qed.

(** Away from a final line feed the substitution removes the trailing run
    of digits and nothing else. *)
Lemma sub_digits_eol_plain (s : string) :
  ends_with_LF s = false -> sub_digits_eol s = strip_trailing_digits s.
Proof.
  induction s as [|a s IH]; intros Hl; [reflexivity |].
  cbn [sub_digits_eol strip_trailing_digits].
  pose proof (ends_with_LF_tail _ _ Hl) as Hl'.
  destruct (Py.is_digit a) eqn:Ha; cbn [andb].
  - destruct (Py.forall_chars Py.is_digit s) eqn:Hd.
    + rewrite (drop_digits_all _ Hd). reflexivity.
    + destruct (Re.at_eol (drop_digits s)) eqn:He.
      * destruct (at_eol_drop_digits _ He); congruence.
      * now rewrite IH.
  - now rewrite IH.
Qed.

Lemma at_eol_drop_digits_LF (s : string) :
  Re.at_eol (drop_digits (s ++ String Py.LF "")) = Py.forall_chars Py.is_digit s.
Proof.
  induction s as [|a s IH]; [reflexivity |].
  cbn [String.append drop_digits Py.forall_chars].
  destruct (Py.is_digit a); cbn [andb]; [exact IH |].
  cbn. destruct s; reflexivity.
Qed.

Lemma drop_digits_all_LF (s : string) :
  Py.forall_chars Py.is_digit s = true ->
  drop_digits (s ++ String Py.LF "") = String Py.LF "".
Proof.
  induction s as [|a s IH]; [reflexivity |].
  cbn [String.append drop_digits Py.forall_chars].
  destruct (Py.is_digit a); cbn [andb]; [exact IH | discriminate].
Qed.

(** Before a final line feed the substitution removes the digits that
    precede the line feed and keeps the line feed. *)
Lemma sub_digits_eol_LF (s : string) :
  sub_digits_eol (s ++ String Py.LF "")
  = (strip_trailing_digits s ++ String Py.LF "")%string.
Proof.
  induction s as [|a s IH]; [reflexivity |].
  cbn [String.append sub_digits_eol strip_trailing_digits].
  rewrite at_eol_drop_digits_LF.
  destruct (Py.is_digit a && Py.forall_chars Py.is_digit s) eqn:Hc.
  - apply andb_true_iff in Hc. now rewrite drop_digits_all_LF.
  - cbn [String.append]. now rewrite IH.
Qed.

(** [strip_trailing_digits] removes digits only, and all the trailing
    ones. *)
Lemma strip_trailing_digits_decompose (s : string) :
  exists ds, s = (strip_trailing_digits s ++ ds)%string
             /\ Py.forall_chars Py.is_digit ds = true
             /\ ends_with Py.is_digit (strip_trailing_digits s) = false.
Proof.
  induction s as [|a s (ds & Hs & Hd & He)].
  - exists "". repeat split.
  - cbn [strip_trailing_digits].
    destruct (Py.is_digit a && Py.forall_chars Py.is_digit s) eqn:Hc.
    + exists (String a s). repeat split. exact Hc.
    + exists ds. cbn [String.append]. repeat split; [congruence | exact Hd |].
      cbn [ends_with]. destruct (strip_trailing_digits s) eqn:Hst; [|exact He].
      cbn [String.append] in Hs. subst ds.
      rewrite Hd, andb_true_r in Hc. exact Hc.
Qed.


Section Greedy.
Context {R : Type}.

(** A greedy star over a class takes the whole run when the continuation
    accepts what follows it. *)
Lemma star_greedy_span (p : ascii -> bool) (x rest : string) (pos : nat)
      (caps : Re.captures) (k : @Re.cont R) (r : R) :
  Py.forall_chars p x = true -> stops p rest ->
  k (pos + String.length x)%nat rest caps = Some r ->
  Re.star_greedy p pos (x ++ rest) caps k = Some r.
Proof.
  revert pos. induction x as [|a x IH]; intros pos Hx Hr Hk.
  - cbn [String.append String.length] in *. rewrite Nat.add_0_r in Hk.
    destruct rest as [|c rest]; cbn [Re.star_greedy]; [exact Hk |].
    cbn in Hr. now rewrite Hr.
  - cbn [String.append Re.star_greedy]. cbn in Hx.
    apply andb_true_iff in Hx as [Ha Hx]. rewrite Ha.
    rewrite (IH (S pos) Hx Hr); [reflexivity |].
    cbn [String.length] in Hk. now replace (S pos + String.length x)%nat
      with (pos + S (String.length x))%nat by lia.
Qed.

(** A group around a greedy plus captures the whole run. *)
Lemma run_group_plus (i : nat) (p : ascii -> bool) (x rest : string)
      (pos : nat) (caps : Re.captures) (k : @Re.cont R) (r : R) :
  nonempty_all p x = true -> stops p rest ->
  k (pos + String.length x)%nat rest ((i, x) :: caps) = Some r ->
  Re.run (Re.Grp i (Re.Plus p)) pos (x ++ rest) caps k = Some r.
Proof.
  unfold nonempty_all. intros Hx Hr Hk.
  destruct x as [|a x]; [discriminate |]. cbn in Hx.
  apply andb_true_iff in Hx as [Ha Hx].
  cbn [Re.run String.append]. rewrite Ha.
  apply star_greedy_span; [exact Hx | exact Hr |].
  replace (S pos + String.length x - pos)%nat with (String.length (String a x))
    by (cbn; lia).
  change (String a (x ++ rest)) with (String a x ++ rest)%string.
  rewrite take_append.
  now replace (S pos + String.length x)%nat
    with (pos + String.length (String a x))%nat by (cbn; lia).
Qed.
(** A greedy plus takes the whole run. *)
Lemma run_plus (p : ascii -> bool) (x rest : string)
      (pos : nat) (caps : Re.captures) (k : @Re.cont R) (r : R) :
  nonempty_all p x = true -> stops p rest ->
  k (pos + String.length x)%nat rest caps = Some r ->
  Re.run (Re.Plus p) pos (x ++ rest) caps k = Some r.
Proof.
  unfold nonempty_all. intros Hx Hr Hk.
  destruct x as [|a x]; [discriminate |]. cbn in Hx.
  apply andb_true_iff in Hx as [Ha Hx].
  cbn [Re.run String.append]. rewrite Ha.
  apply star_greedy_span; [exact Hx | exact Hr |].
  now replace (S pos + String.length x)%nat
    with (pos + String.length (String a x))%nat by (cbn; lia).
Qed.
End Greedy.

Lemma run_seq {R : Type} (r1 r2 : Re.regex) (pos : nat) (s : string)
      (caps : Re.captures) (k : @Re.cont R) :
  Re.run (Re.Seq r1 r2) pos s caps k
  = Re.run r1 pos s caps (fun pos' s' caps' => Re.run r2 pos' s' caps' k).
Proof. reflexivity. Qed.

Lemma run_chr {R : Type} (c : ascii) (pos : nat) (s : string)
      (caps : Re.captures) (k : @Re.cont R) :
  Re.run (Re.Chr c) pos (String c s) caps k = k (S pos) s caps.
Proof. cbn [Re.run]. now rewrite Ascii.eqb_refl. Qed.

Lemma run_bol {R : Type} (s : string) (caps : Re.captures) (k : @Re.cont R) :
  Re.run Re.Bol 0 s caps k = k 0%nat s caps.
Proof. reflexivity. Qed.

(** The identifier check of [validate_json] accepts every valid
    identifier. *)
Lemma re_match_ident_valid (i : string) :
  valid_identifier i = true -> Re.re_match Re.ident i = Some [].
Proof.
  intros Hi. unfold Re.re_match, Re.ident. rewrite run_seq, run_bol, run_seq.
  rewrite <- (append_nil_r i) at 1.
  apply run_plus; [exact Hi | exact I | reflexivity].
Qed.

(** A file name written by [generate_filename] from lower-case type and
    model and a valid identifier is read back by [parse_filename]. *)
Lemma parse_generate_lowercase (t m i : string) :
  nonempty_all Py.is_lower t = true ->
  nonempty_all Py.is_lower m = true ->
  valid_identifier i = true ->
  JsonSchemaValidator.parse_filename
    (JsonSchemaValidator.generate_filename t m i) = Some (t, m, i).
Proof.
  intros Ht Hm Hi.
  unfold JsonSchemaValidator.parse_filename, JsonSchemaValidator.generate_filename.
  assert (Re.re_match Re.filename_pattern
            ("(" ++ t ++ "-" ++ m ++ ")-" ++ i ++ ".json")
          = Some [(3, i); (2, m); (1, t)]) as ->.
  { unfold Re.re_match, Re.filename_pattern.
    rewrite run_seq, run_bol, run_seq. cbn [String.append]. rewrite run_chr, run_seq.
    apply run_group_plus; [exact Ht | reflexivity |].
    rewrite run_seq. cbn [String.append]. rewrite run_chr, run_seq.
    apply run_group_plus; [exact Hm | reflexivity |].
    rewrite run_seq. cbn [String.append]. rewrite run_chr, run_seq, run_chr, run_seq.
    apply run_group_plus; [exact Hi | reflexivity |].
    reflexivity. }
  reflexivity.
Qed.
End ReFacts.

(* ================================================================== *)
(** * Identifiers and file names *)
(* ================================================================== *)

Module IdentifierFacts.
Import PyFacts ReFacts Spec.

(** The identifier derived from the first directory is sanitised: it is a
    valid identifier whatever the directory is called. *)
Lemma derived_identifier_valid (env : Env) (self : DatabaseMetaParser.t)
      (i : string) :
  DatabaseMetaParser.derived_identifier env self = Ok i ->
  valid_identifier i = true.
Proof.
  unfold DatabaseMetaParser.derived_identifier.
  destruct (DatabaseMetaParser.import_dirs self) as [|first_dir rest];
    [discriminate |].
  destruct (DatabaseMetaParser._extract_identifier_from_dir env first_dir)
    as [[[hostname sid] dbname] collect_date].
  intros [= <-]. unfold valid_identifier, nonempty_all.
  rewrite sanitized_all_ident, sanitized_nonempty, andb_true_r.
  destruct (String.eqb _ "one"); apply nonempty_append_r; reflexivity.
Qed.

Lemma generate_identifier_derived (env : Env) (self : DatabaseMetaParser.t) :
  Py.truthy (DatabaseMetaParser.identifier self) = false ->
  DatabaseMetaParser._generate_identifier env self
  = DatabaseMetaParser.derived_identifier env self.
Proof.
  unfold DatabaseMetaParser._generate_identifier.
  destruct (DatabaseMetaParser.identifier self) as [i|]; cbn; [|reflexivity].
  now intros ->.
Qed.

(** [generate_meta_json] puts the result of [_generate_identifier] in the
    document, and what it writes is that document. *)
Lemma generate_meta_json_identifier (env : Env) (self self' : DatabaseMetaParser.t)
      (o : outcome) :
  DatabaseMetaParser.generate_meta_json env self = Ok (self', o) ->
  DatabaseMetaParser._generate_identifier env self
  = Ok (doc_identifier (DatabaseMetaParser.meta_data self'))
  /\ (forall p d, written o = Some (p, d) -> d = DatabaseMetaParser.meta_data self').
Proof.
  unfold DatabaseMetaParser.generate_meta_json.
  destruct (mkdir_ok env _); [|discriminate]. cbn [negb].
  destruct (DatabaseMetaParser._generate_identifier env self) as [i|e];
    [|discriminate].
  cbn [bind].
  destruct (JsonSchemaValidator.validate_json _).
  - intros [= <- <-]. split; [reflexivity | discriminate].
  - destruct (writable env _); intros [= <- <-]; (split; [reflexivity |]).
    + now intros p d [= _ <-].
    + discriminate.
Qed.

(** In single-instance mode, without an override, the identifier of the
    document is valid. *)
Lemma one_mode_identifier_valid (env : Env) (self self' : DatabaseMetaParser.t)
      (o : outcome) :
  DatabaseMetaParser.db_model self = "one" ->
  Py.truthy (DatabaseMetaParser.identifier self) = false ->
  DatabaseMetaParser.parse env self = Ok (self', o) ->
  ret o = true ->
  valid_identifier (doc_identifier (DatabaseMetaParser.meta_data self')) = true.
Proof.
  intros Hm Hi. unfold DatabaseMetaParser.parse. rewrite Hm.
  destruct (forallb _ _); cbn [negb String.eqb Ascii.eqb Bool.eqb];
    [|intros [= <- <-]; discriminate].
  destruct (DatabaseMetaParser.parse_dirs _ _ _) as [items|];
    [|intros [= <- <-]; discriminate].
  destruct (_ =? 0)%nat; [intros [= <- <-]; discriminate |].
  intros Hg _. apply generate_meta_json_identifier in Hg as [Hg _].
  rewrite generate_identifier_derived in Hg by exact Hi.
  exact (derived_identifier_valid _ _ _ Hg).
Qed.

(** The file names of the four lower-case database types are read back. *)
Lemma parse_generate_roundtrip (t m i : string) :
  In t ["oracle"; "mysql"; "postgresql"; "sqlserver"] ->
  In m ["one"; "rac"] ->
  valid_identifier i = true ->
  JsonSchemaValidator.parse_filename
    (JsonSchemaValidator.generate_filename t m i) = Some (t, m, i).
Proof.
  intros Ht Hm Hi. apply parse_generate_lowercase; [| |exact Hi].
  - cbn in Ht. intuition (subst; reflexivity).
  - cbn in Hm. intuition (subst; reflexivity).
Qed.

End IdentifierFacts.

(** C2 (defect of the code).  In ['rac'] mode the identifier of the
    cluster is stored in [self.identifier] as it is derived, and
    [_generate_identifier] then returns it at its first line, before the
    line that replaces the characters outside [[A-Za-z0-9_-]].  With host
    names [db.a1] and [db.a2] the identifier placed in the document is
    [db.a_hnoms_20250826]; it is not a valid identifier, validation
    rejects it and nothing is written.  With directory names that end with
    a line feed the document is written and its identifier ends with the
    line feed. *)
Theorem rac_identifier_not_sanitized :
  Examples.placed_identifier Examples.env_dots "oracle" "rac"
      [Examples.dot1; Examples.dot2] None = Some "db.a_hnoms_20250826"
  /\ Spec.valid_identifier "db.a_hnoms_20250826" = false
  /\ written (parse_metadata Examples.env_dots "oracle" "rac"
                [Examples.dot1; Examples.dot2] "/out" None) = None
  /\ Examples.written_identifier
       (parse_metadata Examples.env_lf "oracle" "rac"
          [Examples.lf1; Examples.lf2] "/out" None)
     = Some ("h_s_20250826" ++ Examples.lf)%string
  /\ Spec.valid_identifier ("h_s_20250826" ++ Examples.lf) = false.
Proof. repeat split; vm_compute; reflexivity. Qed.

(** C3 (defect of the code).  [oracle_db_file] is a valid database type
    and the pattern of [parse_filename] reads the type as [[a-z]+], which
    stops at the first ['_']: a file name generated for that type is not
    read back, whatever the model and the identifier. *)
Theorem legacy_dbtype_not_parsed (dbmodel identifier : string) :
  mem_str "oracle_db_file" JsonSchemaValidator.valid_dbtypes = true
  /\ JsonSchemaValidator.parse_filename
       (JsonSchemaValidator.generate_filename "oracle_db_file" dbmodel identifier)
     = None.
Proof. split; reflexivity. Qed.

(* ================================================================== *)
(** * Cluster nodes *)
(* ================================================================== *)

Module NodeFacts.
Import PyFacts ReFacts Spec.

(** The node [_parse_dirname] leaves: its database name is derived from
    its sid, or it has neither. *)
Lemma parse_dirname_dbname (self : RacNodeInfo.t) :
  RacNodeInfo.sid self = None -> RacNodeInfo.dbname self = None ->
  let n := RacNodeInfo._parse_dirname self in
  match RacNodeInfo.sid n with
  | Some s => RacNodeInfo.dbname n = Some (Re.re_sub Re.digits_eol "" s)
  | None => RacNodeInfo.dbname n = None
  end.
Proof.
  intros Hs Hd. unfold RacNodeInfo._parse_dirname.
  destruct (Py.split "_" (RacNodeInfo.dirname self)) as [|p0 [|p1 [|p2 rest]]];
    cbn; rewrite ?Hs, ?Hd; reflexivity.
Qed.

(** The sid of a node: the manifest's [oracle_sid], else its [sid], else
    the one of the directory name. *)
Lemma init_sid (env : Env) (directory : string) (data : Manifest) :
  path_exists env (Py.path_join directory "file_status.json") = true ->
  load_json env (Py.path_join directory "file_status.json") = Some data ->
  RacNodeInfo.sid (RacNodeInfo.init env directory)
  = match m_oracle_sid data with
    | Some s => Some s
    | None =>
        match m_sid data with
        | Some s => Some s
        | None =>
            RacNodeInfo.sid
              (RacNodeInfo._parse_dirname
                 (RacNodeInfo.mk directory (Py.basename directory)
                                 None None None None None None))
        end
    end.
Proof.
  intros He Hl. unfold RacNodeInfo.init, RacNodeInfo._load_file_status.
  set (n := RacNodeInfo._parse_dirname _).
  replace (RacNodeInfo.directory n) with directory
    by (unfold n, RacNodeInfo._parse_dirname;
        destruct (Py.split _ _) as [|p0 [|p1 [|p2 rest]]]; reflexivity).
  rewrite He, Hl. reflexivity.
Qed.

(** The database name of a node is derived again from its final sid:
    whenever the sid is a non-empty string, the database name is
    [re.sub(r'\d+$', '', sid)]. *)
Lemma dbname_rederived (env : Env) (directory s : string) :
  RacNodeInfo.sid (RacNodeInfo.init env directory) = Some s ->
  Py.nonempty s = true ->
  RacNodeInfo.dbname (RacNodeInfo.init env directory)
  = Some (Re.re_sub Re.digits_eol "" s).
Proof.
  unfold RacNodeInfo.init.
  set (n0 := RacNodeInfo.mk directory _ None None None None None None).
  pose proof (parse_dirname_dbname n0 eq_refl eq_refl) as Hn. cbn zeta in Hn.
  set (n := RacNodeInfo._parse_dirname n0) in *.
  unfold RacNodeInfo._load_file_status.
  destruct (path_exists env _).
  - destruct (load_json env _) as [data|].
    + unfold RacNodeInfo.apply_file_status. cbn [RacNodeInfo.sid RacNodeInfo.dbname].
      intros Hs Hne. rewrite Hs, Hne. reflexivity.
    + cbn [RacNodeInfo.sid RacNodeInfo.dbname]. intros Hs _.
      now rewrite Hs in Hn.
  - cbn [RacNodeInfo.sid RacNodeInfo.dbname]. intros Hs _.
    now rewrite Hs in Hn.
Qed.

(** For a sid that does not end with a line feed this is the sid without
    its trailing digits. *)
Lemma dbname_strips_trailing_digits (env : Env) (directory s : string) :
  RacNodeInfo.sid (RacNodeInfo.init env directory) = Some s ->
  Py.nonempty s = true ->
  ends_with_LF s = false ->
  RacNodeInfo.dbname (RacNodeInfo.init env directory)
  = Some (strip_trailing_digits s).
Proof.
  intros Hs Hne Hl. rewrite (dbname_rederived _ _ _ Hs Hne).
  now rewrite re_sub_digits_eol, sub_digits_eol_plain.
Qed.

(** A valid node has a host name, a sid and a database name, all
    non-empty, and a manifest. *)
Lemma is_valid_fields (n : RacNodeInfo.t) :
  RacNodeInfo.is_valid n = true ->
  Py.truthy (RacNodeInfo.hostname n) = true
  /\ Py.truthy (RacNodeInfo.sid n) = true
  /\ Py.truthy (RacNodeInfo.dbname n) = true
  /\ exists data, RacNodeInfo.file_status_data n = Some data
                  /\ manifest_truthy data = true.
Proof.
  unfold RacNodeInfo.is_valid. intros H.
  apply andb_true_iff in H as [H H4]. apply andb_true_iff in H as [H H3].
  apply andb_true_iff in H as [H1 H2]. repeat split; try assumption.
  destruct (RacNodeInfo.file_status_data n) as [data|]; [eauto | discriminate].
Qed.

End NodeFacts.

(** C7 (defect of the code).  The database name is derived with
    [re.sub(r'\d+$', '', sid)], and [$] also matches just before a line
    feed that ends the string.  For the manifest value [oracle_sid =
    "orcl1\n"] the node is valid, its sid is that value, and its database
    name is ["orcl\n"]: the digit before the line feed is removed although
    the sid has no trailing digits. *)
Theorem dbname_of_sid_with_line_feed :
  let node := RacNodeInfo.init Examples.env_sid_lf Examples.dir1 in
  RacNodeInfo.is_valid node = true
  /\ RacNodeInfo.sid node = Some ("orcl1" ++ Examples.lf)%string
  /\ RacNodeInfo.dbname node = Some ("orcl" ++ Examples.lf)%string
  /\ Spec.strip_trailing_digits ("orcl1" ++ Examples.lf) = ("orcl1" ++ Examples.lf)%string.
Proof. repeat split; vm_compute; reflexivity. Qed.

(** C8 (defect of the code).  The groups of [detect_rac_nodes] are keyed
    by the string [prefix_sidPrefix_date].  The names [a_b1_c1_20250101]
    and [a1_b_c1_20250101] have the different parts (a_b, c) and (a, b_c)
    and the same key, so the two directories are returned as one cluster
    although no (prefix, sidPrefix, date) has two members. *)
Theorem detect_joins_distinct_prefixes :
  RacParser.detect_rac_nodes Examples.env_collision "/data"
  = Ok ["/data/a1_b_c1_20250101"; "/data/a_b1_c1_20250101"]
  /\ Spec.name_triple "a1_b_c1_20250101" = Some ("a", "b_c", "20250101")
  /\ Spec.name_triple "a_b1_c1_20250101" = Some ("a_b", "c", "20250101")
  /\ RacParser.group_key "/data/a1_b_c1_20250101"
     = RacParser.group_key "/data/a_b1_c1_20250101".
Proof. repeat split; vm_compute; reflexivity. Qed.

(* ================================================================== *)
(** * Building and merging a cluster *)
(* ================================================================== *)

Module ClusterFacts.
Import PyFacts ReFacts Spec NodeFacts.

Lemma init_directory (env : Env) (directory : string) :
  RacNodeInfo.directory (RacNodeInfo.init env directory) = directory.
Proof.
  unfold RacNodeInfo.init, RacNodeInfo._load_file_status,
    RacNodeInfo._parse_dirname.
  cbn [RacNodeInfo.dirname RacNodeInfo.directory].
  destruct (Py.split _ _) as [|p0 [|p1 [|p2 rest]]];
    cbn [RacNodeInfo.directory];
    destruct (path_exists env _); try reflexivity;
    destruct (load_json env _); reflexivity.
Qed.

(** The loop of [parse_rac_directories] keeps the directories that
    resolve, in input order. *)
Lemma parse_nodes_filter (env : Env) (directories : list string) :
  RacParser.parse_nodes env directories
  = List.map (RacNodeInfo.init env) (List.filter (resolves env) directories).
Proof.
  induction directories as [|d rest IH]; [reflexivity |].
  cbn [RacParser.parse_nodes List.filter]. unfold resolves at 1.
  destruct (path_exists env d); cbn [negb andb]; [|exact IH].
  destruct (RacNodeInfo.is_valid _); cbn [List.map]; now rewrite IH.
Qed.

Lemma filter_resolves_valid (env : Env) (directories : list string) :
  Forall (fun n => RacNodeInfo.is_valid n = true)
         (List.map (RacNodeInfo.init env) (List.filter (resolves env) directories)).
Proof.
  apply Forall_map, List.Forall_forall. intros d Hd.
  apply List.filter_In in Hd as [_ Hd]. unfold resolves in Hd.
  now apply andb_true_iff in Hd.
Qed.

(** Valid nodes always make a cluster. *)
Lemma cluster_init_ok (env : Env) (n : RacNodeInfo.t) (rest : list RacNodeInfo.t) :
  RacNodeInfo.is_valid n = true ->
  exists c, RacClusterInfo.init env (n :: rest) = Ok c
            /\ RacClusterInfo.nodes c = n :: rest
            /\ RacClusterInfo.node_count c = List.length (n :: rest).
Proof.
  intros Hv. apply is_valid_fields in Hv as (Hh & _).
  unfold RacClusterInfo.init.
  destruct (RacNodeInfo.hostname n) as [h|]; [|discriminate].
  eexists. repeat split.
Qed.

(** What [parse_rac_directories] returns, in terms of the directories
    that resolve. *)
Lemma parse_rac_directories_spec (env : Env) (directories : list string) :
  match RacParser.parse_rac_directories env directories with
  | Ok cluster =>
      List.filter (resolves env) directories <> []
      /\ RacClusterInfo.nodes cluster
         = List.map (RacNodeInfo.init env) (List.filter (resolves env) directories)
  | Raise _ => List.filter (resolves env) directories = []
  end.
Proof.
  unfold RacParser.parse_rac_directories.
  destruct directories as [|d0 rest0]; [reflexivity |].
  rewrite parse_nodes_filter.
  pose proof (filter_resolves_valid env (d0 :: rest0)) as Hv.
  destruct (List.filter (resolves env) (d0 :: rest0)) as [|d kept]; [reflexivity |].
  cbn [List.map] in *. inversion Hv as [|n l Hn Hl]; subst.
  destruct (cluster_init_ok env _ (List.map (RacNodeInfo.init env) kept) Hn)
    as (c & -> & Hc & _).
  split; [discriminate | exact Hc].
Qed.

(** The records of [merge_node_files]: one per node, numbered from [idx]
    in order, each from the directory of its node and marked by
    [is_valid]. *)
Lemma merge_from_dirs (idx : nat) (nodes : list RacNodeInfo.t) :
  List.map nr_source_dir (RacParser.merge_from idx nodes)
  = List.map RacNodeInfo.directory nodes.
Proof.
  revert idx. induction nodes as [|n rest IH]; intros idx; [reflexivity |].
  cbn. now rewrite IH.
Qed.

Lemma merge_from_numbers (idx : nat) (nodes : list RacNodeInfo.t) :
  node_numbers (RacParser.merge_from idx nodes)
  = List.map Some (List.seq idx (List.length nodes)).
Proof.
  revert idx. induction nodes as [|n rest IH]; intros idx; [reflexivity |].
  unfold node_numbers in *. cbn. now rewrite IH.
Qed.

Lemma merge_from_length (idx : nat) (nodes : list RacNodeInfo.t) :
  List.length (RacParser.merge_from idx nodes) = List.length nodes.
Proof.
  revert idx. induction nodes as [|n rest IH]; intros idx; [reflexivity |].
  cbn. now rewrite IH.
Qed.


End ClusterFacts.

(* ================================================================== *)
(** * Runs of the generic parser *)
(* ================================================================== *)

Module RunFacts.
Import PyFacts ReFacts Spec NodeFacts ClusterFacts.

(** What [generate_meta_json] writes is the document it was given, with
    the final identifier, and that document passed validation. *)
Lemma generate_meta_json_written (env : Env) (self self' : DatabaseMetaParser.t)
      (o : outcome) (p : string) (d : Document) :
  DatabaseMetaParser.generate_meta_json env self = Ok (self', o) ->
  written o = Some (p, d) ->
  doc_metainfo d = doc_metainfo (DatabaseMetaParser.meta_data self)
  /\ doc_dbmodel d = doc_dbmodel (DatabaseMetaParser.meta_data self)
  /\ JsonSchemaValidator.validate_json d = None.
Proof.
  unfold DatabaseMetaParser.generate_meta_json.
  destruct (mkdir_ok env _); [|discriminate]. cbn [negb].
  destruct (DatabaseMetaParser._generate_identifier env self) as [i|e];
    [|discriminate].
  cbn [bind].
  destruct (JsonSchemaValidator.validate_json _) eqn:Hv.
  - intros [= <- <-]. discriminate.
  - destruct (writable env _); intros [= <- <-]; [|discriminate].
    intros [= _ <-]. repeat split. exact Hv.
Qed.

(** A validation failure ends [generate_meta_json] before the write. *)
Lemma generate_meta_json_rejected (env : Env) (self self' : DatabaseMetaParser.t)
      (o : outcome) (e : JsonSchemaValidator.error) :
  DatabaseMetaParser.generate_meta_json env self = Ok (self', o) ->
  JsonSchemaValidator.validate_json (DatabaseMetaParser.meta_data self') = Some e ->
  ret o = false /\ written o = None /\ log o = [LogValidationFailed e].
Proof.
  unfold DatabaseMetaParser.generate_meta_json.
  destruct (mkdir_ok env _); [|discriminate]. cbn [negb].
  destruct (DatabaseMetaParser._generate_identifier env self) as [i|x];
    [|discriminate].
  cbn [bind].
  destruct (JsonSchemaValidator.validate_json _) eqn:Hv.
  - intros [= <- <-]. rewrite Hv. intros [= <-]. repeat split.
  - destruct (writable env _); intros [= <- <-]; rewrite Hv; discriminate.
Qed.

(** The parser [__init__] returns. *)
Lemma init_ok (env : Env) (db_type db_model : string) (dirs : list string)
      (out : string) (ident : option string) (parser : DatabaseMetaParser.t) :
  DatabaseMetaParser.init env db_type db_model dirs out ident = Ok parser ->
  exists required,
    Config.lookup_db db_type Config.SUPPORTED_DATABASES = Some required
    /\ parser = DatabaseMetaParser.mk db_type db_model required
                  (List.map Path.normal dirs) (output_dir env out) ident
                  (JsonSchemaValidator.create_empty_json env db_type db_model
                     (default "temp" (Py.or_else ident None)))
    /\ (db_model = "rac" -> (2 <= List.length dirs <= 4)%nat)
    /\ (db_model = "one" -> List.length dirs = 1%nat).
Proof.
  unfold DatabaseMetaParser.init.
  destruct (Config.lookup_db _ _) as [required|]; [|discriminate].
  destruct (negb (mem_str db_model _)); [discriminate |].
  destruct (_ =? 0)%nat; [discriminate |].
  destruct (String.eqb db_model "one" && _) eqn:H1; [discriminate |].
  destruct (String.eqb db_model "rac" && _) eqn:H2; [discriminate |].
  intros [= <-]. exists required.
  split; [reflexivity |]. split; [reflexivity |]. split.
  - intros ->. rewrite String.eqb_refl in H2. cbn [andb] in H2.
    apply negb_false_iff, andb_true_iff in H2 as [Ha Hb].
    apply Nat.leb_le in Ha, Hb. lia.
  - intros ->. rewrite String.eqb_refl in H1. cbn [andb] in H1.
    apply negb_false_iff, Nat.eqb_eq in H1. exact H1.
Qed.

(** A ['rac'] run that writes a document: the cluster was built, the
    records are those of [merge_node_files], and the document passed
    validation. *)
Lemma rac_run_written (env : Env) (db_type : string) (dirs : list string)
      (out : string) (ident : option string) (p : string) (d : Document) :
  written (parse_metadata env db_type "rac" dirs out ident) = Some (p, d) ->
  exists cluster,
    RacParser.parse_rac_directories env (List.map Path.normal dirs) = Ok cluster
    /\ doc_metainfo d = RacParser.merge_node_files cluster
    /\ doc_dbmodel d = "rac"
    /\ JsonSchemaValidator.validate_json d = None
    /\ (2 <= List.length dirs <= 4)%nat.
Proof.
  unfold parse_metadata.
  destruct (DatabaseMetaParser.init _ _ _ _ _ _) as [parser|] eqn:Hi;
    [|discriminate].
  apply init_ok in Hi as (required & _ & -> & Hn & _). specialize (Hn eq_refl).
  unfold DatabaseMetaParser.parse. cbn [DatabaseMetaParser.import_dirs
    DatabaseMetaParser.db_model String.eqb Ascii.eqb Bool.eqb].
  destruct (negb (forallb _ _)); [discriminate |].
  unfold DatabaseMetaParser._parse_rac_mode, DatabaseMetaParser.rac_mode_body.
  cbn [DatabaseMetaParser.import_dirs].
  destruct (RacParser.parse_rac_directories env _) as [cluster|];
    [|discriminate].
  cbn [bind].
  destruct (RacClusterInfo.validate_consistency cluster) as [is_consistent issues].
  match goal with
  | |- context [DatabaseMetaParser.generate_meta_json env ?s] =>
      destruct (DatabaseMetaParser.generate_meta_json env s) as [[self' o]|] eqn:Hg;
      [|discriminate]
  end.
  intros Hw. apply (generate_meta_json_written _ _ _ _ _ _ Hg) in Hw
    as (Hm & Hd & Hv).
  exists cluster. repeat split; try assumption; try lia.
  - rewrite Hm. cbn.
    destruct (Py.truthy ident), (Py.truthy (RacClusterInfo.dbname cluster));
      reflexivity.
  - rewrite Hd. cbn.
    destruct (Py.truthy ident), (Py.truthy (RacClusterInfo.dbname cluster));
      reflexivity.
Qed.

(** The record [parse_file_status] returns comes from the directory it
    was given. *)
Lemma parse_file_status_dir (env : Env) (self : DatabaseMetaParser.t)
      (directory : string) (n : option nat) (item : NodeRecord) :
  DatabaseMetaParser.parse_file_status env self directory n = Some item ->
  nr_source_dir item = directory.
Proof.
  unfold DatabaseMetaParser.parse_file_status.
  destruct (negb (path_exists env _)); [discriminate |].
  destruct (load_json env _) as [data|]; [|discriminate].
  destruct (m_hostname data), (m_files data); try discriminate.
  destruct (negb (is_some (m_sid data)) && _); [discriminate |].
  destruct (negb (is_some (m_collect_date data)) && _); [discriminate |].
  destruct (DatabaseMetaParser._extract_identifier_from_dir env directory)
    as [[[hostname sid] dbname] collect_date].
  now intros [= <-].
Qed.


(** A ['one'] run that writes a document: the records are those of the
    loop. *)
Lemma one_run_written (env : Env) (db_type : string) (dirs : list string)
      (out : string) (ident : option string) (p : string) (d : Document) :
  written (parse_metadata env db_type "one" dirs out ident) = Some (p, d) ->
  exists parser items,
    DatabaseMetaParser.init env db_type "one" dirs out ident = Ok parser
    /\ DatabaseMetaParser.parse_dirs env parser (List.map Path.normal dirs)
       = Some items
    /\ doc_metainfo d = items.
Proof.
  unfold parse_metadata.
  destruct (DatabaseMetaParser.init _ _ _ _ _ _) as [parser|] eqn:Hi;
    [|discriminate].
  apply init_ok in Hi as (required & _ & Hpar & _). subst parser.
  unfold DatabaseMetaParser.parse. cbn [DatabaseMetaParser.import_dirs
    DatabaseMetaParser.db_model String.eqb Ascii.eqb Bool.eqb].
  destruct (negb (forallb _ _)); [discriminate |].
  match goal with
  | |- context [DatabaseMetaParser.parse_dirs env ?s ?l] =>
      destruct (DatabaseMetaParser.parse_dirs env s l) as [items|] eqn:Hd;
      [|discriminate]
  end.
  destruct (_ =? 0)%nat; [discriminate |].
  match goal with
  | |- context [DatabaseMetaParser.generate_meta_json env ?s] =>
      destruct (DatabaseMetaParser.generate_meta_json env s) as [[self' o]|] eqn:Hg;
      [|discriminate]
  end.
  intros Hw. apply (generate_meta_json_written _ _ _ _ _ _ Hg) in Hw as (Hm & _).
  eexists. exists items. split; [reflexivity |]. split; [exact Hd |].
  rewrite Hm. reflexivity.
Qed.

End RunFacts.

(* ================================================================== *)
(** * The cluster in the document *)
(* ================================================================== *)

Module DocumentFacts.
Import PyFacts ReFacts Spec NodeFacts ClusterFacts RunFacts.

Lemma init_file_status_data (env : Env) (directory : string) :
  RacNodeInfo.file_status_data (RacNodeInfo.init env directory)
  = if path_exists env (Py.path_join directory "file_status.json")
    then load_json env (Py.path_join directory "file_status.json")
    else None.
Proof.
  unfold RacNodeInfo.init, RacNodeInfo._load_file_status,
    RacNodeInfo._parse_dirname.
  cbn [RacNodeInfo.dirname RacNodeInfo.directory].
  destruct (Py.split _ _) as [|p0 [|p1 [|p2 rest]]];
    cbn [RacNodeInfo.directory RacNodeInfo.file_status_data];
    destruct (path_exists env _); try reflexivity;
    destruct (load_json env _); reflexivity.
Qed.

Lemma resolves_resolvable (env : Env) (directory : string) :
  resolves env directory = resolvable env directory.
Proof.
  unfold resolves, resolvable, RacNodeInfo.is_valid.
  rewrite init_file_status_data.
  destruct (path_exists env (Py.path_join directory "file_status.json"));
    reflexivity.
Qed.

Lemma filter_all (A : Type) (f : A -> bool) (l : list A) :
  forallb f l = true -> List.filter f l = l.
Proof.
  induction l as [|a l IH]; cbn; [reflexivity |].
  intros H. apply andb_true_iff in H as [-> H]. now rewrite IH.
Qed.

(** A ['rac'] document that passed validation has at least two records. *)
Lemma validated_rac_length (d : Document) :
  JsonSchemaValidator.validate_json d = None -> doc_dbmodel d = "rac" ->
  (2 <= List.length (doc_metainfo d))%nat.
Proof.
  unfold JsonSchemaValidator.validate_json. intros Hv Hm. rewrite Hm in Hv.
  repeat match type of Hv with
         | (if ?c then _ else _) = None => destruct c eqn:?; [discriminate |]
         end.
  match goal with
  | H : String.eqb "rac" "rac" && _ = false |- _ =>
      rewrite String.eqb_refl in H; cbn [andb] in H;
      apply Nat.ltb_ge in H; exact H
  end.
Qed.

(** What [parse_rac_directories] returns, in terms of the reasons for a
    directory to resolve. *)
Lemma parse_rac_directories_resolvable (env : Env) (directories : list string) :
  match RacParser.parse_rac_directories env directories with
  | Ok cluster =>
      (0 < List.length (List.filter (resolvable env) directories))%nat
      /\ RacClusterInfo.nodes cluster
         = List.map (RacNodeInfo.init env)
                    (List.filter (resolvable env) directories)
      /\ List.map RacNodeInfo.directory (RacClusterInfo.nodes cluster)
         = List.filter (resolvable env) directories
  | Raise _ => List.filter (resolvable env) directories = []
  end.
Proof.
  pose proof (ClusterFacts.parse_rac_directories_spec env directories) as H.
  rewrite (List.filter_ext _ _ (resolves_resolvable env)) in H.
  destruct (RacParser.parse_rac_directories env directories) as [cluster|];
    [|exact H].
  destruct H as [Hne Hn]. repeat split.
  - destruct (List.filter _ directories); [congruence | cbn; lia].
  - exact Hn.
  - rewrite Hn, List.map_map.
    rewrite (List.map_ext _ (fun d => d)) by apply ClusterFacts.init_directory.
    apply List.map_id.
Qed.

End DocumentFacts.


(* ================================================================== *)
(** * The date of the cluster *)
(* ================================================================== *)

Module DateFacts.
Import Spec.

(** The order of Python on strings is transitive. *)
Lemma leb_trans (a b c : string) :
  String.leb a b = true -> String.leb b c = true -> String.leb a c = true.
Proof.
  unfold String.leb. revert b c.
  induction a as [|x a IH]; intros [|y b] [|z c]; cbn; try congruence.
  unfold Ascii.compare.
  destruct (N.compare_spec (N_of_ascii x) (N_of_ascii y)) as [Hxy|Hxy|Hxy],
           (N.compare_spec (N_of_ascii y) (N_of_ascii z)) as [Hyz|Hyz|Hyz],
           (N.compare_spec (N_of_ascii x) (N_of_ascii z)) as [Hxz|Hxz|Hxz];
    try congruence; try lia.
  apply IH.
Qed.

Lemma leb_refl (a : string) : String.leb a a = true.
Proof.
  unfold String.leb. induction a as [|x a IH]; cbn; [reflexivity |].
  unfold Ascii.compare. now rewrite N.compare_refl.
Qed.

Lemma ltb_leb (a b : string) : String.ltb a b = true -> String.leb a b = true.
Proof. unfold String.ltb, String.leb. destruct (String.compare a b); congruence. Qed.

Lemma not_ltb_leb (a b : string) : String.ltb a b = false -> String.leb b a = true.
Proof.
  unfold String.ltb, String.leb. rewrite (String.compare_antisym b a).
  destruct (String.compare a b); cbn; congruence.
Qed.

(** The loop of [max]: its result is the start value or an element, and
    bounds both. *)
Lemma fold_max (l : list string) (x : string) :
  let m := fold_left (fun m y => if String.ltb m y then y else m) l x in
  (m = x \/ In m l) /\ String.leb x m = true
  /\ forall d, In d l -> String.leb d m = true.
Proof.
  revert x. induction l as [|y l IH]; intros x; cbn [fold_left].
  - split; [now left |]. split; [apply leb_refl | intros d []].
  - destruct (String.ltb x y) eqn:Hxy.
    + destruct (IH y) as (Hin & Hle & Hall). split; [|split].
      * right. destruct Hin as [-> | Hin]; [now left | now right].
      * eapply leb_trans; [apply ltb_leb, Hxy | exact Hle].
      * intros d [<- | Hd]; [exact Hle | now apply Hall].
    + destruct (IH x) as (Hin & Hle & Hall). split; [|split].
      * destruct Hin as [-> | Hin]; [now left | right; now right].
      * exact Hle.
      * intros d [<- | Hd]; [|now apply Hall].
        eapply leb_trans; [apply not_ltb_leb, Hxy | exact Hle].
Qed.

Lemma max_str_spec (l : list string) :
  match Py.max_str l with
  | Some m => In m l /\ forall d, In d l -> String.leb d m = true
  | None => l = []
  end.
Proof.
  destruct l as [|x l]; [reflexivity |]. cbn [Py.max_str].
  destruct (fold_max l x) as (Hin & Hle & Hall). split.
  - destruct Hin as [-> | Hin]; [now left | now right].
  - intros d [<- | Hd]; [exact Hle | now apply Hall].
Qed.

Lemma distinct_In (l : list string) (x : string) :
  In x (Py.distinct l) <-> In x l.
Proof.
  induction l as [|y l IH]; [reflexivity |]. cbn [Py.distinct].
  split.
  - intros [<- | H]; [now left |].
    apply List.filter_In in H as [H _]. right. now apply IH.
  - intros [<- | H]; [now left |].
    destruct (String.eqb_spec y x) as [-> | Hne]; [now left |].
    right. apply List.filter_In. split; [now apply IH |].
    apply negb_true_iff. now apply String.eqb_neq.
Qed.

(** The set of the nodes' dates holds the non-empty dates of the nodes. *)
Lemma truthy_set_dates (nodes : list RacNodeInfo.t) (d : string) :
  In d (RacClusterInfo.truthy_set RacNodeInfo.collect_date nodes)
  <-> has_date nodes d.
Proof.
  unfold RacClusterInfo.truthy_set, has_date. rewrite distinct_In, List.in_flat_map.
  split.
  - intros (n & Hn & Hd). exists n. split; [exact Hn |].
    destruct (RacNodeInfo.collect_date n) as [v|]; [|destruct Hd].
    destruct (Py.nonempty v) eqn:Hv; [|destruct Hd].
    destruct Hd as [<- | []]. now split.
  - intros (n & Hn & Hc & Hv). exists n. split; [exact Hn |].
    rewrite Hc, Hv. now left.
Qed.

(** The two branches of [_extract_cluster_info] agree: the date of the
    cluster is the largest of the set. *)
Lemma cluster_collect_date_max (env : Env) (nodes : list RacNodeInfo.t)
      (cluster : RacClusterInfo.t) :
  RacClusterInfo.init env nodes = Ok cluster ->
  RacClusterInfo.collect_date cluster
  = Py.max_str (RacClusterInfo.truthy_set RacNodeInfo.collect_date nodes).
Proof.
  unfold RacClusterInfo.init. destruct nodes as [|first rest]; [discriminate |].
  destruct (RacNodeInfo.hostname first); [|discriminate].
  intros [= <-]. cbn [RacClusterInfo.collect_date].
  destruct (RacClusterInfo.truthy_set _ _) as [|d [|d' l]]; reflexivity.
Qed.

End DateFacts.

(** C9.  The date of the cluster is a date of one of its nodes and is not
    smaller, in the order of strings, than any non-empty date of a node:
    with several distinct dates it is the latest; when the nodes agree it
    is their date; when no node has a date it is [None]. *)
Theorem cluster_collect_date_latest (env : Env) (nodes : list RacNodeInfo.t)
        (cluster : RacClusterInfo.t) :
  RacClusterInfo.init env nodes = Ok cluster ->
  (forall d, Spec.has_date nodes d ->
             exists m, RacClusterInfo.collect_date cluster = Some m
                       /\ Spec.has_date nodes m
                       /\ String.leb d m = true)
  /\ (forall d, Spec.has_date nodes d ->
                (forall d', Spec.has_date nodes d' -> d' = d) ->
                RacClusterInfo.collect_date cluster = Some d)
  /\ ((forall d, ~ Spec.has_date nodes d) ->
      RacClusterInfo.collect_date cluster = None).
Proof.
  intros Hi. rewrite (DateFacts.cluster_collect_date_max _ _ _ Hi).
  pose proof (DateFacts.max_str_spec
                (RacClusterInfo.truthy_set RacNodeInfo.collect_date nodes)) as Hm.
  destruct (Py.max_str _) as [m|].
  - destruct Hm as [Hin Hall]. apply DateFacts.truthy_set_dates in Hin.
    split; [|split].
    + intros d Hd. exists m. split; [reflexivity |]. split; [exact Hin |].
      apply Hall. now apply DateFacts.truthy_set_dates.
    + intros d _ Hsame. f_equal. now apply Hsame.
    + intros Hnone. destruct (Hnone m Hin).
  - split; [|split].
    + intros d Hd. apply DateFacts.truthy_set_dates in Hd. rewrite Hm in Hd.
      destruct Hd.
    + intros d Hd _. apply DateFacts.truthy_set_dates in Hd. rewrite Hm in Hd.
      destruct Hd.
    + reflexivity.
Qed.

(** Two nodes collected on different days, through the theorem. *)
Lemma cluster_collect_date_latest_witness :
  match RacParser.parse_rac_directories Examples.env_two_dates
          [Examples.dir1; Examples.late2] with
  | Ok cluster =>
      exists m, RacClusterInfo.collect_date cluster = Some m
                /\ String.leb "20250826" m = true
  | Raise _ => False
  end.
Proof.
  destruct (RacParser.parse_rac_directories _ _) as [cluster|] eqn:H;
    [|vm_compute in H; discriminate H].
  assert (RacClusterInfo.init Examples.env_two_dates
            (RacParser.parse_nodes Examples.env_two_dates
               [Examples.dir1; Examples.late2]) = Ok cluster) as Hi.
  { rewrite <- H. vm_compute. reflexivity. }
  destruct (proj1 (cluster_collect_date_latest _ _ _ Hi) "20250826")
    as (m & Hm & _ & Hle).
  - eexists. split; [left; reflexivity |]. split; vm_compute; reflexivity.
  - exists m. split; assumption.
Defined.

(* ================================================================== *)
(** * Discovery of the cluster directories *)
(* ================================================================== *)

Module DiscoveryFacts.
Import Spec.

(** ** [sorted] *)

Lemma insert_sorted_perm (x : string) (l : list string) :
  Permutation (Py.insert_sorted x l) (x :: l).
Proof.
  induction l as [|y l IH]; cbn; [reflexivity |].
  destruct (String.leb x y); [reflexivity |].
  eapply perm_trans; [apply perm_skip, IH | apply perm_swap].
Qed.

Lemma sorted_perm (l : list string) : Permutation (Py.sorted l) l.
Proof.
  induction l as [|x l IH]; cbn; [reflexivity |].
  eapply perm_trans; [apply insert_sorted_perm | now apply perm_skip].
Qed.

Lemma insert_sorted_ascending (x : string) (l : list string) :
  ascending l -> ascending (Py.insert_sorted x l).
Proof.
  unfold ascending. induction l as [|y l IH]; cbn; intros Hs.
  - repeat constructor.
  - destruct (String.leb x y) eqn:Hxy.
    + constructor; [exact Hs | constructor; exact Hxy].
    + apply Sorted_inv in Hs as [Hs Hhd]. constructor; [now apply IH |].
      destruct l as [|z l]; cbn.
      * constructor. destruct (String.leb_total x y); congruence.
      * destruct (String.leb x z).
        -- constructor. destruct (String.leb_total x y); congruence.
        -- constructor. now inversion Hhd.
Qed.

Lemma sorted_ascending (l : list string) : ascending (Py.sorted l).
Proof.
  induction l as [|x l IH]; cbn; [constructor |].
  now apply insert_sorted_ascending.
Qed.

(** ** The groups *)

Lemma lookup_add_to_group (key d k : string) (g : RacParser.groups) :
  lookup_group k (RacParser.add_to_group key d g)
  = if String.eqb key k then (lookup_group k g ++ [d])%list
    else lookup_group k g.
Proof.
  induction g as [|[k' ms] g IH]; cbn [RacParser.add_to_group lookup_group].
  - destruct (String.eqb key k); reflexivity.
  - destruct (String.eqb_spec k' key) as [-> | Hne]; cbn [lookup_group].
    + destruct (String.eqb key k); reflexivity.
    + destruct (String.eqb_spec k' k) as [-> | Hne'].
      * apply String.eqb_neq in Hne. rewrite String.eqb_sym in Hne.
        now rewrite Hne.
      * exact IH.
Qed.

(** After the loop the group of a key holds the directories with that
    key, in the order of the listing. *)
Lemma lookup_fold_groups (key_of : string -> option string) (k : string)
      (l : list string) (g : RacParser.groups) :
  lookup_group k (fold_left (group_step key_of) l g)
  = (lookup_group k g ++ members key_of k l)%list.
Proof.
  revert g. induction l as [|d l IH]; intros g; cbn [fold_left].
  - unfold members. cbn. now rewrite List.app_nil_r.
  - rewrite IH. unfold group_step, members. cbn [List.filter].
    unfold has_key at 2. destruct (key_of d) as [key|]; [|reflexivity].
    rewrite lookup_add_to_group.
    destruct (String.eqb key k); [now rewrite <- List.app_assoc | reflexivity].
Qed.

Lemma lookup_group_subdirs (key_of : string -> option string) (k : string)
      (l : list string) :
  lookup_group k (RacParser.group_subdirs key_of l) = members key_of k l.
Proof. apply (lookup_fold_groups key_of k l []). Qed.

Lemma add_to_group_keys (key d : string) (g : RacParser.groups) :
  List.map fst (RacParser.add_to_group key d g)
  = if mem_str key (List.map fst g) then List.map fst g
    else (List.map fst g ++ [key])%list.
Proof.
  unfold mem_str. induction g as [|[k' ms] g IH]; cbn; [reflexivity |].
  rewrite (String.eqb_sym key k').
  destruct (String.eqb k' key); cbn; [reflexivity |].
  rewrite IH. now destruct (existsb _ _).
Qed.

Lemma mem_str_In (x : string) (l : list string) :
  mem_str x l = true <-> In x l.
Proof.
  unfold mem_str. rewrite List.existsb_exists. split.
  - intros (y & Hy & He). apply String.eqb_eq in He. now subst.
  - intros H. exists x. split; [exact H | apply String.eqb_refl].
Qed.

Lemma add_to_group_well_formed (key d : string) (g : RacParser.groups) :
  well_formed g -> well_formed (RacParser.add_to_group key d g).
Proof.
  intros [Hnd Hne]. split.
  - rewrite (add_to_group_keys key d g).
    destruct (mem_str key _) eqn:Hm; [exact Hnd |].
    apply NoDup_app. split; [exact Hnd |]. split; [|apply NoDup_singleton].
    intros x Hx Hk. apply list_elem_of_singleton in Hk. subst x.
    apply list_elem_of_In, mem_str_In in Hx. congruence.
  - clear Hnd. induction Hne as [|[k' ms] g Hk Hg IH]; cbn.
    + constructor; [discriminate | constructor].
    + destruct (String.eqb k' key); constructor; try assumption.
      cbn. now destruct ms.
Qed.

Lemma fold_groups_well_formed (key_of : string -> option string)
      (l : list string) (g : RacParser.groups) :
  well_formed g -> well_formed (fold_left (group_step key_of) l g).
Proof.
  revert g. induction l as [|d l IH]; intros g Hg; [exact Hg |].
  cbn [fold_left]. apply IH. unfold group_step.
  destruct (key_of d); [now apply add_to_group_well_formed | exact Hg].
Qed.

Lemma lookup_group_In (k : string) (ms : list string) (g : RacParser.groups) :
  NoDup (List.map fst g) -> In (k, ms) g -> lookup_group k g = ms.
Proof.
  induction g as [|[k' ms'] g IH]; cbn; [intros _ [] |].
  intros Hnd [[= -> ->] | Hin].
  - now rewrite String.eqb_refl.
  - apply NoDup_cons in Hnd as [Hnot Hnd].
    destruct (String.eqb_spec k' k) as [-> | Hne]; [|now apply IH].
    exfalso. apply Hnot. apply list_elem_of_In.
    change k with (fst (k, ms)). now apply List.in_map.
Qed.

Lemma lookup_group_None (k : string) (g : RacParser.groups) :
  ~ In k (List.map fst g) -> lookup_group k g = [].
Proof.
  induction g as [|[k' ms] g IH]; cbn; [reflexivity |].
  intros Hn. destruct (String.eqb_spec k' k) as [-> | Hne]; [tauto |].
  apply IH. tauto.
Qed.

(** ** [max(values, key=len)] *)

Lemma fold_longest (vs : list (list string)) (v : list string) :
  let m := fold_left (fun m x => if (List.length m <? List.length x)%nat
                                 then x else m) vs v in
  (m = v \/ In m vs)
  /\ (List.length v <= List.length m)%nat
  /\ forall x, In x vs -> (List.length x <= List.length m)%nat.
Proof.
  revert v. induction vs as [|y vs IH]; intros v; cbn [fold_left].
  - split; [now left |]. split; [lia | intros x []].
  - destruct (Nat.ltb_spec (List.length v) (List.length y)) as [Hlt | Hge].
    + destruct (IH y) as (Hin & Hle & Hall). split; [|split].
      * right. destruct Hin as [-> | Hin]; [now left | now right].
      * lia.
      * intros x [<- | Hx]; [exact Hle | now apply Hall].
    + destruct (IH v) as (Hin & Hle & Hall). split; [|split].
      * destruct Hin as [-> | Hin]; [now left | right; now right].
      * exact Hle.
      * intros x [<- | Hx]; [lia | now apply Hall].
Qed.

(** What [detect_rac_nodes] returns for its sub-directories: nothing when
    no key has two of them; else the directories of one key, ascending,
    and no key has more. *)
Lemma largest_group_spec (key_of : string -> option string)
      (subdirs : list string) :
  let r := RacParser.largest_group key_of subdirs in
  (r = [] /\ forall k, (List.length (members key_of k subdirs) < 2)%nat)
  \/ (exists k,
         Permutation r (members key_of k subdirs)
         /\ ascending r
         /\ (2 <= List.length r)%nat
         /\ forall k', (List.length (members key_of k' subdirs)
                        <= List.length r)%nat).
Proof.
  cbv zeta. unfold RacParser.largest_group.
  pose proof (fun k => lookup_group_subdirs key_of k subdirs) as Hlook.
  assert (well_formed (RacParser.group_subdirs key_of subdirs)) as [Hnd Hne].
  { apply fold_groups_well_formed. split; constructor. }
  destruct (RacParser.group_subdirs key_of subdirs) as [|[k0 ms0] g] eqn:Hg.
  - left. split; [reflexivity |]. intros k. rewrite <- Hlook. cbn. lia.
  - pose (vs := List.map snd ((k0, ms0) :: g)).
    assert (forall k, In (members key_of k subdirs) vs
                      \/ members key_of k subdirs = []) as Hmem.
    { intros k. rewrite <- Hlook.
      destruct (List.in_dec String.string_dec k (List.map fst ((k0, ms0) :: g)))
        as [Hin | Hnin].
      - left. apply List.in_map_iff in Hin as ([k' ms] & Hk & Hin). cbn in Hk. subst k'.
        rewrite (lookup_group_In k ms _ Hnd Hin).
        unfold vs. change ms with (snd (k, ms)). now apply List.in_map.
      - right. now apply lookup_group_None. }
    assert (forall m, In m vs -> exists k, m = members key_of k subdirs) as Hvs.
    { intros m Hm. unfold vs in Hm.
      apply List.in_map_iff in Hm as ([k ms] & Hk & Hin). cbn in Hk. subst ms.
      exists k. rewrite <- Hlook. symmetry. now apply lookup_group_In. }
    unfold RacParser.max_by_len. cbn [List.map snd].
    destruct (fold_longest (List.map snd g) ms0) as (Hin & Hle & Hall).
    set (m := fold_left _ (List.map snd g) ms0) in *.
    assert (In m vs) as Hm.
    { unfold vs. cbn [List.map snd]. destruct Hin as [-> | Hin]; [now left | now right]. }
    assert (forall k, (List.length (members key_of k subdirs) <= List.length m)%nat)
      as Hmax.
    { intros k. destruct (Hmem k) as [Hk | ->]; [|cbn; lia].
      unfold vs in Hk. cbn [List.map snd] in Hk.
      destruct Hk as [<- | Hk]; [exact Hle | now apply Hall]. }
    destruct (Nat.ltb_spec 1 (List.length m)) as [Hlt | Hge].
    + right. destruct (Hvs m Hm) as [k Hk]. exists k.
      pose proof (sorted_perm m) as Hp.
      split; [rewrite <- Hk; exact Hp |]. split; [apply sorted_ascending |].
      rewrite (Permutation_length Hp). split; [lia | exact Hmax].
    + left. split; [reflexivity |]. intros k. specialize (Hmax k). lia.
Qed.

(** Every directory [detect_rac_nodes] returns is a sub-directory of the
    base directory whose name matches the naming pattern. *)
Lemma detect_rac_nodes_members (env : Env) (base_dir d : string)
      (r : list string) :
  RacParser.detect_rac_nodes env base_dir = Ok r ->
  In d r ->
  path_exists env base_dir = true
  /\ path_is_dir env d = true
  /\ (exists items item, listdir env base_dir = Some items /\ In item items
                         /\ d = Py.path_join base_dir item)
  /\ RacParser.group_key d <> None.
Proof.
  unfold RacParser.detect_rac_nodes.
  destruct (path_exists env base_dir); cbn [negb]; [|intros [= <-] []].
  destruct (listdir env base_dir) as [items|]; [|discriminate].
  set (subdirs := List.filter _ _). intros [= <-].
  destruct (largest_group_spec RacParser.group_key subdirs) as [[-> _] | (k & Hp & _)];
    [intros [] |].
  intros Hd. apply (Permutation_in _ Hp) in Hd.
  apply List.filter_In in Hd as [Hd Hk]. apply List.filter_In in Hd as [Hd Hdir].
  apply List.in_map_iff in Hd as (item & <- & Hitem).
  split; [reflexivity |]. split; [exact Hdir |]. split; [eauto |].
  unfold has_key in Hk. now destruct (RacParser.group_key _).
Qed.

End DiscoveryFacts.

(* ================================================================== *)
(** * The files of a node *)
(* ================================================================== *)

Module FileFacts.
Import Spec.

(** An array element without both keys does not change the map. *)
Lemma merge_list_filter (directory : string) (l : list FileInfo)
      (files : gmap string FileEntry) :
  RacParser.merge_list directory l files
  = RacParser.merge_list directory (List.filter has_filename_and_status l) files.
Proof.
  revert files. induction l as [|fi l IH]; intros files; [reflexivity |].
  cbn [RacParser.merge_list List.filter]. unfold has_filename_and_status at 1.
  destruct (fi_filename fi) as [filename|] eqn:Hf,
           (fi_status fi) as [status|] eqn:Hs;
    cbn [is_some andb RacParser.merge_list]; rewrite ?Hf, ?Hs; apply IH.
Qed.

(** The keys of the map [merge_node_files] builds: the old keys and the
    keys of the array elements that have both keys. *)
Lemma merge_list_lookup (directory : string) (l : list FileInfo)
      (files : gmap string FileEntry) (k : string) :
  is_Some (RacParser.merge_list directory l files !! k)
  <-> is_Some (files !! k)
      \/ exists fi, In fi l /\ has_filename_and_status fi = true /\ rac_key fi = k.
Proof.
  revert files. induction l as [|fi l IH]; intros files.
  - cbn. split; [auto | intros [H | (fi & [] & _)]; exact H].
  - cbn [RacParser.merge_list].
    destruct (fi_filename fi) as [filename|] eqn:Hf;
      [destruct (fi_status fi) as [status|] eqn:Hs |].
    + rewrite IH. rewrite lookup_insert_is_Some.
      split.
      * intros [[<- | [_ H]] | (fi' & Hin & Hb & Hk)].
        -- right. exists fi. split; [now left |].
           unfold has_filename_and_status, rac_key. now rewrite Hf, Hs.
        -- now left.
        -- right. exists fi'. split; [now right | now split].
      * intros [H | (fi' & [<- | Hin] & Hb & Hk)].
        -- left. destruct (decide (List.hd "" (Py.split "." filename) = k));
             [now left | right; now split].
        -- left. left. unfold rac_key in Hk. now rewrite Hf in Hk.
        -- right. exists fi'. now split.
    + rewrite IH. split.
      * intros [H | (fi' & Hin & Hb & Hk)]; [now left |].
        right. exists fi'. split; [now right | now split].
      * intros [H | (fi' & [<- | Hin] & Hb & Hk)]; [now left | |].
        -- unfold has_filename_and_status in Hb. rewrite Hs, andb_false_r in Hb.
           discriminate.
        -- right. exists fi'. now split.
    + rewrite IH. split.
      * intros [H | (fi' & Hin & Hb & Hk)]; [now left |].
        right. exists fi'. split; [now right | now split].
      * intros [H | (fi' & [<- | Hin] & Hb & Hk)]; [now left | |].
        -- unfold has_filename_and_status in Hb. rewrite Hf in Hb. discriminate.
        -- right. exists fi'. now split.
Qed.

(** The single-instance path keeps a key for every array element with a
    non-empty file name. *)
Lemma files_of_list_lookup (directory : string) (l : list FileInfo)
      (files : gmap string FileEntry) (k : string) :
  is_Some (files !! k)
  \/ (exists fi filename, In fi l /\ fi_filename fi = Some filename
                          /\ Py.nonempty filename = true /\ Py.stem filename = k) ->
  is_Some (DatabaseMetaParser.files_of_list directory l files !! k).
Proof.
  revert files. induction l as [|fi l IH]; intros files.
  - intros [H | (fi & filename & [] & _)]. exact H.
  - cbn [DatabaseMetaParser.files_of_list].
    intros [H | (fi' & filename & [<- | Hin] & Hf & Hne & Hk)].
    + destruct (Py.nonempty (default "" (fi_filename fi))); apply IH; left;
        [|exact H].
      rewrite lookup_insert_is_Some.
      destruct (decide (Py.stem (default "" (fi_filename fi)) = k));
        [now left | right; now split].
    + rewrite Hf. change (default "" (Some filename)) with filename.
      rewrite Hne. apply IH. left.
      rewrite Hk. rewrite lookup_insert_is_Some. now left.
    + destruct (Py.nonempty (default "" (fi_filename fi))); apply IH; right;
        exists fi', filename; now repeat split.
Qed.

(** The files of the record of a cluster node whose manifest has an array
    under [files]. *)
Lemma node_record_files (env : Env) (directory : string) (idx : nat)
      (data : Manifest) (l : list FileInfo) :
  path_exists env (Py.path_join directory "file_status.json") = true ->
  load_json env (Py.path_join directory "file_status.json") = Some data ->
  m_files data = Some (FilesList l) ->
  nr_files (RacParser.node_record idx (RacNodeInfo.init env directory))
  = RacParser.merge_list directory l ∅.
Proof.
  intros He Hl Hf. cbn [RacParser.node_record nr_files].
  unfold RacParser.node_files.
  rewrite DocumentFacts.init_file_status_data, He, Hl.
  rewrite ClusterFacts.init_directory.
  assert (manifest_truthy data = true) as ->.
  { unfold manifest_truthy. rewrite Hf. cbn. now rewrite !orb_true_r. }
  now rewrite Hf.
Qed.

(** The files of the record the single-instance path makes of the same
    manifest. *)
Lemma parse_file_status_files (env : Env) (self : DatabaseMetaParser.t)
      (directory : string) (n : option nat) (data : Manifest)
      (l : list FileInfo) (item : NodeRecord) :
  load_json env (Py.path_join directory "file_status.json") = Some data ->
  m_files data = Some (FilesList l) ->
  DatabaseMetaParser.parse_file_status env self directory n = Some item ->
  nr_files item = DatabaseMetaParser.files_of_list directory l ∅.
Proof.
  intros Hl Hf. unfold DatabaseMetaParser.parse_file_status.
  destruct (negb (path_exists env _)); [discriminate |].
  unfold Config.FILE_STATUS_JSON. rewrite Hl, Hf.
  destruct (m_hostname data); [|discriminate].
  destruct (negb (is_some (m_sid data)) && _); [discriminate |].
  destruct (negb (is_some (m_collect_date data)) && _); [discriminate |].
  destruct (DatabaseMetaParser._extract_identifier_from_dir env directory)
    as [[[hostname sid] dbname] collect_date].
  now intros [= <-].
Qed.

End FileFacts.

(* ================================================================== *)
(** * Validation and the write *)
(* ================================================================== *)

Module ValidationFacts.
Import Spec.

(** The MySQL parser writes whatever validation says. *)
Lemma mysql_writes_through (env : Env) (self self' : MySQLMetaParser.t)
      (o : outcome) :
  MySQLMetaParser.generate_body env self = Ok (self', o) ->
  writable env (mysql_output_file self') = true ->
  ret o = true
  /\ written o = Some (mysql_output_file self', MySQLMetaParser.meta_data self')
  /\ log o = validation_log (MySQLMetaParser.meta_data self')
             ++ [LogWritten (mysql_output_file self')
                            (List.length (doc_metainfo (MySQLMetaParser.meta_data self')))].
Proof.
  unfold MySQLMetaParser.generate_body.
  destruct (negb (mkdir_ok env _)); [discriminate |].
  destruct (Py.truthy (MySQLMetaParser.identifier self)).
  - cbn [bind]. fold (mysql_output_file self).
    fold (validation_log (MySQLMetaParser.meta_data self)).
    destruct (writable env (mysql_output_file self)) eqn:Hw.
    + intros [= <- <-] _. repeat split.
    + intros [= <- <-] Hw'. congruence.
  - destruct (MySQLMetaParser._generate_identifier env self) as [i|];
      [|discriminate].
    cbn [bind].
    set (s := MySQLMetaParser.mk _ _ _ _ _ _).
    fold (mysql_output_file s). fold (validation_log (MySQLMetaParser.meta_data s)).
    destruct (writable env (mysql_output_file s)) eqn:Hw.
    + intros [= <- <-] _. repeat split.
    + intros [= <- <-] Hw'. congruence.
Qed.

End ValidationFacts.

(** C1, as the code has it.  The generic parser ([DatabaseMetaParser])
    stops at a failed validation: it logs the error, writes nothing and
    returns [False].  The MySQL parser ([MySQLMetaParser]) logs the error
    and writes the document all the same: what it returns and writes does
    not depend on the result of validation, only its log does. *)
Theorem validation_blocks_generic_not_mysql (env : Env)
        (g g' : DatabaseMetaParser.t) (og : outcome)
        (m m' : MySQLMetaParser.t) (om : outcome)
        (e : JsonSchemaValidator.error) :
  (DatabaseMetaParser.generate_meta_json env g = Ok (g', og) ->
   JsonSchemaValidator.validate_json (DatabaseMetaParser.meta_data g') = Some e ->
   ret og = false /\ written og = None /\ log og = [LogValidationFailed e])
  /\ (MySQLMetaParser.generate_body env m = Ok (m', om) ->
      writable env (Spec.mysql_output_file m') = true ->
      JsonSchemaValidator.validate_json (MySQLMetaParser.meta_data m') = Some e ->
      MySQLMetaParser.generate_meta_json env m = (m', om)
      /\ ret om = true
      /\ written om = Some (Spec.mysql_output_file m', MySQLMetaParser.meta_data m')
      /\ log om = [LogValidationFailed e;
                   LogWritten (Spec.mysql_output_file m')
                              (List.length (doc_metainfo (MySQLMetaParser.meta_data m')))]).
Proof.
  split.
  - apply RunFacts.generate_meta_json_rejected.
  - intros Hb Hw Hv.
    destruct (ValidationFacts.mysql_writes_through _ _ _ _ Hb Hw) as (Hr & Hwr & Hl).
    split; [unfold MySQLMetaParser.generate_meta_json; now rewrite Hb |].
    split; [exact Hr |]. split; [exact Hwr |].
    rewrite Hl. unfold Spec.validation_log. now rewrite Hv.
Qed.

(** C1 as stated fails: a manifest whose date is written with dashes goes
    through the generic parser; validation rejects the document, nothing
    is written and the run fails, although every write would succeed. *)
Lemma generic_run_rejected_not_written :
  let o := parse_metadata Examples.env_dashed_date "oracle" "one"
             [Examples.dir1] "/out" None in
  log o = [LogValidationFailed (JsonSchemaValidator.BadCollectDate 0)]
  /\ written o = None /\ ret o = false.
Proof. repeat split; vm_compute; reflexivity. Qed.

(** The two parsers on the document with the dashed date, through the
    theorem. *)
Lemma validation_blocks_generic_not_mysql_witness :
  match DatabaseMetaParser.generate_meta_json Examples.env_dashed_date
          Examples.generic_parser with
  | Ok (_, og) => written og = None
  | Raise _ => False
  end
  /\ match MySQLMetaParser.generate_body Examples.env_dashed_date
             Examples.mysql_parser with
     | Ok (m', om) =>
         written om = Some (Spec.mysql_output_file m', MySQLMetaParser.meta_data m')
     | Raise _ => False
     end.
Proof.
  destruct (DatabaseMetaParser.generate_meta_json _ _) as [[g' og]|] eqn:Hg;
    [|vm_compute in Hg; discriminate Hg].
  destruct (MySQLMetaParser.generate_body _ _) as [[m' om]|] eqn:Hm;
    [|vm_compute in Hm; discriminate Hm].
  assert (JsonSchemaValidator.validate_json (DatabaseMetaParser.meta_data g')
          = Some (JsonSchemaValidator.BadCollectDate 0)) as Hvg.
  { pose proof Hg as Hg'. vm_compute in Hg'. injection Hg' as <- _.
    vm_compute. reflexivity. }
  assert (JsonSchemaValidator.validate_json (MySQLMetaParser.meta_data m')
          = Some (JsonSchemaValidator.BadCollectDate 0)) as Hvm.
  { pose proof Hm as Hm'. vm_compute in Hm'. injection Hm' as <- _.
    vm_compute. reflexivity. }
  destruct (validation_blocks_generic_not_mysql
              Examples.env_dashed_date Examples.generic_parser g' og
              Examples.mysql_parser m' om
              (JsonSchemaValidator.BadCollectDate 0)) as [Hgen Hmy].
  split.
  - exact (proj1 (proj2 (Hgen Hg Hvg))).
  - exact (proj1 (proj2 (proj2 (Hmy Hm eq_refl Hvm)))).
Defined.

(* ================================================================== *)
(** * What the patterns accept *)
(* ================================================================== *)

Module PatternFacts.
Import PyFacts ReFacts Spec Accepts.

Section Inversion.
Context {R : Type}.

(** A match of a greedy star splits the subject into a run of the class
    and a rest the continuation accepts. *)
Lemma star_greedy_inv (p : ascii -> bool) (s : string) (pos : nat)
      (caps : Re.captures) (k : @Re.cont R) (r : R) :
  Re.star_greedy p pos s caps k = Some r ->
  exists x rest, s = (x ++ rest)%string /\ Py.forall_chars p x = true
                 /\ k (pos + String.length x)%nat rest caps = Some r.
Proof.
  revert pos. induction s as [|a s IH]; intros pos; cbn [Re.star_greedy].
  - intros Hk. exists "", "". rewrite Nat.add_0_r. now repeat split.
  - destruct (p a) eqn:Ha.
    + destruct (Re.star_greedy p (S pos) s caps k) as [r'|] eqn:Hs.
      * intros [= <-]. destruct (IH _ Hs) as (x & rest & -> & Hx & Hk).
        exists (String a x), rest. cbn. rewrite Ha, Hx.
        repeat split. now replace (pos + S (String.length x))%nat
          with (S pos + String.length x)%nat by lia.
      * intros Hk. exists "", (String a s). rewrite Nat.add_0_r. now repeat split.
    + intros Hk. exists "", (String a s). rewrite Nat.add_0_r. now repeat split.
Qed.

Lemma run_plus_inv (p : ascii -> bool) (s : string) (pos : nat)
      (caps : Re.captures) (k : @Re.cont R) (r : R) :
  Re.run (Re.Plus p) pos s caps k = Some r ->
  exists x rest, s = (x ++ rest)%string /\ nonempty_all p x = true
                 /\ k (pos + String.length x)%nat rest caps = Some r.
Proof.
  cbn [Re.run]. destruct s as [|a s]; [discriminate |].
  destruct (p a) eqn:Ha; [|discriminate].
  intros Hs. apply star_greedy_inv in Hs as (x & rest & -> & Hx & Hk).
  exists (String a x), rest. unfold nonempty_all. cbn. rewrite Ha, Hx.
  repeat split. now replace (pos + S (String.length x))%nat
    with (S pos + String.length x)%nat by lia.
Qed.

Lemma run_group_plus_inv (i : nat) (p : ascii -> bool) (s : string) (pos : nat)
      (caps : Re.captures) (k : @Re.cont R) (r : R) :
  Re.run (Re.Grp i (Re.Plus p)) pos s caps k = Some r ->
  exists x rest, s = (x ++ rest)%string /\ nonempty_all p x = true
                 /\ k (pos + String.length x)%nat rest ((i, x) :: caps) = Some r.
Proof.
  cbn [Re.run]. fold (@Re.run R (Re.Plus p)).
  intros Hs. apply run_plus_inv in Hs as (x & rest & -> & Hx & Hk).
  exists x, rest. repeat split; [exact Hx |].
  replace (pos + String.length x - pos)%nat with (String.length x) in Hk by lia.
  now rewrite take_append in Hk.
Qed.

Lemma repeat_n_inv (n : nat) (p : ascii -> bool) (s : string) (pos : nat)
      (caps : Re.captures) (k : @Re.cont R) (r : R) :
  Re.repeat_n n p pos s caps k = Some r ->
  exists x rest, s = (x ++ rest)%string /\ String.length x = n
                 /\ Py.forall_chars p x = true
                 /\ k (pos + n)%nat rest caps = Some r.
Proof.
  revert pos s. induction n as [|n IH]; intros pos s; cbn [Re.repeat_n].
  - intros Hk. exists "", s. rewrite Nat.add_0_r. now repeat split.
  - destruct s as [|a s]; [discriminate |].
    destruct (p a) eqn:Ha; [|discriminate].
    intros Hs. apply IH in Hs as (x & rest & -> & Hl & Hx & Hk).
    exists (String a x), rest. cbn. rewrite Ha, Hx, Hl.
    repeat split. now replace (pos + S n)%nat with (S pos + n)%nat by lia.
Qed.

Lemma repeat_n_span (p : ascii -> bool) (x rest : string) (pos : nat)
      (caps : Re.captures) (k : @Re.cont R) :
  Py.forall_chars p x = true ->
  Re.repeat_n (String.length x) p pos (x ++ rest) caps k
  = k (pos + String.length x)%nat rest caps.
Proof.
  revert pos. induction x as [|a x IH]; intros pos Hx.
  - cbn. now rewrite Nat.add_0_r.
  - cbn in Hx. apply andb_true_iff in Hx as [Ha Hx].
    cbn [String.length Re.repeat_n String.append]. rewrite Ha, (IH _ Hx).
    f_equal. lia.
Qed.

Lemma run_chr_inv (c : ascii) (s : string) (pos : nat)
      (caps : Re.captures) (k : @Re.cont R) (r : R) :
  Re.run (Re.Chr c) pos s caps k = Some r ->
  exists s', s = String c s' /\ k (S pos) s' caps = Some r.
Proof.
  cbn [Re.run]. destruct s as [|a s]; [discriminate |].
  destruct (Ascii.eqb_spec a c) as [-> | Hne]; [|discriminate].
  intros Hk. now exists s.
Qed.

Lemma run_eol_inv (s : string) (pos : nat)
      (caps : Re.captures) (k : @Re.cont R) (r : R) :
  Re.run Re.Eol pos s caps k = Some r ->
  (s = "" \/ s = String Py.LF "") /\ k pos s caps = Some r.
Proof.
  cbn [Re.run]. destruct (Re.at_eol s) eqn:He; [|discriminate].
  intros Hk. split; [|exact Hk].
  destruct s as [|a [|b s]]; cbn in He; try discriminate; [now left |].
  apply Ascii.eqb_eq in He. subst a. now right.
Qed.
End Inversion.

Lemma LF_not_ident : Py.is_ident Py.LF = false.
Proof. reflexivity. Qed.

(** [re.match(r'^[a-zA-Z0-9_-]+$', s)] accepts exactly the valid
    identifiers and the valid identifiers followed by one line feed. *)
Lemma re_match_ident_iff (s : string) :
  is_some (Re.re_match Re.ident s) = true <-> Accepts.identifier s.
Proof.
  unfold Accepts.identifier, up_to_LF. split.
  - destruct (Re.re_match Re.ident s) as [caps|] eqn:Hm; [intros _ | discriminate].
    unfold Re.re_match, Re.ident in Hm.
    rewrite run_seq, run_bol, run_seq in Hm.
    apply run_plus_inv in Hm as (x & rest & -> & Hx & Hk).
    apply run_eol_inv in Hk as [[-> | ->] _]; exists x; split; try exact Hx.
    + left. apply append_nil_r.
    + now right.
  - intros (x & Hx & [-> | ->]).
    + now rewrite re_match_ident_valid.
    + unfold Re.re_match, Re.ident. rewrite run_seq, run_bol, run_seq.
      erewrite run_plus; [reflexivity | exact Hx | exact LF_not_ident | reflexivity].
Qed.

(** [re.match(r'^\d{8}$', s)] accepts exactly eight digits and eight digits
    followed by one line feed. *)
Lemma re_match_date8_iff (s : string) :
  is_some (Re.re_match Re.date8 s) = true <-> Accepts.date s.
Proof.
  unfold Accepts.date, up_to_LF. split.
  - destruct (Re.re_match Re.date8 s) as [caps|] eqn:Hm; [intros _ | discriminate].
    unfold Re.re_match, Re.date8 in Hm.
    rewrite run_seq, run_bol, run_seq in Hm. cbn [Re.run] in Hm.
    apply repeat_n_inv in Hm as (x & rest & -> & Hl & Hx & Hk).
    destruct (Re.at_eol rest) eqn:He; [|discriminate].
    exists x. split; [exact Hl |]. split; [exact Hx |].
    destruct rest as [|a [|b rest]]; cbn in He; try discriminate.
    + left. apply append_nil_r.
    + apply Ascii.eqb_eq in He. subst a. now right.
  - intros (x & Hl & Hx & Hs).
    unfold Re.re_match, Re.date8. rewrite run_seq, run_bol, run_seq.
    cbn [Re.run]. rewrite <- Hl.
    destruct Hs as [-> | ->].
    + rewrite <- (append_nil_r x) at 2. now rewrite repeat_n_span.
    + now rewrite repeat_n_span.
Qed.

End PatternFacts.

(* ================================================================== *)
(** * The schema module: file names and validation *)
(* ================================================================== *)

Module SchemaFacts.
Import PyFacts ReFacts Spec Accepts PatternFacts.

Lemma mem_str_iff (x : string) (l : list string) :
  mem_str x l = true <-> In x l.
Proof. apply DiscoveryFacts.mem_str_In. Qed.

(** The loop over the records accepts exactly the lists of acceptable
    records. *)
Lemma validate_metainfo_iff (dbmodel : string) (idx : nat) (l : list NodeRecord) :
  JsonSchemaValidator.validate_metainfo dbmodel idx l = None
  <-> Forall (Accepts.record dbmodel) l.
Proof.
  revert idx. induction l as [|r l IH]; intros idx.
  - split; [constructor | reflexivity].
  - cbn [JsonSchemaValidator.validate_metainfo]. unfold Accepts.record at 1.
    rewrite Forall_cons.
    destruct (nr_collect_date r) as [d|].
    2:{ split; [discriminate | intros [[(d & [=] & _) _] _]]. }
    destruct (is_some (Re.re_match Re.date8 d)) eqn:Hd; cbn [negb].
    2:{ split; [discriminate | intros [[(d' & [= <-] & Hd') _] _]].
        apply re_match_date8_iff in Hd'. congruence. }
    apply re_match_date8_iff in Hd.
    destruct (String.eqb_spec dbmodel "rac") as [-> | Hne].
    + destruct (nr_node_info r) as [[n name]|].
      2:{ split; [discriminate | intros [[_ Hn] _]].
          destruct (Hn eq_refl) as (n & name & [=] & _). }
      destruct ((1 <=? n)%nat && (n <=? 4)%nat) eqn:Hr; cbn [negb].
      * rewrite IH. apply andb_true_iff in Hr as [H1 H4].
        apply Nat.leb_le in H1, H4.
        split; [intros Hl | now intros [_ Hl]].
        split; [|exact Hl]. split; [eauto |]. intros _. exists n, name. auto.
      * split; [discriminate | intros [[_ Hn] _]].
        destruct (Hn eq_refl) as (n' & name' & [= <- <-] & H1 & H4).
        apply Nat.leb_le in H1, H4. rewrite H1, H4 in Hr. discriminate.
    + rewrite IH. split; [intros Hl | now intros [_ Hl]].
      split; [|exact Hl]. split; [eauto | intros; contradiction].
Qed.

(** [validate_json] accepts exactly the acceptable documents. *)
Lemma validate_json_iff (d : Document) :
  JsonSchemaValidator.validate_json d = None <-> Accepts.document d.
Proof.
  unfold JsonSchemaValidator.validate_json, Accepts.document.
  destruct (Py.nonempty (doc_version d)); cbn [negb];
    [|split; [discriminate | intros [[=] _]]].
  destruct (mem_str (doc_dbtype d) JsonSchemaValidator.valid_dbtypes) eqn:Ht;
    cbn [negb].
  2:{ split; [discriminate | intros (_ & Hin & _)].
      apply mem_str_iff in Hin. congruence. }
  apply mem_str_iff in Ht.
  destruct (mem_str (doc_dbmodel d) JsonSchemaValidator.valid_dbmodels) eqn:Hm;
    cbn [negb].
  2:{ split; [discriminate | intros (_ & _ & _ & Hc & _)].
      assert (In (doc_dbmodel d) JsonSchemaValidator.valid_dbmodels) as Hin.
      { destruct Hc as [[-> _] | [-> _]]; cbn; auto. }
      apply mem_str_iff in Hin. congruence. }
  apply mem_str_iff in Hm.
  destruct (is_some (Re.re_match Re.ident (doc_identifier d))) eqn:Hi;
    cbn [negb].
  2:{ split; [discriminate | intros (_ & _ & Hid & _)].
      apply re_match_ident_iff in Hid. congruence. }
  apply re_match_ident_iff in Hi.
  destruct (Nat.eqb_spec (List.length (doc_metainfo d)) 0) as [H0 | H0].
  { split; [discriminate | intros (_ & _ & _ & Hc & _)].
    destruct Hc as [[_ Hc] | [_ Hc]]; lia. }
  destruct Hm as [Hone | [Hrac | []]].
  - rewrite <- Hone. cbn [String.eqb Ascii.eqb Bool.eqb andb].
    destruct (Nat.eqb_spec (List.length (doc_metainfo d)) 1) as [H1 | H1];
      cbn [negb].
    + rewrite validate_metainfo_iff.
      split; [intros Hf | now intros (_ & _ & _ & _ & Hf)].
      repeat split; auto.
    + split; [discriminate | intros (_ & _ & _ & Hc & _)].
      destruct Hc as [[_ Hc] | [[=] _]]. contradiction.
  - rewrite <- Hrac. cbn [String.eqb Ascii.eqb Bool.eqb andb].
    destruct (Nat.ltb_spec (List.length (doc_metainfo d)) 2) as [H2 | H2].
    + split; [discriminate | intros (_ & _ & _ & Hc & _)].
      destruct Hc as [[[=] _] | [_ Hc]]. lia.
    + rewrite validate_metainfo_iff.
      split; [intros Hf | now intros (_ & _ & _ & _ & Hf)].
      repeat split; auto.
Qed.

End SchemaFacts.

(** X1.  A file name generated from a lower-case type, a lower-case model
    and a valid identifier is read back as that triple. *)
Theorem filename_encode_decode (t m i : string) :
  Spec.nonempty_all Py.is_lower t = true ->
  Spec.nonempty_all Py.is_lower m = true ->
  Spec.valid_identifier i = true ->
  JsonSchemaValidator.parse_filename
    (JsonSchemaValidator.generate_filename t m i) = Some (t, m, i).
Proof. apply ReFacts.parse_generate_lowercase. Qed.

(** The name of a PostgreSQL cluster document, through the theorem. *)
Lemma filename_encode_decode_witness :
  JsonSchemaValidator.parse_filename
    (JsonSchemaValidator.generate_filename "postgresql" "rac" "pg-a_main_20250826")
  = Some ("postgresql", "rac", "pg-a_main_20250826").
Proof. apply filename_encode_decode; reflexivity. Defined.

(** X2.  What [parse_filename] reads is a name [generate_filename]
    writes: the name is the generated name of the triple it returns, or
    that name followed by one line feed; type and model are lower-case
    words and the identifier is valid. *)
Theorem filename_decode_encode (filename t m i : string) :
  JsonSchemaValidator.parse_filename filename = Some (t, m, i) ->
  Accepts.up_to_LF (JsonSchemaValidator.generate_filename t m i) filename
  /\ Spec.nonempty_all Py.is_lower t = true
  /\ Spec.nonempty_all Py.is_lower m = true
  /\ Spec.valid_identifier i = true.
Proof.
  unfold JsonSchemaValidator.parse_filename.
  destruct (Re.re_match Re.filename_pattern filename) as [caps|] eqn:Hm;
    [|discriminate].
  unfold Re.re_match, Re.filename_pattern in Hm.
  rewrite ReFacts.run_seq, ReFacts.run_bol, ReFacts.run_seq in Hm.
  apply PatternFacts.run_chr_inv in Hm as (s1 & -> & Hm).
  rewrite ReFacts.run_seq in Hm.
  apply PatternFacts.run_group_plus_inv in Hm as (x1 & r1 & -> & H1 & Hm).
  rewrite ReFacts.run_seq in Hm.
  apply PatternFacts.run_chr_inv in Hm as (s2 & -> & Hm).
  rewrite ReFacts.run_seq in Hm.
  apply PatternFacts.run_group_plus_inv in Hm as (x2 & r2 & -> & H2 & Hm).
  rewrite ReFacts.run_seq in Hm.
  apply PatternFacts.run_chr_inv in Hm as (s3 & -> & Hm).
  rewrite ReFacts.run_seq in Hm.
  apply PatternFacts.run_chr_inv in Hm as (s4 & -> & Hm).
  rewrite ReFacts.run_seq in Hm.
  apply PatternFacts.run_group_plus_inv in Hm as (x3 & r3 & -> & H3 & Hm).
  rewrite ReFacts.run_seq in Hm.
  apply PatternFacts.run_chr_inv in Hm as (s5 & -> & Hm).
  rewrite ReFacts.run_seq in Hm.
  apply PatternFacts.run_chr_inv in Hm as (s6 & -> & Hm).
  rewrite ReFacts.run_seq in Hm.
  apply PatternFacts.run_chr_inv in Hm as (s7 & -> & Hm).
  rewrite ReFacts.run_seq in Hm.
  apply PatternFacts.run_chr_inv in Hm as (s8 & -> & Hm).
  rewrite ReFacts.run_seq in Hm.
  apply PatternFacts.run_chr_inv in Hm as (s9 & -> & Hm).
  apply PatternFacts.run_eol_inv in Hm as [Hend [= <-]].
  cbn [Re.group Nat.eqb]. intros [= <- <- <-].
  split; [|now repeat split].
  unfold Accepts.up_to_LF, JsonSchemaValidator.generate_filename.
  destruct Hend as [-> | ->]; [left | right];
    repeat (first [rewrite PyFacts.append_assoc | progress cbn [String.append]]);
    reflexivity.
Qed.

(** A name with a line feed after [.json], through the theorem. *)
Lemma filename_decode_encode_witness :
  Accepts.up_to_LF
    (JsonSchemaValidator.generate_filename "oracle" "rac" "oms-db_hnoms_20250826")
    ("(oracle-rac)-oms-db_hnoms_20250826.json" ++ Examples.lf)
  /\ Spec.nonempty_all Py.is_lower "oracle" = true
  /\ Spec.nonempty_all Py.is_lower "rac" = true
  /\ Spec.valid_identifier "oms-db_hnoms_20250826" = true.
Proof. apply filename_decode_encode. vm_compute. reflexivity. Defined.

(** X3.  [validate_json] accepts a document exactly when: the version is
    not empty; the type is one of the five; the identifier is a valid
    identifier, possibly followed by one line feed; the model is ['one']
    with one record or ['rac'] with at least two; every record has a date of
    eight digits, possibly followed by one line feed; and in ['rac'] mode
    every record has a node number from 1 to 4. *)
Theorem validate_json_accepts (d : Document) :
  JsonSchemaValidator.validate_json d = None <-> Accepts.document d.
Proof. apply SchemaFacts.validate_json_iff. Qed.

(** The cluster document of the examples, through the theorem. *)
Lemma validate_json_accepts_witness :
  Accepts.document Examples.cluster_document.
Proof. apply validate_json_accepts. vm_compute. reflexivity. Defined.

(** X4.  [validate_json] has no upper bound on the records of a ['rac']
    document and does not ask the node numbers to differ: an accepted
    ['rac'] document is still accepted after any of its records are added
    to it again. *)
Theorem validate_json_repeated_records (d : Document) (extra : list NodeRecord) :
  JsonSchemaValidator.validate_json d = None ->
  doc_dbmodel d = "rac" ->
  Forall (fun r => In r (doc_metainfo d)) extra ->
  JsonSchemaValidator.validate_json
    (set_metainfo d (doc_metainfo d ++ extra)) = None.
Proof.
  intros Hv Hm Hex. apply SchemaFacts.validate_json_iff.
  apply SchemaFacts.validate_json_iff in Hv as (Hver & Ht & Hi & Hc & Hf).
  unfold Accepts.document. cbn [set_metainfo doc_version doc_dbtype
    doc_identifier doc_dbmodel doc_metainfo].
  split; [exact Hver |]. split; [exact Ht |]. split; [exact Hi |]. split.
  - right. split; [exact Hm |]. rewrite List.length_app.
    destruct Hc as [[Hone _] | [_ Hc]]; [congruence | lia].
  - apply Forall_app. split; [exact Hf |].
    rewrite List.Forall_forall in Hf, Hex |- *. intros r Hr. apply Hf, Hex, Hr.
Qed.

(** The cluster document with its two records three times: six records,
    node numbers 1 and 2 only. *)
Lemma validate_json_repeated_records_witness :
  JsonSchemaValidator.validate_json
    (set_metainfo Examples.cluster_document
       (doc_metainfo Examples.cluster_document
        ++ doc_metainfo Examples.cluster_document
        ++ doc_metainfo Examples.cluster_document)) = None.
Proof.
  apply validate_json_repeated_records; [vm_compute; reflexivity | reflexivity |].
  apply List.Forall_forall. intros r Hr.
  apply List.in_app_or in Hr as [Hr | Hr]; exact Hr.
Defined.

(* ================================================================== *)
(** * The generic parser: runs and records *)
(* ================================================================== *)

Module ParserFacts.
Import PyFacts ReFacts Spec RunFacts.

Lemma lookup_db_supported (t : string) :
  is_some (Config.lookup_db t Config.SUPPORTED_DATABASES) = true
  <-> In t (List.map fst Config.SUPPORTED_DATABASES).
Proof.
  unfold Config.SUPPORTED_DATABASES. cbn [Config.lookup_db List.map fst].
  repeat match goal with
         | |- context [String.eqb ?k t] =>
             destruct (String.eqb_spec k t) as [<- | ?]
         end; cbn [is_some In]; intuition congruence.
Qed.

(** [sep.join(s.split(sep))] is [s]. *)
Lemma split_acc_cons (sep : ascii) (acc s : string) :
  exists x l, Py.split_acc sep acc s = x :: l.
Proof.
  revert acc. induction s as [|a s IH]; intros acc; cbn [Py.split_acc].
  - eauto.
  - destruct (Ascii.eqb a sep); eauto.
Qed.

Lemma join_cons (sep x : string) (l : list string) :
  l <> [] -> Py.join sep (x :: l) = (x ++ sep ++ Py.join sep l)%string.
Proof. destruct l; [contradiction | reflexivity]. Qed.

Lemma join_split_acc (sep : ascii) (acc s : string) :
  Py.join (String sep "") (Py.split_acc sep acc s) = (acc ++ s)%string.
Proof.
  revert acc. induction s as [|a s IH]; intros acc; cbn [Py.split_acc].
  - cbn. now rewrite append_nil_r.
  - destruct (Ascii.eqb_spec a sep) as [-> | Hne].
    + destruct (split_acc_cons sep "" s) as (x & l & Hs).
      rewrite join_cons by (rewrite Hs; discriminate).
      rewrite IH. reflexivity.
    + rewrite IH, append_assoc. reflexivity.
Qed.

Lemma join_split (sep : ascii) (s : string) :
  Py.join (String sep "") (Py.split sep s) = s.
Proof. apply join_split_acc. Qed.

Lemma join_snoc (sep x : string) (l : list string) :
  l <> [] -> Py.join sep (l ++ [x]) = (Py.join sep l ++ sep ++ x)%string.
Proof.
  induction l as [|y l IH]; [contradiction |]. intros _.
  destruct l as [|z l].
  - reflexivity.
  - change ((y :: z :: l) ++ [x]) with (y :: ((z :: l) ++ [x])).
    rewrite (join_cons sep y ((z :: l) ++ [x])) by (cbn; discriminate).
    rewrite IH by discriminate.
    rewrite (join_cons sep y (z :: l)) by discriminate.
    now rewrite !append_assoc.
Qed.

(** A name of three parts or more is its first part, its middle parts and
    its last part, joined again. *)
Lemma parts_rejoined (parts : list string) :
  (3 <= List.length parts)%nat ->
  (List.hd "" parts ++ "_"
   ++ (if (3 <? List.length parts)%nat
       then Py.join "_" (List.removelast (List.tl parts))
       else List.nth 1 parts "")
   ++ "_" ++ List.last parts "")%string
  = Py.join "_" parts.
Proof.
  destruct parts as [|h [|m [|l rest]]]; cbn [List.length]; try lia. intros _.
  assert ((if (3 <? S (S (S (List.length rest))))%nat
           then Py.join "_" (List.removelast (List.tl (h :: m :: l :: rest)))
           else List.nth 1 (h :: m :: l :: rest) "")
          = Py.join "_" (List.removelast (m :: l :: rest))) as ->.
  { destruct rest; reflexivity. }
  change (List.last (h :: m :: l :: rest) "") with (List.last (m :: l :: rest) "").
  cbn [List.hd]. rewrite join_cons by discriminate. f_equal. f_equal.
  rewrite (List.app_removelast_last "" (l := m :: l :: rest)) at 3 by discriminate.
  rewrite join_snoc; [reflexivity |]. destruct rest; discriminate.
Qed.

(** What [_extract_identifier_from_dir] returns, put together again, is
    the name of the directory when that name has three parts and ends with
    a date, and the default otherwise. *)
Lemma extract_identifier_rejoined (env : Env) (dir_path : string) :
  let '(hostname, sid, _, collect_date) :=
    DatabaseMetaParser._extract_identifier_from_dir env dir_path in
  (hostname ++ "_" ++ sid ++ "_" ++ collect_date)%string
  = if (3 <=? List.length (Py.split "_" (Path.name dir_path)))%nat
       && is_some (Re.re_match Re.date8
                     (List.last (Py.split "_" (Path.name dir_path)) ""))
    then Path.name dir_path
    else ("unknown_unknown_" ++ today env)%string.
Proof.
  unfold DatabaseMetaParser._extract_identifier_from_dir.
  destruct (Nat.leb_spec 3 (List.length (Py.split "_" (Path.name dir_path))))
    as [H3 | H3]; cbn [andb]; [|reflexivity].
  destruct (is_some (Re.re_match Re.date8 _)); [|reflexivity].
  rewrite parts_rejoined by exact H3. apply join_split.
Qed.

(** What [generate_meta_json] writes, and where. *)
Lemma generate_meta_json_doc (env : Env) (self self' : DatabaseMetaParser.t)
      (o : outcome) (p : string) (d : Document) :
  DatabaseMetaParser.generate_meta_json env self = Ok (self', o) ->
  written o = Some (p, d) ->
  exists i,
    DatabaseMetaParser._generate_identifier env self = Ok i
    /\ d = set_identifier (DatabaseMetaParser.meta_data self) i
    /\ p = Path.div (DatabaseMetaParser.json_out_dir self)
             (JsonSchemaValidator.generate_filename
                (DatabaseMetaParser.db_type self)
                (DatabaseMetaParser.db_model self) i)
    /\ JsonSchemaValidator.validate_json d = None
    /\ ret o = true.
Proof.
  unfold DatabaseMetaParser.generate_meta_json.
  destruct (mkdir_ok env _); [|discriminate]. cbn [negb].
  destruct (DatabaseMetaParser._generate_identifier env self) as [i|e];
    [|discriminate].
  cbn [bind].
  destruct (JsonSchemaValidator.validate_json _) eqn:Hv.
  - intros [= <- <-]. discriminate.
  - destruct (writable env _); intros [= <- <-]; [|discriminate].
    intros [= <- <-]. exists i. repeat split. exact Hv.
Qed.

(** The records of the single-instance loop: one for each directory, in
    order, none with a node number. *)
Lemma parse_dirs_shape (env : Env) (self : DatabaseMetaParser.t)
      (dirs : list string) (items : list NodeRecord) :
  DatabaseMetaParser.parse_dirs env self dirs = Some items ->
  List.map nr_source_dir items = dirs
  /\ Forall (fun r => nr_node_info r = None /\ is_some (nr_validation_status r) = true)
            items.
Proof.
  revert items. induction dirs as [|dir rest IH]; intros items.
  - intros [= <-]. split; constructor.
  - cbn [DatabaseMetaParser.parse_dirs].
    destruct (DatabaseMetaParser.parse_file_status env self dir None)
      as [item|] eqn:Hp; [|discriminate].
    destruct (DatabaseMetaParser.parse_dirs env self rest) as [items'|];
      [|discriminate].
    destruct (IH items' eq_refl) as [Hd Hn].
    pose proof (parse_file_status_dir _ _ _ _ _ Hp) as Hs.
    assert (nr_node_info item = None) as Hi.
    { revert Hp. unfold DatabaseMetaParser.parse_file_status.
      destruct (negb (path_exists env _)); [discriminate |].
      destruct (load_json env _) as [data|]; [|discriminate].
      destruct (m_hostname data), (m_files data); try discriminate.
      destruct (negb (is_some (m_sid data)) && _); [discriminate |].
      destruct (negb (is_some (m_collect_date data)) && _); [discriminate |].
      destruct (DatabaseMetaParser._extract_identifier_from_dir env dir)
        as [[[hostname sid] dbname] collect_date].
      now intros [= <-]. }
    intros [= <-]. split.
    + cbn [List.map]. rewrite Hd. f_equal.
      destruct (DatabaseMetaParser.validate_directory env self dir item); exact Hs.
    + constructor; [|exact Hn].
      destruct (DatabaseMetaParser.validate_directory env self dir item);
        split; (exact Hi || reflexivity).
Qed.

(** The document of a ['one'] run that writes. *)
Lemma one_run_doc (env : Env) (db_type : string) (dirs : list string)
      (out : string) (ident : option string) (p : string) (d : Document) :
  written (parse_metadata env db_type "one" dirs out ident) = Some (p, d) ->
  exists required dir item i,
    Config.lookup_db db_type Config.SUPPORTED_DATABASES = Some required
    /\ dirs = [dir]
    /\ (path_exists env (Path.normal dir) && path_is_dir env (Path.normal dir))
       = true
    /\ nr_source_dir item = Path.normal dir
    /\ nr_node_info item = None
    /\ DatabaseMetaParser._generate_identifier env
         (DatabaseMetaParser.mk db_type "one" required [Path.normal dir]
            (output_dir env out) ident
            (JsonSchemaValidator.create_empty_json env db_type "one" "")) = Ok i
    /\ d = mkDocument JsonSchemaValidator.CURRENT_VERSION db_type "one" i
                      (now_iso env) [item] None
    /\ p = Path.div (output_dir env out)
             (JsonSchemaValidator.generate_filename db_type "one" i)
    /\ JsonSchemaValidator.validate_json d = None.
Proof.
  unfold parse_metadata.
  destruct (DatabaseMetaParser.init _ _ _ _ _ _) as [parser|] eqn:Hi;
    [|discriminate].
  apply init_ok in Hi as (required & Hl & -> & _ & H1). specialize (H1 eq_refl).
  destruct dirs as [|dir [|]]; try discriminate H1.
  unfold DatabaseMetaParser.parse. cbn [DatabaseMetaParser.import_dirs
    DatabaseMetaParser.db_model String.eqb Ascii.eqb Bool.eqb List.map].
  destruct (forallb _ [Path.normal dir]) eqn:Hf; [|discriminate]. cbn [negb].
  cbn [forallb] in Hf. rewrite andb_true_r in Hf.
  match goal with
  | |- context [DatabaseMetaParser.parse_dirs env ?s [Path.normal dir]] =>
      destruct (DatabaseMetaParser.parse_dirs env s [Path.normal dir])
        as [items|] eqn:Hd; [|discriminate]
  end.
  destruct (_ =? 0)%nat; [discriminate |].
  match goal with
  | |- context [DatabaseMetaParser.generate_meta_json env ?s] =>
      destruct (DatabaseMetaParser.generate_meta_json env s) as [[self' o]|] eqn:Hg;
      [|discriminate]
  end.
  intros Hw. apply (generate_meta_json_doc _ _ _ _ _ _ Hg) in Hw
    as (i & Hgi & -> & -> & Hv & _).
  apply parse_dirs_shape in Hd as [Hs Hn].
  destruct items as [|item [|]]; try discriminate Hs.
  injection Hs as Hs. apply Forall_inv in Hn as [Hn _].
  exists required, dir, item, i.
  split; [exact Hl |]. split; [reflexivity |]. split; [exact Hf |].
  split; [exact Hs |]. split; [exact Hn |]. split; [exact Hgi |].
  split; [reflexivity |]. split; [reflexivity |]. exact Hv.
Qed.

(** The document of a ['rac'] run that writes. *)
Lemma rac_run_doc (env : Env) (db_type : string) (dirs : list string)
      (out : string) (ident : option string) (p : string) (d : Document) :
  written (parse_metadata env db_type "rac" dirs out ident) = Some (p, d) ->
  exists cluster i,
    RacParser.parse_rac_directories env (List.map Path.normal dirs) = Ok cluster
    /\ (Py.truthy ident = true -> ident = Some i)
    /\ (Py.truthy ident = false ->
        Py.nonempty (RacClusterInfo.generate_identifier cluster) = true ->
        i = RacClusterInfo.generate_identifier cluster)
    /\ d = mkDocument JsonSchemaValidator.CURRENT_VERSION db_type "rac" i
             (now_iso env) (RacParser.merge_node_files cluster)
             (if Py.truthy (RacClusterInfo.dbname cluster)
              then Some (mkClusterInfoField
                           (RacClusterInfo.cluster_name cluster)
                           (RacClusterInfo.dbname cluster)
                           (RacClusterInfo.node_count cluster)
                           (fst (RacClusterInfo.validate_consistency cluster)))
              else None)
    /\ p = Path.div (output_dir env out)
             (JsonSchemaValidator.generate_filename db_type "rac" (doc_identifier d))
    /\ JsonSchemaValidator.validate_json d = None.
Proof.
  unfold parse_metadata.
  destruct (DatabaseMetaParser.init _ _ _ _ _ _) as [parser|] eqn:Hi;
    [|discriminate].
  apply init_ok in Hi as (required & _ & -> & _ & _).
  unfold DatabaseMetaParser.parse. cbn [DatabaseMetaParser.import_dirs
    DatabaseMetaParser.db_model String.eqb Ascii.eqb Bool.eqb].
  destruct (negb (forallb _ _)); [discriminate |].
  unfold DatabaseMetaParser._parse_rac_mode, DatabaseMetaParser.rac_mode_body.
  cbn [DatabaseMetaParser.import_dirs].
  destruct (RacParser.parse_rac_directories env _) as [cluster|];
    [|discriminate].
  cbn [bind].
  destruct (RacClusterInfo.validate_consistency cluster) as [is_consistent issues]
    eqn:Hc.
  cbn [DatabaseMetaParser.set_meta_data DatabaseMetaParser.set_self_identifier
       DatabaseMetaParser.identifier DatabaseMetaParser.meta_data
       DatabaseMetaParser.db_type DatabaseMetaParser.db_model
       DatabaseMetaParser.required_files DatabaseMetaParser.import_dirs
       DatabaseMetaParser.json_out_dir].
  destruct (Py.truthy ident) eqn:Ht;
    destruct (Py.truthy (RacClusterInfo.dbname cluster)) eqn:Hdb;
    cbn [DatabaseMetaParser.set_meta_data DatabaseMetaParser.set_self_identifier
         DatabaseMetaParser.identifier DatabaseMetaParser.meta_data
         DatabaseMetaParser.db_type DatabaseMetaParser.db_model
         DatabaseMetaParser.required_files DatabaseMetaParser.import_dirs
         DatabaseMetaParser.json_out_dir];
    (match goal with
     | |- context [DatabaseMetaParser.generate_meta_json env ?s] =>
         destruct (DatabaseMetaParser.generate_meta_json env s)
           as [[self' o]|] eqn:Hg; [|discriminate]
     end);
    intros Hw; apply (generate_meta_json_doc _ _ _ _ _ _ Hg) in Hw
      as (i & Hgi & -> & -> & Hv & _);
    unfold DatabaseMetaParser._generate_identifier in Hgi;
    cbn [DatabaseMetaParser.identifier DatabaseMetaParser.set_meta_data
         DatabaseMetaParser.set_self_identifier] in Hgi;
    exists cluster, i; rewrite Hdb, ?Hc; (split; [reflexivity |]).
  1,2: destruct ident as [s|]; [|discriminate Ht]; cbn [Py.truthy] in Ht;
       cbv beta iota in Hgi; rewrite Ht in Hgi; injection Hgi as <-;
       (split; [reflexivity |]); (split; [discriminate |]);
       (split; [reflexivity |]); (split; [reflexivity | exact Hv]).
  all: (split; [discriminate |]); split;
       [ intros _ Hn; cbv beta iota in Hgi; rewrite Hn in Hgi; congruence
       | (split; [reflexivity |]); (split; [reflexivity | exact Hv]) ].
Qed.

(** A run that writes was asked for one of the two models. *)
Lemma written_model (env : Env) (db_type db_model : string)
      (dirs : list string) (out : string) (ident : option string)
      (p : string) (d : Document) :
  written (parse_metadata env db_type db_model dirs out ident) = Some (p, d) ->
  db_model = "one" \/ db_model = "rac".
Proof.
  unfold parse_metadata.
  destruct (DatabaseMetaParser.init _ _ _ _ _ _) as [parser|] eqn:Hi;
    [|discriminate].
  intros _. revert Hi. unfold DatabaseMetaParser.init.
  destruct (Config.lookup_db _ _); [|discriminate].
  cbn [mem_str existsb].
  destruct (String.eqb_spec db_model "one"); [now left |].
  destruct (String.eqb_spec db_model "rac"); [now right |].
  discriminate.
Qed.

End ParserFacts.

Module RecordFacts.
Import PyFacts ReFacts Spec.

(** The record [parse_file_status] returns, field by field. *)
Lemma parse_file_status_inv (env : Env) (self : DatabaseMetaParser.t)
      (directory : string) (n : option nat) (item : NodeRecord) :
  DatabaseMetaParser.parse_file_status env self directory n = Some item ->
  exists data,
    path_exists env (Py.path_join directory "file_status.json") = true
    /\ load_json env (Py.path_join directory "file_status.json") = Some data
    /\ nr_hostname item = m_hostname data
    /\ is_some (m_hostname data) = true
    /\ (let e := DatabaseMetaParser._extract_identifier_from_dir env directory in
        nr_sid item
        = Some (default (snd (fst (fst e)))
                        (Py.or_else (m_sid data)
                                    (Py.or_else (m_oracle_sid data) None)))
        /\ nr_dbname item = Some (default (snd (fst e)) (m_dbname data))
        /\ nr_collect_date item
           = Some (DatabaseMetaParser.actual_date data (snd e)))
    /\ match m_files data with
       | Some (FilesList l) =>
           nr_files item = DatabaseMetaParser.files_of_list directory l ∅
       | Some (FilesDict d) =>
           nr_files item = DatabaseMetaParser.files_of_dict directory d ∅
       | None => False
       end
    /\ (is_some (m_sid data) || is_some (m_oracle_sid data)) = true
    /\ (is_some (m_collect_date data) || is_some (m_inspection_time data)) = true.
Proof.
  unfold DatabaseMetaParser.parse_file_status, Config.FILE_STATUS_JSON.
  destruct (path_exists env _); [|discriminate]. cbn [negb].
  destruct (load_json env _) as [data|]; [|discriminate].
  destruct (m_hostname data) as [h|] eqn:Hh; [|discriminate].
  destruct (m_files data) as [fd|] eqn:Hf; [|discriminate].
  destruct (negb (is_some (m_sid data)) && _) eqn:Hsid; [discriminate |].
  destruct (negb (is_some (m_collect_date data)) && _) eqn:Hdate; [discriminate |].
  destruct (DatabaseMetaParser._extract_identifier_from_dir env directory)
    as [[[hostname sid] dbname] collect_date].
  intros [= <-]. exists data.
  split; [reflexivity |]. split; [reflexivity |].
  split; [now rewrite Hh |]. split; [now rewrite Hh |].
  split; [cbn; now repeat split |].
  split; [rewrite Hf; destruct fd; reflexivity |].
  split.
  - destruct (is_some (m_sid data)), (is_some (m_oracle_sid data));
      (reflexivity || discriminate Hsid).
  - destruct (is_some (m_collect_date data)), (is_some (m_inspection_time data));
      (reflexivity || discriminate Hdate).
Qed.

(** The directory of a node, and its date: the third part of the name of
    the directory, whatever the manifest says. *)
Lemma parse_dirname_directory (self : RacNodeInfo.t) :
  RacNodeInfo.directory (RacNodeInfo._parse_dirname self)
  = RacNodeInfo.directory self.
Proof.
  unfold RacNodeInfo._parse_dirname.
  destruct (Py.split _ _) as [|p0 [|p1 [|p2 rest]]]; reflexivity.
Qed.

Lemma init_collect_date (env : Env) (directory : string) :
  RacNodeInfo.collect_date (RacNodeInfo.init env directory)
  = List.nth_error (Py.split "_" (Py.basename directory)) 2.
Proof.
  unfold RacNodeInfo.init, RacNodeInfo._load_file_status.
  set (n := RacNodeInfo._parse_dirname _).
  assert (RacNodeInfo.collect_date n
          = List.nth_error (Py.split "_" (Py.basename directory)) 2) as Hn.
  { unfold n, RacNodeInfo._parse_dirname. cbn [RacNodeInfo.dirname].
    destruct (Py.split _ _) as [|p0 [|p1 [|p2 rest]]]; reflexivity. }
  destruct (path_exists env _); [|exact Hn].
  destruct (load_json env _); exact Hn.
Qed.

(** The keys of the object format. *)
Lemma files_of_dict_lookup (directory : string) (d : list (string * FileInfo))
      (files : gmap string FileEntry) (k : string) :
  is_Some (DatabaseMetaParser.files_of_dict directory d files !! k)
  <-> is_Some (files !! k) \/ In k (List.map fst d).
Proof.
  revert files. induction d as [|[key fi] d IH]; intros files.
  - cbn. tauto.
  - cbn [DatabaseMetaParser.files_of_dict List.map fst In]. rewrite IH.
    rewrite lookup_insert_is_Some. destruct (decide (key = k)); tauto.
Qed.

Lemma merge_dict_lookup (directory : string) (d : list (string * FileInfo))
      (files : gmap string FileEntry) (k : string) :
  is_Some (RacParser.merge_dict directory d files !! k)
  <-> is_Some (files !! k) \/ In k (List.map fst d).
Proof.
  revert files. induction d as [|[key fi] d IH]; intros files.
  - cbn. tauto.
  - cbn [RacParser.merge_dict List.map fst In]. rewrite IH.
    rewrite lookup_insert_is_Some. destruct (decide (key = k)); tauto.
Qed.

End RecordFacts.

(* ================================================================== *)
(** * Runs of the generic parser: parameters, documents, identifiers *)
(* ================================================================== *)

(** X5.  The parser is built exactly for a supported database type with
    one directory in ['one'] mode, or with two to four directories in
    ['rac'] mode. *)
Theorem init_accepts (env : Env) (db_type db_model : string)
        (dirs : list string) (out : string) (ident : option string) :
  (exists parser,
      DatabaseMetaParser.init env db_type db_model dirs out ident = Ok parser)
  <-> In db_type (List.map fst Config.SUPPORTED_DATABASES)
      /\ ((db_model = "one" /\ List.length dirs = 1%nat)
          \/ (db_model = "rac" /\ (2 <= List.length dirs <= 4)%nat)).
Proof.
  unfold DatabaseMetaParser.init.
  rewrite <- ParserFacts.lookup_db_supported.
  destruct (Config.lookup_db db_type _) as [required|]; cbn [is_some].
  2:{ split; [intros [? [=]] | intros [[=] _]]. }
  cbn [mem_str existsb].
  destruct (String.eqb_spec db_model "one") as [-> | H1].
  - cbn [orb negb andb String.eqb Ascii.eqb Bool.eqb].
    destruct dirs as [|d [|d' rest]]; cbn [List.length Nat.eqb negb].
    + split; [intros [? [=]] | intros [_ [[_ H] | [H _]]]; discriminate H].
    + split; [intros _; split; [reflexivity | left; split; reflexivity]
             | intros _; eexists; reflexivity].
    + split; [intros [? [=]] | intros [_ [[_ H] | [H _]]]; discriminate H].
  - destruct (String.eqb_spec db_model "rac") as [-> | H2];
      cbn [orb negb andb].
    + destruct (Nat.eqb_spec (List.length dirs) 0) as [H0 | H0].
      { split; [intros [? [=]] | intros [_ [[[=] _] | [_ Hn]]]; lia]. }
      destruct (Nat.leb_spec 2 (List.length dirs)) as [Ha | Ha];
        destruct (Nat.leb_spec (List.length dirs) 4) as [Hb | Hb];
        cbn [andb negb];
        (split; [first [intros _; split; [reflexivity |];
                        right; split; [reflexivity | lia]
                       | intros [? [=]]]
                | first [intros _; eexists; reflexivity
                        | intros [_ [[[=] _] | [_ Hn]]]; lia]]).
    + split; [intros [? [=]] | intros [_ [[? _] | [? _]]]; contradiction].
Qed.

(** A cluster of two directories, through the theorem. *)
Lemma init_accepts_witness :
  exists parser,
    DatabaseMetaParser.init Examples.env_cluster "postgresql" "rac"
      [Examples.dir1; Examples.dir2] "/out" None = Ok parser.
Proof.
  apply init_accepts. split; [cbn; tauto |]. right. split; [reflexivity |].
  cbn. lia.
Defined.

(** X6.  A document written in ['one'] mode has exactly one record: the
    one of the directory given, whose [source_dir] is that directory as
    [str(Path(dir))] gives it, without a node number; it has no
    [cluster_info], and carries the version, the type, the model and the
    time stamp of the run. *)
Theorem one_document_shape (env : Env) (db_type : string) (dirs : list string)
        (out : string) (ident : option string) (p : string) (d : Document) :
  written (parse_metadata env db_type "one" dirs out ident) = Some (p, d) ->
  exists dir item,
    dirs = [dir]
    /\ doc_metainfo d = [item]
    /\ nr_source_dir item = Path.normal dir
    /\ nr_node_info item = None
    /\ doc_cluster_info d = None
    /\ doc_version d = "2.0"
    /\ doc_dbtype d = db_type
    /\ doc_dbmodel d = "one"
    /\ doc_timestamp d = now_iso env.
Proof.
  intros Hw. apply ParserFacts.one_run_doc in Hw
    as (required & dir & item & i & _ & -> & _ & Hs & Hn & _ & -> & _).
  exists dir, item. now repeat split.
Qed.

(** The run on one directory of the examples, written with a slash at
    its end, through the theorem. *)
Lemma one_document_shape_witness :
  match written (parse_metadata Examples.env_cluster "oracle" "one"
                   [(Examples.dir1 ++ "/")%string] "/out" None) with
  | Some (p, d) => exists item, doc_metainfo d = [item]
                                /\ nr_source_dir item = Examples.dir1
  | None => False
  end.
Proof.
  destruct (written _) as [[p d]|] eqn:H.
  - destruct (one_document_shape _ _ _ _ _ _ _ H)
      as (dir & item & Hd & Hm & Hs & _).
    exists item. split; [exact Hm |]. injection Hd as <-. exact Hs.
  - vm_compute in H. discriminate H.
Defined.

(** X7.  When one of the input directories, as [Path(dir)] names it, does
    not exist or is not a directory, both parsers return [False] and write
    nothing, whatever the other arguments are. *)
Theorem missing_directory_fails (env : Env) (db_type db_model : string)
        (dirs : list string) (out : string) (ident : option string)
        (dir : string) :
  In dir dirs ->
  (path_exists env (Path.normal dir) && path_is_dir env (Path.normal dir))
  = false ->
  parse_metadata env db_type db_model dirs out ident = failure
  /\ parse_mysql_metadata env dirs out ident = failure.
Proof.
  intros Hin Hd.
  assert (forallb (fun d => path_exists env d && path_is_dir env d)
                  (List.map Path.normal dirs) = false) as Hf.
  { apply not_true_is_false. intros Hall.
    rewrite List.forallb_forall in Hall.
    specialize (Hall _ (List.in_map Path.normal _ _ Hin)). congruence. }
  split.
  - unfold parse_metadata.
    destruct (DatabaseMetaParser.init _ _ _ _ _ _) as [parser|] eqn:Hi;
      [|reflexivity].
    apply RunFacts.init_ok in Hi as (required & _ & -> & _).
    unfold DatabaseMetaParser.parse. cbn [DatabaseMetaParser.import_dirs].
    now rewrite Hf.
  - unfold parse_mysql_metadata, MySQLMetaParser.parse, MySQLMetaParser.init.
    cbn [MySQLMetaParser.import_dirs]. now rewrite Hf.
Qed.

(** The second directory of a cluster run is missing. *)
Lemma missing_directory_fails_witness :
  parse_metadata Examples.env_cluster "oracle" "rac"
    [Examples.dir1; Examples.dir3] "/out" None = failure
  /\ parse_mysql_metadata Examples.env_cluster
       [Examples.dir1; Examples.dir3] "/out" None = failure.
Proof.
  apply (missing_directory_fails _ _ _ _ _ _ Examples.dir3);
    [right; left; reflexivity | reflexivity].
Defined.

(** X8.  The file a run writes is named after the document: it is
    [(dbtype-dbmodel)-identifier.json] in the output directory
    ([Path(json_out_dir)], or [Config.DEFAULT_JSON_DIR] when [json_out_dir]
    is empty), with the type and the model of the call and the identifier
    of the document, and that identifier is a valid identifier, possibly
    followed by one line feed. *)
Theorem written_file_name (env : Env) (db_type db_model : string)
        (dirs : list string) (out : string) (ident : option string)
        (p : string) (d : Document) :
  written (parse_metadata env db_type db_model dirs out ident) = Some (p, d) ->
  p = Path.div (Spec.output_dir env out)
        (JsonSchemaValidator.generate_filename db_type db_model (doc_identifier d))
  /\ doc_dbtype d = db_type
  /\ doc_dbmodel d = db_model
  /\ Accepts.identifier (doc_identifier d).
Proof.
  intros Hw.
  destruct (ParserFacts.written_model _ _ _ _ _ _ _ _ Hw) as [-> | ->].
  - apply ParserFacts.one_run_doc in Hw
      as (required & dir & item & i & _ & _ & _ & _ & _ & _ & -> & -> & Hv).
    apply SchemaFacts.validate_json_iff in Hv as (_ & _ & Hi & _).
    now repeat split.
  - apply ParserFacts.rac_run_doc in Hw
      as (cluster & i & _ & _ & _ & -> & -> & Hv).
    apply SchemaFacts.validate_json_iff in Hv as (_ & _ & Hi & _).
    now repeat split.
Qed.

(** The cluster run of the examples without an output directory, through
    the theorem: the file is in the default directory. *)
Lemma written_file_name_witness :
  match written (parse_metadata Examples.env_cluster "oracle" "rac"
                   [Examples.dir1; Examples.dir2] "" None) with
  | Some (p, d) =>
      p = Path.div "/opt/fastdbchkrep/data/json"
            (JsonSchemaValidator.generate_filename "oracle" "rac" (doc_identifier d))
  | None => False
  end.
Proof.
  destruct (written _) as [[p d]|] eqn:H.
  - exact (proj1 (written_file_name _ _ _ _ _ _ _ _ H)).
  - vm_compute in H. discriminate H.
Defined.

(** X9.  An identifier given to the run is never rewritten: the document
    a run writes carries it character for character, in both modes; so a
    run that writes was given a valid identifier, possibly followed by one
    line feed. *)
Theorem identifier_override_kept (env : Env) (db_type db_model : string)
        (dirs : list string) (out : string) (i : string)
        (p : string) (d : Document) :
  Py.nonempty i = true ->
  written (parse_metadata env db_type db_model dirs out (Some i)) = Some (p, d) ->
  doc_identifier d = i /\ Accepts.identifier i.
Proof.
  intros Hne Hw.
  destruct (ParserFacts.written_model _ _ _ _ _ _ _ _ Hw) as [-> | ->].
  - apply ParserFacts.one_run_doc in Hw
      as (required & dir & item & i' & _ & _ & _ & _ & _ & Hg & -> & _ & Hv).
    apply SchemaFacts.validate_json_iff in Hv as (_ & _ & Hi & _).
    unfold DatabaseMetaParser._generate_identifier in Hg.
    cbn [DatabaseMetaParser.identifier] in Hg. rewrite Hne in Hg.
    injection Hg as <-. split; [reflexivity | exact Hi].
  - apply ParserFacts.rac_run_doc in Hw
      as (cluster & i' & _ & Ht & _ & -> & _ & Hv).
    apply SchemaFacts.validate_json_iff in Hv as (_ & _ & Hi & _).
    specialize (Ht Hne). injection Ht as <-. split; [reflexivity | exact Hi].
Qed.

(** A cluster run with the identifier [prod-db], through the theorem. *)
Lemma identifier_override_kept_witness :
  match written (parse_metadata Examples.env_cluster "oracle" "rac"
                   [Examples.dir1; Examples.dir2] "/out" (Some "prod-db")) with
  | Some (p, d) => doc_identifier d = "prod-db"
  | None => False
  end.
Proof.
  destruct (written _) as [[p d]|] eqn:H.
  - exact (proj1 (identifier_override_kept _ _ _ _ _ "prod-db" _ _ eq_refl H)).
  - vm_compute in H. discriminate H.
Defined.

(** X10.  Without an identifier, a ['one'] run names the document after
    its directory: when the name of the directory ([Path(dir).name]) has
    three parts or more between ['_'] and the last part is a date, the
    identifier is that name with every character outside [[A-Za-z0-9_-]]
    replaced by ['_']; otherwise it is [unknown_unknown_] followed by the
    date of the run. *)
Theorem one_identifier_from_directory (env : Env) (db_type dir out : string)
        (ident : option string) (p : string) (d : Document) :
  Py.truthy ident = false ->
  written (parse_metadata env db_type "one" [dir] out ident) = Some (p, d) ->
  doc_identifier d
  = Py.map_chars Spec.sanitize_char
      (if (3 <=? List.length (Py.split "_" (Path.name dir)))%nat
          && is_some (Re.re_match Re.date8
                        (List.last (Py.split "_" (Path.name dir)) ""))
       then Path.name dir
       else ("unknown_unknown_" ++ today env)%string).
Proof.
  intros Ht Hw. rewrite <- (PathFacts.name_normal dir).
  apply ParserFacts.one_run_doc in Hw
    as (required & dir' & item & i & _ & [= <-] & _ & _ & _ & Hg & -> & _).
  cbn [doc_identifier].
  assert (DatabaseMetaParser._generate_identifier env
            (DatabaseMetaParser.mk db_type "one" required [Path.normal dir]
               (Spec.output_dir env out) ident
               (JsonSchemaValidator.create_empty_json env db_type "one" ""))
          = DatabaseMetaParser.derived_identifier env
              (DatabaseMetaParser.mk db_type "one" required [Path.normal dir]
                 (Spec.output_dir env out) ident
                 (JsonSchemaValidator.create_empty_json env db_type "one" "")))
    as Hd.
  { unfold DatabaseMetaParser._generate_identifier.
    cbn [DatabaseMetaParser.identifier].
    destruct ident as [s|]; [|reflexivity]. cbn [Py.truthy] in Ht.
    now rewrite Ht. }
  rewrite Hd in Hg. unfold DatabaseMetaParser.derived_identifier in Hg.
  cbn [DatabaseMetaParser.import_dirs DatabaseMetaParser.db_model] in Hg.
  pose proof (ParserFacts.extract_identifier_rejoined env (Path.normal dir)) as Hr.
  destruct (DatabaseMetaParser._extract_identifier_from_dir env (Path.normal dir))
    as [[[hostname sid] dbname] collect_date].
  cbn [String.eqb Ascii.eqb Bool.eqb] in Hg. injection Hg as <-.
  rewrite ReFacts.re_sub_not_ident. f_equal. exact Hr.
Qed.

(** A directory whose host name has a dot, written with a slash at its
    end, through the theorem: the dot becomes ['_']. *)
Lemma one_identifier_from_directory_witness :
  match written (parse_metadata Examples.env_dots "oracle" "one"
                   [(Examples.dot1 ++ "/")%string] "/out" None) with
  | Some (p, d) => doc_identifier d = "db_a1_hnoms1_20250826"
  | None => False
  end.
Proof.
  destruct (written _) as [[p d]|] eqn:H.
  - rewrite (one_identifier_from_directory _ _ _ _ None _ _ eq_refl H).
    vm_compute. reflexivity.
  - vm_compute in H. discriminate H.
Defined.

(** X11.  The two paths read the instance name of the same manifest
    differently.  When the manifest has both a non-empty [sid] and a
    non-empty [oracle_sid], the single-instance record takes [sid] and the
    cluster record takes [oracle_sid]; a [dbname] of the manifest is kept
    by the single-instance record, while the cluster record derives its
    database name from [oracle_sid] again. *)
Theorem sid_precedence_differs (env : Env) (self : DatabaseMetaParser.t)
        (directory : string) (data : Manifest) (s o b : string)
        (idx : nat) (item : NodeRecord) :
  load_json env (Py.path_join directory "file_status.json") = Some data ->
  m_sid data = Some s -> Py.nonempty s = true ->
  m_oracle_sid data = Some o -> Py.nonempty o = true ->
  m_dbname data = Some b ->
  DatabaseMetaParser.parse_file_status env self directory None = Some item ->
  let node := RacParser.node_record idx (RacNodeInfo.init env directory) in
  nr_sid item = Some s
  /\ nr_dbname item = Some b
  /\ nr_sid node = Some o
  /\ nr_dbname node = Some (Re.re_sub Re.digits_eol "" o).
Proof.
  intros Hl Hs Hsn Ho Hon Hb Hp node.
  apply RecordFacts.parse_file_status_inv in Hp
    as (data' & He & Hl' & _ & _ & (Hsid & Hdb & _) & _ & _ & _).
  rewrite Hl in Hl'. injection Hl' as <-.
  assert (RacNodeInfo.sid (RacNodeInfo.init env directory) = Some o) as Hns.
  { rewrite (NodeFacts.init_sid _ _ _ He Hl), Ho. reflexivity. }
  split; [|split; [|split]].
  - rewrite Hsid, Hs. unfold Py.or_else. cbn [Py.truthy]. now rewrite Hsn.
  - rewrite Hdb, Hb. reflexivity.
  - exact Hns.
  - unfold node. cbn [RacParser.node_record nr_dbname].
    exact (NodeFacts.dbname_rederived _ _ _ Hns Hon).
Qed.

(** The manifest of the examples that has both names, through the
    theorem. *)
Lemma sid_precedence_differs_witness :
  match DatabaseMetaParser.parse_file_status Examples.env_both
          Examples.generic_parser Examples.dir1 None with
  | Some item =>
      nr_sid item = Some "hnoms1"
      /\ nr_dbname item = Some "OMS"
      /\ nr_sid (RacParser.node_record 1
                   (RacNodeInfo.init Examples.env_both Examples.dir1))
         = Some "orcl1"
      /\ nr_dbname (RacParser.node_record 1
                      (RacNodeInfo.init Examples.env_both Examples.dir1))
         = Some (Re.re_sub Re.digits_eol "" "orcl1")
  | None => False
  end.
Proof.
  destruct (DatabaseMetaParser.parse_file_status _ _ _ _) as [item|] eqn:H.
  - exact (sid_precedence_differs Examples.env_both Examples.generic_parser
             Examples.dir1 Examples.manifest_both "hnoms1" "orcl1" "OMS" 1 item
             eq_refl eq_refl eq_refl eq_refl eq_refl eq_refl H).
  - vm_compute in H. discriminate H.
Defined.

(** X12.  The two paths date a record differently.  The single-instance
    record takes a non-empty [collect_date] of the manifest; the cluster
    record takes the third part of the name of the directory, whatever the
    manifest says, and has no date when the name has fewer than three
    parts. *)
Theorem collect_date_sources (env : Env) (self : DatabaseMetaParser.t)
        (directory : string) (data : Manifest) (c : string)
        (idx : nat) (item : NodeRecord) :
  load_json env (Py.path_join directory "file_status.json") = Some data ->
  m_collect_date data = Some c -> Py.nonempty c = true ->
  DatabaseMetaParser.parse_file_status env self directory None = Some item ->
  nr_collect_date item = Some c
  /\ nr_collect_date (RacParser.node_record idx (RacNodeInfo.init env directory))
     = List.nth_error (Py.split "_" (Py.basename directory)) 2.
Proof.
  intros Hl Hc Hn Hp.
  apply RecordFacts.parse_file_status_inv in Hp
    as (data' & _ & Hl' & _ & _ & (_ & _ & Hd) & _ & _ & _).
  rewrite Hl in Hl'. injection Hl' as <-. split.
  - rewrite Hd. unfold DatabaseMetaParser.actual_date. rewrite Hc.
    cbn [Py.truthy]. rewrite Hn. unfold Py.or_else. cbn [Py.truthy].
    now rewrite Hn.
  - cbn [RacParser.node_record nr_collect_date].
    apply RecordFacts.init_collect_date.
Qed.

(** The manifest dated 20250901 in a directory dated 20250826, through
    the theorem. *)
Lemma collect_date_sources_witness :
  match DatabaseMetaParser.parse_file_status Examples.env_both
          Examples.generic_parser Examples.dir1 None with
  | Some item =>
      nr_collect_date item = Some "20250901"
      /\ nr_collect_date (RacParser.node_record 1
                            (RacNodeInfo.init Examples.env_both Examples.dir1))
         = Some "20250826"
  | None => False
  end.
Proof.
  destruct (DatabaseMetaParser.parse_file_status _ _ _ _) as [item|] eqn:H.
  - exact (collect_date_sources Examples.env_both Examples.generic_parser
             Examples.dir1 Examples.manifest_both "20250901" 1 item
             eq_refl eq_refl eq_refl H).
  - vm_compute in H. discriminate H.
Defined.

(** X13.  For a manifest whose [files] field is an object, the records of
    the single-instance path and of the cluster path both have exactly the
    keys of that object, while the record of the MySQL parser has no file
    at all. *)
Theorem object_files_keys (env : Env) (self : DatabaseMetaParser.t)
        (mysql : MySQLMetaParser.t) (directory : string) (data : Manifest)
        (files : list (string * FileInfo)) (idx : nat)
        (item mysql_item : NodeRecord) :
  load_json env (Py.path_join directory "file_status.json") = Some data ->
  m_files data = Some (FilesDict files) ->
  DatabaseMetaParser.parse_file_status env self directory None = Some item ->
  MySQLMetaParser.parse_file_status env mysql directory = Some mysql_item ->
  (forall k, is_Some (nr_files item !! k) <-> In k (List.map fst files))
  /\ (forall k,
         is_Some (nr_files (RacParser.node_record idx
                              (RacNodeInfo.init env directory)) !! k)
         <-> In k (List.map fst files))
  /\ nr_files mysql_item = ∅.
Proof.
  intros Hl Hf Hp Hm.
  apply RecordFacts.parse_file_status_inv in Hp
    as (data' & He & Hl' & _ & _ & _ & Hfiles & _ & _).
  rewrite Hl in Hl'. injection Hl' as <-. rewrite Hf in Hfiles.
  split; [|split].
  - intros k. rewrite Hfiles, RecordFacts.files_of_dict_lookup, lookup_empty.
    split; [intros [[x Hx] | H]; [discriminate | exact H] | now right].
  - intros k. cbn [RacParser.node_record nr_files].
    unfold RacParser.node_files.
    rewrite DocumentFacts.init_file_status_data, He, Hl.
    rewrite ClusterFacts.init_directory.
    assert (manifest_truthy data = true) as ->.
    { unfold manifest_truthy. rewrite Hf. cbn. now rewrite !orb_true_r. }
    rewrite Hf, RecordFacts.merge_dict_lookup, lookup_empty.
    split; [intros [[x Hx] | H]; [discriminate | exact H] | now right].
  - revert Hm. unfold MySQLMetaParser.parse_file_status, Config.FILE_STATUS_JSON.
    rewrite He, Hl, Hf. cbn [negb].
    destruct (m_hostname data); [|discriminate].
    destruct (negb (is_some (m_collect_date data)) && _); [discriminate |].
    destruct (MySQLMetaParser._extract_identifier_from_dir env directory)
      as [[hostname dbname] collect_date].
    now intros [= <-].
Qed.

(** The manifest of the examples whose files are an object with the keys
    [system_info] and [hardware_info], through the theorem. *)
Lemma object_files_keys_witness :
  match DatabaseMetaParser.parse_file_status Examples.env_both
          Examples.generic_parser Examples.dir1 None,
        MySQLMetaParser.parse_file_status Examples.env_both
          Examples.mysql_parser Examples.dir1 with
  | Some item, Some mysql_item =>
      is_Some (nr_files item !! "hardware_info") /\ nr_files mysql_item = ∅
  | _, _ => False
  end.
Proof.
  destruct (DatabaseMetaParser.parse_file_status _ _ _ _) as [item|] eqn:H;
    [|vm_compute in H; discriminate H].
  destruct (MySQLMetaParser.parse_file_status _ _ _) as [mysql_item|] eqn:Hm;
    [|vm_compute in Hm; discriminate Hm].
  destruct (object_files_keys Examples.env_both Examples.generic_parser
              Examples.mysql_parser Examples.dir1 Examples.manifest_both
              [("system_info", Examples.file "01_system_info.txt");
               ("hardware_info",
                Examples.file_without_status "02_hardware_info.json")]
              1 item mysql_item eq_refl eq_refl H Hm) as (Hk & _ & He).
  split; [|exact He]. apply Hk. right. left. reflexivity.
Defined.

(* ================================================================== *)
(** * Clusters: consistency, documents and discovery *)
(* ================================================================== *)

Module ConsistencyFacts.
Import PyFacts ReFacts Spec DateFacts.

Lemma filter_none (A : Type) (f : A -> bool) (l : list A) :
  (forall x, In x l -> f x = false) -> List.filter f l = [].
Proof.
  induction l as [|a l IH]; [reflexivity |]. intros H. cbn [List.filter].
  rewrite (H a (or_introl eq_refl)). apply IH. intros x Hx. apply H. now right.
Qed.

(** A set has at most one element exactly when the values are all the
    same. *)
Lemma distinct_at_most_one (l : list string) :
  (1 <? List.length (Py.distinct l))%nat = false
  <-> forall x y, In x l -> In y l -> x = y.
Proof.
  rewrite Nat.ltb_ge. split.
  - intros Hlen x y Hx Hy.
    apply (proj2 (distinct_In _ _)) in Hx, Hy.
    destruct (Py.distinct l) as [|a [|b r]]; cbn in Hlen; [destruct Hx | | lia].
    destruct Hx as [<- | []], Hy as [<- | []]. reflexivity.
  - intros Hall. destruct l as [|a l]; [cbn; lia |].
    cbn [Py.distinct]. rewrite filter_none; [cbn; lia |].
    intros x Hx. apply (proj1 (distinct_In _ _)) in Hx.
    rewrite (Hall a x (or_introl eq_refl) (or_intror Hx)).
    now rewrite String.eqb_refl.
Qed.

(** The set of the non-empty values of a field. *)
Lemma truthy_set_In (f : RacNodeInfo.t -> option string)
      (nodes : list RacNodeInfo.t) (v : string) :
  In v (List.flat_map (fun n => match f n with
                                | Some v => if Py.nonempty v then [v] else []
                                | None => []
                                end) nodes)
  <-> exists n, In n nodes /\ f n = Some v /\ Py.nonempty v = true.
Proof.
  rewrite List.in_flat_map. split.
  - intros (n & Hn & Hv). exists n. split; [exact Hn |].
    destruct (f n) as [w|]; [|destruct Hv].
    destruct (Py.nonempty w) eqn:Hw; [|destruct Hv].
    destruct Hv as [<- | []]. now split.
  - intros (n & Hn & Hf & Hv). exists n. split; [exact Hn |].
    rewrite Hf, Hv. now left.
Qed.

Lemma truthy_set_agree (f : RacNodeInfo.t -> option string)
      (nodes : list RacNodeInfo.t) :
  (1 <? List.length (RacClusterInfo.truthy_set f nodes))%nat = false
  <-> Consistent.agree f nodes.
Proof.
  unfold RacClusterInfo.truthy_set. rewrite distinct_at_most_one.
  unfold Consistent.agree. split.
  - intros H n1 n2 v1 v2 H1 H2 Hf1 Hv1 Hf2 Hv2.
    apply H; apply truthy_set_In; eauto.
  - intros H x y Hx Hy.
    apply truthy_set_In in Hx as (n1 & H1 & Hf1 & Hv1).
    apply truthy_set_In in Hy as (n2 & H2 & Hf2 & Hv2). eauto.
Qed.

(** The [db_model] values [validate_consistency] collects. *)
Lemma db_models_In (nodes : list RacNodeInfo.t) (v : string) :
  In v (RacClusterInfo.db_models nodes)
  <-> exists n data,
        In n nodes /\ RacNodeInfo.file_status_data n = Some data
        /\ manifest_truthy data = true /\ m_db_model data = Some v.
Proof.
  unfold RacClusterInfo.db_models. rewrite distinct_In, List.in_flat_map. split.
  - intros (n & Hn & Hv). exists n.
    destruct (RacNodeInfo.file_status_data n) as [data|]; [|destruct Hv].
    exists data. destruct (manifest_truthy data); [|destruct Hv].
    destruct (m_db_model data) as [w|]; [|destruct Hv].
    destruct Hv as [<- | []]. now repeat split.
  - intros (n & data & Hn & Hd & Ht & Hm). exists n. split; [exact Hn |].
    rewrite Hd, Ht, Hm. now left.
Qed.

Lemma db_models_rac (nodes : list RacNodeInfo.t) :
  (if (1 <? List.length (RacClusterInfo.db_models nodes))%nat
   then [RacClusterInfo.DbModelMismatch]
   else if negb (List.length (RacClusterInfo.db_models nodes) =? 0)%nat
           && negb (mem_str "rac" (RacClusterInfo.db_models nodes))
        then [RacClusterInfo.DbModelNotRac] else []) = []
  <-> Consistent.models_rac nodes.
Proof.
  unfold Consistent.models_rac. split.
  - intros H n data v Hn Hd Ht Hm.
    assert (In v (RacClusterInfo.db_models nodes)) as Hv
      by (apply db_models_In; eauto 6).
    destruct (RacClusterInfo.db_models nodes) as [|a [|b r]];
      [destruct Hv | | discriminate H].
    destruct Hv as [<- | []].
    destruct (String.eqb_spec "rac" a) as [<- | Hne]; [reflexivity |].
    exfalso. apply String.eqb_neq in Hne. unfold mem_str in H.
    cbn [existsb] in H. rewrite Hne in H. cbn in H. discriminate H.
  - intros H.
    assert (forall v, In v (RacClusterInfo.db_models nodes) -> v = "rac") as Hall.
    { intros v Hv. apply db_models_In in Hv as (n & data & Hn & Hd & Ht & Hm).
      eauto. }
    assert (forall x y, In x (RacClusterInfo.db_models nodes) ->
                        In y (RacClusterInfo.db_models nodes) -> x = y) as Heq.
    { intros x y Hx Hy. now rewrite (Hall x Hx), (Hall y Hy). }
    unfold RacClusterInfo.db_models in Heq |- *.
    set (l := List.flat_map _ nodes) in *.
    assert ((1 <? List.length (Py.distinct l))%nat = false) as ->.
    { apply distinct_at_most_one. intros x y Hx Hy.
      apply Heq; now apply distinct_In. }
    destruct (Py.distinct l) as [|a r] eqn:Hl; [reflexivity |].
    assert (a = "rac") as -> by (apply Hall; unfold RacClusterInfo.db_models;
                                fold l; rewrite Hl; now left).
    reflexivity.
Qed.

Lemma missing_data_none (nodes : list RacNodeInfo.t) :
  List.flat_map (fun n => if RacClusterInfo.has_data n then []
                          else [RacClusterInfo.MissingFileStatus
                                  (RacNodeInfo.hostname n)]) nodes = []
  <-> Forall (fun n => RacClusterInfo.has_data n = true) nodes.
Proof.
  induction nodes as [|n nodes IH]; cbn [List.flat_map].
  - split; [constructor | reflexivity].
  - rewrite Forall_cons. destruct (RacClusterInfo.has_data n); cbn [List.app].
    + rewrite IH. tauto.
    + split; [discriminate | intros [[=] _]].
Qed.

(** [validate_consistency] finds no issue exactly for a consistent
    cluster. *)
Lemma validate_consistency_iff (c : RacClusterInfo.t) :
  fst (RacClusterInfo.validate_consistency c) = true
  <-> Consistent.cluster (RacClusterInfo.nodes c).
Proof.
  unfold RacClusterInfo.validate_consistency, Consistent.cluster. cbn [fst].
  rewrite Nat.eqb_eq, List.length_zero_iff_nil.
  rewrite <- !truthy_set_agree, <- missing_data_none, <- db_models_rac.
  destruct (1 <? List.length (RacClusterInfo.truthy_set RacNodeInfo.dbname _))%nat.
  { cbn. split; [discriminate | intros [[=] _]]. }
  destruct (1 <? List.length (RacClusterInfo.truthy_set RacNodeInfo.collect_date _))%nat.
  { cbn. split; [discriminate | intros (_ & [=] & _)]. }
  cbn [List.app]. split.
  - intros H. apply List.app_eq_nil in H as [H3 H4]. now repeat split.
  - intros (_ & _ & H3 & H4). now rewrite H3, H4.
Qed.

(** Every node of a cluster built from directories is valid. *)
Lemma built_nodes_valid (env : Env) (dirs : list string) (c : RacClusterInfo.t) :
  RacParser.parse_rac_directories env dirs = Ok c ->
  Forall (fun n => RacNodeInfo.is_valid n = true) (RacClusterInfo.nodes c)
  /\ RacClusterInfo.node_count c = List.length (RacClusterInfo.nodes c).
Proof.
  unfold RacParser.parse_rac_directories. destruct dirs as [|d0 dirs0]; [discriminate |].
  set (dirs := d0 :: dirs0).
  assert (Forall (fun n => RacNodeInfo.is_valid n = true)
                 (RacParser.parse_nodes env dirs)) as Hv.
  { clearbody dirs. clear. induction dirs as [|d dirs IH]; [constructor |].
    cbn [RacParser.parse_nodes].
    destruct (negb (path_exists env d)); [exact IH |].
    destruct (RacNodeInfo.is_valid (RacNodeInfo.init env d)) eqn:Hn; [|exact IH].
    now constructor. }
  destruct (RacParser.parse_nodes env dirs) as [|n nodes]; [discriminate |].
  unfold RacClusterInfo.init.
  destruct (RacNodeInfo.hostname n); [|discriminate].
  intros [= <-]. split; [exact Hv | reflexivity].
Qed.

End ConsistencyFacts.

(** X14.  [validate_consistency] reports a cluster as consistent exactly
    when: the nodes that have a database name have the same one; the nodes
    that have a date have the same one; every node has a manifest that is
    not empty; and every [db_model] of a manifest is ['rac']. *)
Theorem consistency_characterised (c : RacClusterInfo.t) :
  fst (RacClusterInfo.validate_consistency c) = true
  <-> Consistent.cluster (RacClusterInfo.nodes c).
Proof. apply ConsistencyFacts.validate_consistency_iff. Qed.

(** The cluster of the examples, through the theorem. *)
Lemma consistency_characterised_witness :
  match RacParser.parse_rac_directories Examples.env_cluster
          [Examples.dir1; Examples.dir2] with
  | Ok c => Consistent.cluster (RacClusterInfo.nodes c)
  | Raise _ => False
  end.
Proof.
  destruct (RacParser.parse_rac_directories _ _) as [c|] eqn:H.
  - apply consistency_characterised. vm_compute in H. injection H as <-.
    vm_compute. reflexivity.
  - vm_compute in H. discriminate H.
Defined.

Module ClusterInfoFacts.
Import PyFacts ReFacts Spec DateFacts ConsistencyFacts.

Lemma merge_from_In (idx : nat) (nodes : list RacNodeInfo.t) (r : NodeRecord) :
  In r (RacParser.merge_from idx nodes) ->
  exists i n, In n nodes /\ r = RacParser.node_record i n.
Proof.
  revert idx. induction nodes as [|n rest IH]; intros idx; [intros [] |].
  cbn [RacParser.merge_from]. intros [<- | Hr].
  - exists idx, n. split; [now left | reflexivity].
  - destruct (IH _ Hr) as (i & n' & Hn & ->). exists i, n'. split; [now right | reflexivity].
Qed.

(** The database name of a cluster built from directories. *)
Lemma built_dbname (env : Env) (dirs : list string) (c : RacClusterInfo.t) :
  RacParser.parse_rac_directories env dirs = Ok c ->
  RacClusterInfo.dbname c
  = match RacClusterInfo.truthy_set RacNodeInfo.dbname (RacClusterInfo.nodes c) with
    | [d] => Some d
    | [] => None
    | l => set_first env l
    end.
Proof.
  unfold RacParser.parse_rac_directories. destruct dirs as [|d0 dirs0]; [discriminate |].
  destruct (RacParser.parse_nodes env (d0 :: dirs0)) as [|n nodes]; [discriminate |].
  unfold RacClusterInfo.init.
  destruct (RacNodeInfo.hostname n); [|discriminate].
  intros [= <-]. cbn [RacClusterInfo.dbname RacClusterInfo.nodes].
  destruct (RacClusterInfo.truthy_set _ _) as [|d [|d' l]]; reflexivity.
Qed.

(** When valid nodes agree on the database name, it is the one of the
    cluster. *)
Lemma agreed_dbname (env : Env) (dirs : list string) (c : RacClusterInfo.t)
      (n : RacNodeInfo.t) :
  RacParser.parse_rac_directories env dirs = Ok c ->
  Consistent.agree RacNodeInfo.dbname (RacClusterInfo.nodes c) ->
  In n (RacClusterInfo.nodes c) ->
  RacNodeInfo.dbname n = RacClusterInfo.dbname c.
Proof.
  intros Hc Ha Hn.
  destruct (built_nodes_valid _ _ _ Hc) as [Hv _].
  rewrite List.Forall_forall in Hv.
  destruct (NodeFacts.is_valid_fields n (Hv n Hn)) as (_ & _ & Hd & _).
  destruct (RacNodeInfo.dbname n) as [v|] eqn:Hdn; [|discriminate Hd].
  cbn [Py.truthy] in Hd.
  rewrite (built_dbname _ _ _ Hc).
  assert (In v (RacClusterInfo.truthy_set RacNodeInfo.dbname (RacClusterInfo.nodes c)))
    as Hin.
  { unfold RacClusterInfo.truthy_set. apply distinct_In, truthy_set_In. eauto. }
  apply truthy_set_agree in Ha. apply Nat.ltb_ge in Ha.
  destruct (RacClusterInfo.truthy_set _ _) as [|a [|b l]];
    [destruct Hin | | cbn in Ha; lia].
  destruct Hin as [<- | []]. reflexivity.
Qed.

End ClusterInfoFacts.

(** X15.  The [cluster_info] of a written ['rac'] document: its
    [node_count] is the number of records of the document, its [dbname] is
    not empty, and when its [consistency_check] is true every record of
    the document has the database name of [cluster_info] and all the
    records have the same date. *)
Theorem rac_cluster_info (env : Env) (db_type : string) (dirs : list string)
        (out : string) (ident : option string) (p : string) (d : Document)
        (ci : ClusterInfoField) :
  written (parse_metadata env db_type "rac" dirs out ident) = Some (p, d) ->
  doc_cluster_info d = Some ci ->
  ci_node_count ci = List.length (doc_metainfo d)
  /\ Py.truthy (ci_dbname ci) = true
  /\ (ci_consistency_check ci = true ->
      forall r1 r2, In r1 (doc_metainfo d) -> In r2 (doc_metainfo d) ->
                    nr_dbname r1 = ci_dbname ci
                    /\ nr_collect_date r1 = nr_collect_date r2).
Proof.
  intros Hw Hci. apply ParserFacts.rac_run_doc in Hw
    as (cluster & i & Hc & _ & _ & -> & _ & Hv).
  cbn [doc_cluster_info doc_metainfo] in *.
  destruct (Py.truthy (RacClusterInfo.dbname cluster)) eqn:Hdb; [|discriminate].
  injection Hci as <-. cbn [ci_node_count ci_dbname ci_consistency_check].
  destruct (ConsistencyFacts.built_nodes_valid _ _ _ Hc) as [Hvalid Hcount].
  split; [|split].
  - unfold RacParser.merge_node_files.
    now rewrite ClusterFacts.merge_from_length.
  - exact Hdb.
  - intros Hcons r1 r2 H1 H2.
    apply ConsistencyFacts.validate_consistency_iff in Hcons as (Hadb & Hadate & _).
    apply SchemaFacts.validate_json_iff in Hv as (_ & _ & _ & _ & Hrec).
    cbn [doc_metainfo doc_dbmodel] in Hrec. rewrite List.Forall_forall in Hrec.
    destruct (Hrec r1 H1) as [(d1 & Hd1 & Hacc1) _].
    destruct (Hrec r2 H2) as [(d2 & Hd2 & Hacc2) _].
    apply ClusterInfoFacts.merge_from_In in H1 as (i1 & n1 & Hn1 & ->).
    apply ClusterInfoFacts.merge_from_In in H2 as (i2 & n2 & Hn2 & ->).
    cbn [RacParser.node_record nr_dbname nr_collect_date] in *.
    split; [exact (ClusterInfoFacts.agreed_dbname _ _ _ _ Hc Hadb Hn1) |].
    rewrite Hd1, Hd2. f_equal.
    assert (forall x, Accepts.date x -> Py.nonempty x = true) as Hne.
    { intros x (y & Hlen & _ & [-> | ->]); destruct y; try discriminate Hlen;
        reflexivity. }
    exact (Hadate n1 n2 d1 d2 Hn1 Hn2 Hd1 (Hne _ Hacc1) Hd2 (Hne _ Hacc2)).
Qed.

(** The cluster run of the examples, through the theorem. *)
Lemma rac_cluster_info_witness :
  match written (parse_metadata Examples.env_cluster "oracle" "rac"
                   [Examples.dir1; Examples.dir2] "/out" None) with
  | Some (p, d) =>
      match doc_cluster_info d with
      | Some ci => ci_node_count ci = List.length (doc_metainfo d)
      | None => False
      end
  | None => False
  end.
Proof.
  destruct (written _) as [[p d]|] eqn:H;
    [|vm_compute in H; discriminate H].
  destruct (doc_cluster_info d) as [ci|] eqn:Hci.
  - exact (proj1 (rac_cluster_info _ _ _ _ _ _ _ _ H Hci)).
  - vm_compute in H. injection H as _ <-. vm_compute in Hci. discriminate Hci.
Defined.

(** X16.  [detect_rac_nodes] on a base directory that exists: when the
    directory cannot be listed (it is a file, say) the error of
    [os.listdir] is raised; otherwise the call returns either nothing, when
    no group key is shared by two sub-directories, or all the
    sub-directories of one group key, in ascending order, at least two of
    them, and no group key has more sub-directories. *)
Theorem detect_rac_nodes_largest_group (env : Env) (base_dir : string) :
  path_exists env base_dir = true ->
  match listdir env base_dir with
  | None => RacParser.detect_rac_nodes env base_dir = Raise OSError
  | Some items =>
      let subdirs :=
        List.filter (path_is_dir env)
                    (List.map (Py.path_join base_dir) items) in
      exists r,
        RacParser.detect_rac_nodes env base_dir = Ok r
        /\ ((r = []
             /\ forall k,
                  (List.length (Spec.members RacParser.group_key k subdirs) < 2)%nat)
            \/ (exists k,
                   Permutation r (Spec.members RacParser.group_key k subdirs)
                   /\ Spec.ascending r
                   /\ (2 <= List.length r)%nat
                   /\ forall k',
                        (List.length (Spec.members RacParser.group_key k' subdirs)
                         <= List.length r)%nat))
  end.
Proof.
  intros He. unfold RacParser.detect_rac_nodes. rewrite He. cbn [negb].
  destruct (listdir env base_dir) as [items|]; [|reflexivity].
  cbv zeta. eexists. split; [reflexivity |].
  apply DiscoveryFacts.largest_group_spec.
Qed.

(** The base directory of the examples: both node directories are
    returned, in ascending order; and a manifest given as the base
    directory, which cannot be listed. *)
Lemma detect_rac_nodes_largest_group_witness :
  RacParser.detect_rac_nodes Examples.env_cluster "/data"
  = Ok [Examples.dir1; Examples.dir2]
  /\ RacParser.detect_rac_nodes Examples.env_cluster
       (Examples.status_of Examples.dir1) = Raise OSError.
Proof.
  split.
  - pose proof (detect_rac_nodes_largest_group Examples.env_cluster "/data"
                  eq_refl) as H.
    cbv beta iota zeta in H. vm_compute listdir in H.
    destruct H as (r & Hr & _). vm_compute. reflexivity.
  - exact (detect_rac_nodes_largest_group Examples.env_cluster
             (Examples.status_of Examples.dir1) eq_refl).
Defined.

(** X17.  The database name of a node whose instance name does not end
    with a line feed is the instance name without its trailing digits:
    the instance name is the database name followed by digits only, and
    the database name does not end with a digit. *)
Theorem node_dbname_without_digits (env : Env) (directory s : string) :
  RacNodeInfo.sid (RacNodeInfo.init env directory) = Some s ->
  Py.nonempty s = true ->
  Spec.ends_with_LF s = false ->
  exists dbname digits,
    RacNodeInfo.dbname (RacNodeInfo.init env directory) = Some dbname
    /\ s = (dbname ++ digits)%string
    /\ Py.forall_chars Py.is_digit digits = true
    /\ Spec.ends_with Py.is_digit dbname = false.
Proof.
  intros Hs Hne Hl.
  destruct (ReFacts.strip_trailing_digits_decompose s) as (ds & Hd & Hds & He).
  exists (Spec.strip_trailing_digits s), ds.
  split; [exact (NodeFacts.dbname_strips_trailing_digits _ _ _ Hs Hne Hl) |].
  now repeat split.
Qed.

(** The first node of the examples, through the theorem: [hnoms1] gives
    [hnoms]. *)
Lemma node_dbname_without_digits_witness :
  exists dbname digits,
    RacNodeInfo.dbname (RacNodeInfo.init Examples.env_cluster Examples.dir1)
    = Some dbname
    /\ "hnoms1" = (dbname ++ digits)%string
    /\ Py.forall_chars Py.is_digit digits = true
    /\ Spec.ends_with Py.is_digit dbname = false.
Proof.
  apply (node_dbname_without_digits Examples.env_cluster Examples.dir1 "hnoms1");
    reflexivity.
Defined.

Module ClusterIdentifierFacts.
Import PyFacts ReFacts Spec DateFacts.

(** A cluster built from directories is the cluster of its nodes. *)
Lemma built_init (env : Env) (dirs : list string) (c : RacClusterInfo.t) :
  RacParser.parse_rac_directories env dirs = Ok c ->
  RacClusterInfo.init env (RacClusterInfo.nodes c) = Ok c.
Proof.
  unfold RacParser.parse_rac_directories. destruct dirs as [|d0 dirs0]; [discriminate |].
  destruct (RacParser.parse_nodes env (d0 :: dirs0)) as [|n nodes]; [discriminate |].
  intros Hi. assert (RacClusterInfo.nodes c = n :: nodes) as ->; [|exact Hi].
  revert Hi. unfold RacClusterInfo.init.
  destruct (RacNodeInfo.hostname n); [|discriminate]. now intros [= <-].
Qed.

Lemma built_cluster_name (env : Env) (dirs : list string) (c : RacClusterInfo.t) :
  RacParser.parse_rac_directories env dirs = Ok c ->
  exists name, RacClusterInfo.cluster_name c = Some name.
Proof.
  unfold RacParser.parse_rac_directories. destruct dirs as [|d0 dirs0]; [discriminate |].
  destruct (RacParser.parse_nodes env (d0 :: dirs0)) as [|n nodes]; [discriminate |].
  unfold RacClusterInfo.init.
  destruct (RacNodeInfo.hostname n); [|discriminate]. intros [= <-]. eauto.
Qed.

Lemma merge_from_node (idx : nat) (nodes : list RacNodeInfo.t) (n : RacNodeInfo.t) :
  In n nodes ->
  exists i, In (RacParser.node_record i n) (RacParser.merge_from idx nodes).
Proof.
  revert idx. induction nodes as [|n' rest IH]; intros idx; [intros [] |].
  cbn [RacParser.merge_from]. intros [-> | Hn].
  - exists idx. now left.
  - destruct (IH (S idx) Hn) as [i Hi]. exists i. now right.
Qed.

End ClusterIdentifierFacts.

(** X27.  Without an identifier, a written ['rac'] document that has
    [cluster_info] is named after it: the identifier is the cluster name
    (when it is not empty), the database name and a date, joined by ['_'],
    where the date is a [collect_date] of a record and no record has a
    later one in the order of strings. *)
Theorem rac_identifier_from_cluster (env : Env) (db_type : string)
        (dirs : list string) (out : string) (ident : option string)
        (p : string) (d : Document) (ci : ClusterInfoField) :
  Py.truthy ident = false ->
  written (parse_metadata env db_type "rac" dirs out ident) = Some (p, d) ->
  doc_cluster_info d = Some ci ->
  exists name dbname date,
    ci_cluster_name ci = Some name
    /\ ci_dbname ci = Some dbname
    /\ In (Some date) (List.map nr_collect_date (doc_metainfo d))
    /\ (forall r x, In r (doc_metainfo d) -> nr_collect_date r = Some x ->
                    String.leb x date = true)
    /\ doc_identifier d
       = ((if Py.nonempty name then name ++ "_" else "")
          ++ dbname ++ "_" ++ date)%string.
Proof.
  intros Ht Hw Hci. apply ParserFacts.rac_run_doc in Hw
    as (cluster & i & Hc & _ & Hgen & -> & _ & Hv).
  specialize (Hgen Ht).
  cbn [doc_cluster_info doc_metainfo doc_identifier] in *.
  destruct (Py.truthy (RacClusterInfo.dbname cluster)) eqn:Hdb; [|discriminate].
  injection Hci as <-. cbn [ci_cluster_name ci_dbname].
  destruct (RacClusterInfo.dbname cluster) as [dbname|] eqn:Hdbn;
    [|discriminate Hdb].
  cbn [Py.truthy] in Hdb.
  destruct (ClusterIdentifierFacts.built_cluster_name _ _ _ Hc) as [name Hname].
  pose proof (DateFacts.cluster_collect_date_max _ _ _
                (ClusterIdentifierFacts.built_init _ _ _ Hc)) as Hdate.
  pose proof (DateFacts.max_str_spec
                (RacClusterInfo.truthy_set RacNodeInfo.collect_date
                   (RacClusterInfo.nodes cluster))) as Hmax.
  apply SchemaFacts.validate_json_iff in Hv as (_ & _ & _ & Hcount & Hrec).
  cbn [doc_metainfo doc_dbmodel] in Hcount, Hrec.
  rewrite List.Forall_forall in Hrec.
  assert (forall r x, In r (RacParser.merge_node_files cluster) ->
                      nr_collect_date r = Some x ->
                      Spec.has_date (RacClusterInfo.nodes cluster) x) as Hhas.
  { intros r x Hr Hx. destruct (Hrec r Hr) as [(y & Hy & Hacc) _].
    rewrite Hx in Hy. injection Hy as <-.
    apply ClusterInfoFacts.merge_from_In in Hr as (j & n & Hn & ->).
    exists n. split; [exact Hn |]. split; [exact Hx |].
    destruct Hacc as (y & Hlen & _ & [-> | ->]); destruct y;
      try discriminate Hlen; reflexivity. }
  destruct (Py.max_str _) as [date|].
  2:{ exfalso. destruct Hcount as [[[=] _] | [_ Hlen]].
      destruct (RacParser.merge_node_files cluster) as [|r l] eqn:Hl;
        [cbn in Hlen; lia |].
      destruct (Hrec r (or_introl eq_refl)) as [(y & Hy & _) _].
      assert (Spec.has_date (RacClusterInfo.nodes cluster) y) as Hd
        by (apply (Hhas r); [now left | exact Hy]).
      apply DateFacts.truthy_set_dates in Hd. rewrite Hmax in Hd. destruct Hd. }
  destruct Hmax as [Hin Hall].
  apply DateFacts.truthy_set_dates in Hin as (n & Hn & Hnd & Hne).
  exists name, dbname, date.
  split; [exact Hname |]. split; [reflexivity |]. split; [|split].
  - destruct (ClusterIdentifierFacts.merge_from_node 1 _ _ Hn) as [j Hj].
    apply List.in_map_iff. exists (RacParser.node_record j n).
    split; [exact Hnd | exact Hj].
  - intros r x Hr Hx. apply Hall, DateFacts.truthy_set_dates. eauto.
  - assert (RacClusterInfo.generate_identifier cluster
            = ((if Py.nonempty name then name ++ "_" else "")
               ++ dbname ++ "_" ++ date)%string) as Hid.
    { unfold RacClusterInfo.generate_identifier.
      rewrite Hname, Hdbn, Hdate, Hdb, Hne.
      destruct (Py.nonempty name); [|reflexivity].
      rewrite PyFacts.append_assoc. reflexivity. }
    rewrite <- Hid. apply Hgen. rewrite Hid.
    destruct (Py.nonempty name) eqn:Hnn.
    + destruct name; [discriminate Hnn | reflexivity].
    + destruct dbname; [discriminate Hdb | reflexivity].
Qed.

(** Two nodes collected on different days, through the theorem: the
    document is named after the later day. *)
Lemma rac_identifier_from_cluster_witness :
  match written (parse_metadata Examples.env_two_dates "oracle" "rac"
                   [Examples.dir1; Examples.late2] "/out" None) with
  | Some (p, d) =>
      exists name dbname date,
        In (Some date) (List.map nr_collect_date (doc_metainfo d))
        /\ doc_identifier d
           = ((if Py.nonempty name then name ++ "_" else "")
              ++ dbname ++ "_" ++ date)%string
  | None => False
  end.
Proof.
  destruct (written _) as [[p d]|] eqn:H;
    [|vm_compute in H; discriminate H].
  destruct (doc_cluster_info d) as [ci|] eqn:Hci.
  - destruct (rac_identifier_from_cluster _ _ _ _ None _ _ _ eq_refl H Hci)
      as (name & dbname & date & _ & _ & Hin & _ & Hid).
    exists name, dbname, date. now split.
  - vm_compute in H. injection H as _ <-. vm_compute in Hci. discriminate Hci.
Defined.

(* ================================================================== *)
(** * The MySQL parser and the command line *)
(* ================================================================== *)

Module MySQLFacts.
Import PyFacts ReFacts Spec.

(** The records of the loop of the MySQL parser. *)
Lemma mysql_parse_dirs_shape (env : Env) (self : MySQLMetaParser.t)
      (dirs : list string) (items : list NodeRecord) :
  MySQLMetaParser.parse_dirs env self dirs = Some items ->
  List.map nr_source_dir items = dirs
  /\ Forall (fun r => nr_sid r = Some "mysql" /\ nr_node_info r = None) items.
Proof.
  revert items. induction dirs as [|dir rest IH]; intros items.
  - intros [= <-]. split; constructor.
  - cbn [MySQLMetaParser.parse_dirs].
    destruct (MySQLMetaParser.parse_file_status env self dir) as [item|] eqn:Hp;
      [|discriminate].
    destruct (MySQLMetaParser.parse_dirs env self rest) as [items'|];
      [|discriminate].
    destruct (IH items' eq_refl) as [Hd Hn].
    assert (nr_source_dir item = dir /\ nr_sid item = Some "mysql"
            /\ nr_node_info item = None) as (Hs & Hsid & Hi).
    { revert Hp. unfold MySQLMetaParser.parse_file_status.
      destruct (negb (path_exists env _)); [discriminate |].
      destruct (load_json env _) as [data|]; [|discriminate].
      destruct (m_hostname data), (m_files data); try discriminate.
      destruct (negb (is_some (m_collect_date data)) && _); [discriminate |].
      destruct (MySQLMetaParser._extract_identifier_from_dir env dir)
        as [[hostname dbname] collect_date].
      now intros [= <-]. }
    intros [= <-]. split.
    + cbn [List.map]. rewrite Hd. f_equal.
      destruct (MySQLMetaParser.validate_directory env dir); exact Hs.
    + constructor; [|exact Hn].
      destruct (MySQLMetaParser.validate_directory env dir); now split.
Qed.

(** The document of a run of the MySQL parser that writes. *)
Lemma mysql_run_doc (env : Env) (dirs : list string) (out : string)
      (ident : option string) (p : string) (d : Document) :
  written (parse_mysql_metadata env dirs out ident) = Some (p, d) ->
  exists items i,
    MySQLMetaParser.parse_dirs env
      (MySQLMetaParser.init env dirs out ident) (List.map Path.normal dirs)
    = Some items
    /\ d = mkDocument JsonSchemaValidator.CURRENT_VERSION "mysql" "one" i
                      (now_iso env) items None
    /\ p = Path.div (Spec.output_dir env out)
             (JsonSchemaValidator.generate_filename "mysql" "one" i)
    /\ (Py.truthy ident = true -> ident = Some i)
    /\ (Py.truthy ident = false ->
        MySQLMetaParser._generate_identifier env
          (MySQLMetaParser.init env dirs out ident) = Ok i).
Proof.
  unfold parse_mysql_metadata, MySQLMetaParser.parse.
  set (self := MySQLMetaParser.init env dirs out ident).
  change (MySQLMetaParser.import_dirs self) with (List.map Path.normal dirs).
  destruct (negb (forallb _ _)); [discriminate |].
  destruct (MySQLMetaParser.parse_dirs env self _) as [items|];
    [|discriminate].
  destruct (_ =? 0)%nat; [discriminate |].
  unfold MySQLMetaParser.generate_meta_json, MySQLMetaParser.generate_body.
  subst self. unfold MySQLMetaParser.init.
  cbn [MySQLMetaParser.set_meta_data MySQLMetaParser.json_out_dir
       MySQLMetaParser.identifier MySQLMetaParser.db_type
       MySQLMetaParser.db_model MySQLMetaParser.import_dirs
       MySQLMetaParser.meta_data].
  destruct (mkdir_ok env _); cbn [negb]; [|discriminate].
  destruct (Py.truthy ident) eqn:Ht.
  - cbn [bind MySQLMetaParser.db_type MySQLMetaParser.db_model
         MySQLMetaParser.identifier MySQLMetaParser.json_out_dir
         MySQLMetaParser.meta_data].
    destruct (writable env _); cbn [snd written]; [|discriminate].
    intros [= <- <-]. destruct ident as [i|]; [|discriminate Ht].
    exists items, i. cbn [Py.truthy] in Ht. unfold Py.or_else.
    cbn [Py.truthy]. rewrite Ht.
    split; [reflexivity |]. split; [reflexivity |]. split; [reflexivity |].
    split; [reflexivity | discriminate].
  - unfold MySQLMetaParser._generate_identifier.
    cbn [MySQLMetaParser.identifier MySQLMetaParser.import_dirs
         MySQLMetaParser.set_meta_data].
    rewrite Ht.
    destruct dirs as [|first rest]; [discriminate |]. cbn [List.map].
    destruct (MySQLMetaParser._extract_identifier_from_dir env (Path.normal first))
      as [[hostname dbname] collect_date] eqn:He.
    cbn [bind MySQLMetaParser.db_type MySQLMetaParser.db_model
         MySQLMetaParser.identifier MySQLMetaParser.json_out_dir
         MySQLMetaParser.meta_data].
    destruct (writable env _); cbn [snd written]; [|discriminate].
    intros [= <- <-]. eexists items, _.
    split; [reflexivity |]. split; [reflexivity |]. split; [reflexivity |].
    split; [discriminate |]. intros _.
    cbn [MySQLMetaParser.identifier MySQLMetaParser.import_dirs].
    rewrite ?Ht, ?He. reflexivity.
Qed.

(** What the MySQL [_extract_identifier_from_dir] returns, put together
    again. *)
Lemma mysql_extract_rejoined (env : Env) (dir_path : string) :
  let '(hostname, dbname, collect_date) :=
    MySQLMetaParser._extract_identifier_from_dir env dir_path in
  (hostname ++ "_" ++ dbname ++ "_" ++ collect_date)%string
  = if (3 <=? List.length (Py.split "_" (Path.name dir_path)))%nat
       && is_some (Re.re_match Re.date8
                     (List.last (Py.split "_" (Path.name dir_path)) ""))
    then Path.name dir_path
    else ("unknown_mysql_" ++ today env)%string.
Proof.
  unfold MySQLMetaParser._extract_identifier_from_dir.
  destruct (Nat.leb_spec 3 (List.length (Py.split "_" (Path.name dir_path))))
    as [H3 | H3]; cbn [andb]; [|reflexivity].
  destruct (is_some (Re.re_match Re.date8 _)); [|reflexivity].
  rewrite ParserFacts.parts_rejoined by exact H3. apply ParserFacts.join_split.
Qed.

(** Both parsers return [True] exactly when they wrote. *)
Lemma mysql_ret_written (env : Env) (dirs : list string) (out : string)
      (ident : option string) :
  ret (parse_mysql_metadata env dirs out ident)
  = is_some (written (parse_mysql_metadata env dirs out ident)).
Proof.
  unfold parse_mysql_metadata, MySQLMetaParser.parse.
  destruct (negb (forallb _ _)); [reflexivity |].
  destruct (MySQLMetaParser.parse_dirs _ _ _); [|reflexivity].
  destruct (_ =? 0)%nat; [reflexivity |].
  unfold MySQLMetaParser.generate_meta_json, MySQLMetaParser.generate_body.
  destruct (negb (mkdir_ok env _)); [reflexivity |].
  match goal with
  | |- context [bind ?m _] => destruct m as [self|]; [|reflexivity]
  end.
  cbn [bind]. destruct (writable env _); reflexivity.
Qed.

Lemma generate_meta_json_ret (env : Env) (self self' : DatabaseMetaParser.t)
      (o : outcome) :
  DatabaseMetaParser.generate_meta_json env self = Ok (self', o) ->
  ret o = is_some (written o).
Proof.
  unfold DatabaseMetaParser.generate_meta_json.
  destruct (negb (mkdir_ok env _)); [discriminate |].
  destruct (DatabaseMetaParser._generate_identifier env self); [|discriminate].
  cbn [bind]. destruct (JsonSchemaValidator.validate_json _).
  - now intros [= <- <-].
  - destruct (writable env _); now intros [= <- <-].
Qed.

Lemma generic_ret_written (env : Env) (db_type db_model : string)
      (dirs : list string) (out : string) (ident : option string) :
  ret (parse_metadata env db_type db_model dirs out ident)
  = is_some (written (parse_metadata env db_type db_model dirs out ident)).
Proof.
  unfold parse_metadata.
  destruct (DatabaseMetaParser.init _ _ _ _ _ _) as [parser|]; [|reflexivity].
  unfold DatabaseMetaParser.parse.
  destruct (negb (forallb _ _)); [reflexivity |].
  destruct (String.eqb _ "rac").
  - unfold DatabaseMetaParser._parse_rac_mode, DatabaseMetaParser.rac_mode_body.
    destruct (RacParser.parse_rac_directories _ _) as [cluster|]; [|reflexivity].
    cbn [bind].
    destruct (RacClusterInfo.validate_consistency cluster) as [c issues].
    match goal with
    | |- context [DatabaseMetaParser.generate_meta_json env ?s] =>
        destruct (DatabaseMetaParser.generate_meta_json env s) as [[self' o]|] eqn:Hg;
        [|reflexivity]
    end.
    exact (generate_meta_json_ret _ _ _ _ Hg).
  - destruct (DatabaseMetaParser.parse_dirs _ _ _); [|reflexivity].
    destruct (_ =? 0)%nat; [reflexivity |].
    match goal with
    | |- context [DatabaseMetaParser.generate_meta_json env ?s] =>
        destruct (DatabaseMetaParser.generate_meta_json env s) as [[self' o]|] eqn:Hg;
        [|reflexivity]
    end.
    exact (generate_meta_json_ret _ _ _ _ Hg).
Qed.

End MySQLFacts.

(** X18.  A document the MySQL parser writes has one record for each
    input directory, in order, each from its directory as [str(Path(dir))]
    gives it, with the sid ["mysql"] and without a node number; it is
    labelled [mysql] and ['one'] however many directories there are; its
    file is in [Path(json_out_dir)], or in [Config.DEFAULT_JSON_DIR] when
    [json_out_dir] is empty; and with any number of directories but one it
    is a document [validate_json] rejects. *)
Theorem mysql_document_shape (env : Env) (dirs : list string) (out : string)
        (ident : option string) (p : string) (d : Document) :
  written (parse_mysql_metadata env dirs out ident) = Some (p, d) ->
  List.map nr_source_dir (doc_metainfo d) = List.map Path.normal dirs
  /\ Forall (fun r => nr_sid r = Some "mysql" /\ nr_node_info r = None)
            (doc_metainfo d)
  /\ doc_dbtype d = "mysql"
  /\ doc_dbmodel d = "one"
  /\ p = Path.div (Spec.output_dir env out)
           (JsonSchemaValidator.generate_filename "mysql" "one" (doc_identifier d))
  /\ (List.length dirs <> 1%nat ->
      JsonSchemaValidator.validate_json d <> None).
Proof.
  intros Hw. apply MySQLFacts.mysql_run_doc in Hw
    as (items & i & Hp & -> & -> & _ & _).
  apply MySQLFacts.mysql_parse_dirs_shape in Hp as [Hd Hf].
  cbn [doc_metainfo doc_dbtype doc_dbmodel doc_identifier].
  split; [exact Hd |]. split; [exact Hf |]. split; [reflexivity |].
  split; [reflexivity |]. split; [reflexivity |].
  intros Hn Hv. apply SchemaFacts.validate_json_iff in Hv
    as (_ & _ & _ & [[_ H1] | [[=] _]] & _).
  cbn [doc_metainfo] in H1. apply Hn.
  rewrite <- (List.length_map Path.normal), <- Hd, List.length_map. exact H1.
Qed.

(** Two directories given to the MySQL parser, the first written with a
    slash at its end, through the theorem. *)
Lemma mysql_document_shape_witness :
  match written (parse_mysql_metadata Examples.env_cluster
                   [(Examples.dir1 ++ "/")%string; Examples.dir2] "/out" None) with
  | Some (p, d) =>
      List.map nr_source_dir (doc_metainfo d) = [Examples.dir1; Examples.dir2]
      /\ doc_dbmodel d = "one"
      /\ JsonSchemaValidator.validate_json d <> None
  | None => False
  end.
Proof.
  destruct (written _) as [[p d]|] eqn:H.
  - destruct (mysql_document_shape _ _ _ _ _ _ H) as (Hd & _ & _ & Hm & _ & Hv).
    split; [exact Hd |]. split; [exact Hm |]. apply Hv. cbn. lia.
  - vm_compute in H. discriminate H.
Defined.

(** X19.  The exit code of the [parse] command is 0 exactly when a
    document was written, and 1 otherwise. *)
Theorem exit_code_tells_written (env : Env) (a : Main.args) :
  fst (Main.handle_parse_command env a)
  = if is_some (written (snd (Main.handle_parse_command env a)))
    then 0%nat else 1%nat.
Proof.
  unfold Main.handle_parse_command.
  destruct (negb (Py.truthy (Main.dbtype a))); [reflexivity |].
  destruct (negb (Py.truthy (Main.dbmodel a))); [reflexivity |].
  destruct (negb (Py.truthy (Main.jsonout a))); [reflexivity |].
  destruct (negb (mem_str (default "" (Main.dbtype a)) _)); [reflexivity |].
  destruct (negb (mem_str (default "" (Main.dbmodel a)) _)); [reflexivity |].
  destruct (Main.collect_import_dirs env a) as [[import_dirs|]|]; try reflexivity.
  destruct (Main.validate_parent_directory_exists env _) as [jsonout_path|];
    [|reflexivity].
  cbn [fst snd].
  destruct (String.eqb (default "" (Main.dbtype a)) "mysql").
  - now rewrite MySQLFacts.mysql_ret_written.
  - now rewrite MySQLFacts.generic_ret_written.
Qed.

(** X20.  The command succeeds only for one of the types [oracle],
    [mysql], [postgresql] and [sqlserver] (so never for [oracle_db_file]),
    for the model ['one'] with [-import_dir] naming a directory or the
    model ['rac'] with [-import_dir_1] and [-import_dir_2] naming
    directories, and for an output path whose parent exists. *)
Theorem command_success_requires (env : Env) (a : Main.args) :
  fst (Main.handle_parse_command env a) = 0%nat ->
  exists t m out,
    Main.dbtype a = Some t
    /\ In t ["oracle"; "mysql"; "postgresql"; "sqlserver"]
    /\ Main.dbmodel a = Some m
    /\ Main.jsonout a = Some out
    /\ path_exists env (Main.parent out) = true
    /\ ((m = "one"
         /\ exists dir, Main.import_dir a = Some dir
                        /\ path_is_dir env (Main.normal dir) = true)
        \/ (m = "rac"
            /\ exists d1 d2,
                 Main.import_dir_1 a = Some d1 /\ Main.import_dir_2 a = Some d2
                 /\ path_is_dir env (Main.normal d1) = true
                 /\ path_is_dir env (Main.normal d2) = true)).
Proof.
  unfold Main.handle_parse_command.
  destruct (Main.dbtype a) as [t|]; [|discriminate].
  destruct (negb (Py.truthy (Some t))); [discriminate |].
  destruct (Main.dbmodel a) as [m|] eqn:Hm; [|discriminate].
  destruct (negb (Py.truthy (Some m))); [discriminate |].
  destruct (Main.jsonout a) as [out|]; [|discriminate].
  destruct (negb (Py.truthy (Some out))); [discriminate |].
  unfold default; cbn [from_option id].
  destruct (mem_str t _) eqn:Ht; [|discriminate]. cbn [negb].
  apply SchemaFacts.mem_str_iff in Ht.
  destruct (mem_str m _) eqn:Hmm; [|discriminate]. cbn [negb].
  apply SchemaFacts.mem_str_iff in Hmm.
  unfold Main.collect_import_dirs. rewrite Hm. unfold default; cbn [from_option id].
  unfold Main.validate_parent_directory_exists.
  destruct Hmm as [<- | [<- | []]]; cbn [String.eqb Ascii.eqb Bool.eqb].
  - destruct (Main.import_dir a) as [dir|]; [|discriminate].
    destruct (negb (Py.truthy (Some dir))); [discriminate |].
    unfold Main.validate_directory_exists. unfold default; cbn [from_option id].
    destruct (path_is_dir env (Main.normal dir)) eqn:Hd; [|discriminate].
    cbn [bind].
    destruct (path_exists env (Main.parent out)) eqn:Hp; [|discriminate].
    intros _. exists t, "one", out. repeat split; try assumption.
    left. split; [reflexivity |]. exists dir. now split.
  - destruct (Main.import_dir_1 a) as [d1|]; [|discriminate].
    destruct (Main.import_dir_2 a) as [d2|];
      [|destruct (negb (Py.truthy (Some d1))); discriminate].
    destruct (negb (Py.truthy (Some d1)) || negb (Py.truthy (Some d2)));
      [discriminate |].
    unfold Main.validate_directory_exists at 1 2. unfold default; cbn [from_option id].
    destruct (path_is_dir env (Main.normal d1)) eqn:H1; [|discriminate].
    cbn [bind].
    destruct (path_is_dir env (Main.normal d2)) eqn:H2; [|discriminate].
    cbn [bind].
    destruct (path_exists env (Main.parent out)) eqn:Hp.
    2:{ destruct (Main.optional_dir env (Main.import_dir_3 a)); [|discriminate].
        cbn [bind].
        destruct (Main.optional_dir env (Main.import_dir_4 a)); discriminate. }
    intros _. exists t, "rac", out. repeat split; try assumption.
    right. split; [reflexivity |]. exists d1, d2. now repeat split.
Qed.

(** A cluster run from the command line, through the theorem. *)
Lemma command_success_requires_witness :
  exists t m out,
    Some "oracle" = Some t
    /\ In t ["oracle"; "mysql"; "postgresql"; "sqlserver"]
    /\ Some "rac" = Some m
    /\ Some "/data/out" = Some out
    /\ path_exists Examples.env_cluster (Main.parent out) = true
    /\ ((m = "one"
         /\ exists dir, None = Some dir
                        /\ path_is_dir Examples.env_cluster (Main.normal dir) = true)
        \/ (m = "rac"
            /\ exists d1 d2,
                 Some Examples.dir1 = Some d1 /\ Some Examples.dir2 = Some d2
                 /\ path_is_dir Examples.env_cluster (Main.normal d1) = true
                 /\ path_is_dir Examples.env_cluster (Main.normal d2) = true)).
Proof.
  apply (command_success_requires Examples.env_cluster
           (Main.mkArgs (Some "oracle") (Some "rac") (Some "/data/out") None
                        (Some Examples.dir1) (Some Examples.dir2) None None
                        None false)).
  vm_compute. reflexivity.
Defined.

(** X21.  With [-dbtype mysql] the command ignores the model it was
    given: with [-dbmodel rac] it hands all the directories to the MySQL
    parser, and what it writes, with the exit code 0, is a document
    labelled ['one'] that has two records or more and that [validate_json]
    rejects. *)
Theorem command_mysql_ignores_model (env : Env) (a : Main.args)
        (p : string) (d : Document) :
  Main.dbtype a = Some "mysql" ->
  Main.dbmodel a = Some "rac" ->
  written (snd (Main.handle_parse_command env a)) = Some (p, d) ->
  fst (Main.handle_parse_command env a) = 0%nat
  /\ doc_dbmodel d = "one"
  /\ (2 <= List.length (doc_metainfo d))%nat
  /\ JsonSchemaValidator.validate_json d <> None.
Proof.
  intros Ht Hm. unfold Main.handle_parse_command, Main.collect_import_dirs.
  rewrite Ht, Hm. unfold default. cbn [from_option id Py.truthy Py.nonempty negb
    mem_str existsb String.eqb Ascii.eqb Bool.eqb orb].
  destruct (Py.truthy (Main.jsonout a)); cbn [negb]; [|discriminate].
  destruct (negb (Py.truthy (Main.import_dir_1 a))
            || negb (Py.truthy (Main.import_dir_2 a))); [discriminate |].
  destruct (Main.validate_directory_exists env _) as [d1|]; [|discriminate].
  cbn [bind].
  destruct (Main.validate_directory_exists env _) as [d2|]; [|discriminate].
  cbn [bind].
  destruct (Main.optional_dir env (Main.import_dir_3 a)) as [d3|]; [|discriminate].
  cbn [bind].
  destruct (Main.optional_dir env (Main.import_dir_4 a)) as [d4|]; [|discriminate].
  cbn [bind].
  destruct (Main.validate_parent_directory_exists env _) as [out|]; [|discriminate].
  cbn [fst snd]. intros Hw.
  rewrite MySQLFacts.mysql_ret_written, Hw. cbn [is_some].
  apply MySQLFacts.mysql_run_doc in Hw as (items & i & Hp & -> & _ & _ & _).
  apply MySQLFacts.mysql_parse_dirs_shape in Hp as [Hd _].
  assert (2 <= List.length items)%nat as Hlen.
  { rewrite <- (List.length_map nr_source_dir), Hd. cbn. lia. }
  cbn [doc_dbmodel doc_metainfo].
  split; [reflexivity |]. split; [reflexivity |]. split; [exact Hlen |].
  intros Hv. apply SchemaFacts.validate_json_iff in Hv
    as (_ & _ & _ & [[_ H1] | [[=] _]] & _).
  cbn [doc_metainfo] in H1. lia.
Qed.

(** The two node directories of the examples given as a MySQL cluster,
    through the theorem. *)
Lemma command_mysql_ignores_model_witness :
  let a := Main.mkArgs (Some "mysql") (Some "rac") (Some "/data/out") None
                       (Some Examples.dir1) (Some Examples.dir2) None None
                       None false in
  match written (snd (Main.handle_parse_command Examples.env_cluster a)) with
  | Some (p, d) =>
      fst (Main.handle_parse_command Examples.env_cluster a) = 0%nat
      /\ doc_dbmodel d = "one"
      /\ (2 <= List.length (doc_metainfo d))%nat
      /\ JsonSchemaValidator.validate_json d <> None
  | None => False
  end.
Proof.
  cbv zeta. destruct (written _) as [[p d]|] eqn:H.
  - exact (command_mysql_ignores_model Examples.env_cluster
             (Main.mkArgs (Some "mysql") (Some "rac") (Some "/data/out") None
                          (Some Examples.dir1) (Some Examples.dir2) None None
                          None false) p d eq_refl eq_refl H).
  - vm_compute in H. discriminate H.
Defined.

(* ================================================================== *)
(** * Records: dates, required keys, sanitised names *)
(* ================================================================== *)

Module DateTimeFacts.
Import PyFacts ReFacts Spec.

Lemma remove_char_append (c : ascii) (a b : string) :
  Py.remove_char c (a ++ b) = (Py.remove_char c a ++ Py.remove_char c b)%string.
Proof.
  induction a as [|x a IH]; cbn [String.append Py.remove_char]; [reflexivity |].
  destruct (Ascii.eqb x c); [exact IH | cbn [String.append]; now rewrite IH].
Qed.

Lemma remove_dash_digits (s : string) :
  Py.forall_chars Py.is_digit s = true -> Py.remove_char "-" s = s.
Proof.
  induction s as [|x s IH]; [reflexivity |]. cbn [Py.forall_chars Py.remove_char].
  intros H. apply andb_true_iff in H as [Hx Hs].
  assert (Ascii.eqb x "-" = false) as ->
    by (apply Ascii.eqb_neq; intros ->; discriminate Hx).
  now rewrite IH.
Qed.

(** The first ten characters of [YYYY-MM-DD...], without the dashes. *)
Lemma iso_date (y mo dd rest : string) :
  String.length y = 4%nat -> String.length mo = 2%nat -> String.length dd = 2%nat ->
  Py.forall_chars Py.is_digit (y ++ mo ++ dd) = true ->
  Py.remove_char "-" (Py.take 10 (y ++ "-" ++ mo ++ "-" ++ dd ++ rest))
  = (y ++ mo ++ dd)%string.
Proof.
  intros Hy Hm Hd Hdig.
  rewrite !forall_chars_append in Hdig.
  apply andb_true_iff in Hdig as [Hdy Hdig].
  apply andb_true_iff in Hdig as [Hdm Hdd].
  assert ((y ++ "-" ++ mo ++ "-" ++ dd ++ rest)%string
          = ((y ++ "-" ++ mo ++ "-" ++ dd) ++ rest)%string) as ->.
  { rewrite !append_assoc. reflexivity. }
  replace 10%nat with (String.length (y ++ "-" ++ mo ++ "-" ++ dd))
    by (rewrite !length_append; cbn [String.length]; lia).
  rewrite take_append.
  rewrite !remove_char_append. cbn [Py.remove_char Ascii.eqb Bool.eqb String.append].
  now rewrite !remove_dash_digits by assumption.
Qed.

End DateTimeFacts.

(** X22.  A record of the single-instance path whose manifest has no
    non-empty [collect_date] takes its date from [inspection_time]: for a
    time stamp that starts with [YYYY-MM-DD] the date of the record is
    [YYYYMMDD]. *)
Theorem inspection_time_date (env : Env) (self : DatabaseMetaParser.t)
        (directory : string) (data : Manifest) (y mo dd rest : string)
        (item : NodeRecord) :
  load_json env (Py.path_join directory "file_status.json") = Some data ->
  Py.truthy (m_collect_date data) = false ->
  m_inspection_time data = Some (y ++ "-" ++ mo ++ "-" ++ dd ++ rest)%string ->
  String.length y = 4%nat -> String.length mo = 2%nat -> String.length dd = 2%nat ->
  Py.forall_chars Py.is_digit (y ++ mo ++ dd) = true ->
  DatabaseMetaParser.parse_file_status env self directory None = Some item ->
  nr_collect_date item = Some (y ++ mo ++ dd)%string.
Proof.
  intros Hl Hc Hi Hy Hm Hd Hdig Hp.
  apply RecordFacts.parse_file_status_inv in Hp
    as (data' & _ & Hl' & _ & _ & (_ & _ & Hdate) & _ & _ & _).
  rewrite Hl in Hl'. injection Hl' as <-.
  rewrite Hdate. unfold DatabaseMetaParser.actual_date. rewrite Hc, Hi.
  assert (Py.nonempty (y ++ "-" ++ mo ++ "-" ++ dd ++ rest) = true) as ->.
  { destruct y; [discriminate Hy | reflexivity]. }
  assert ((10 <=? String.length (y ++ "-" ++ mo ++ "-" ++ dd ++ rest))%nat = true)
    as ->.
  { apply Nat.leb_le. rewrite !PyFacts.length_append. cbn [String.length]. lia. }
  cbn [andb]. rewrite (DateTimeFacts.iso_date _ _ _ _ Hy Hm Hd Hdig).
  unfold Py.or_else. cbn [Py.truthy].
  assert (Py.nonempty (y ++ mo ++ dd) = true) as ->.
  { destruct y; [discriminate Hy | reflexivity]. }
  reflexivity.
Qed.

(** The manifest of the examples stamped 2025-08-26T10:45:29+0800,
    through the theorem. *)
Lemma inspection_time_date_witness :
  match DatabaseMetaParser.parse_file_status Examples.env_inspection
          Examples.generic_parser Examples.dir1 None with
  | Some item => nr_collect_date item = Some "20250826"
  | None => False
  end.
Proof.
  destruct (DatabaseMetaParser.parse_file_status _ _ _ _) as [item|] eqn:H.
  - exact (inspection_time_date Examples.env_inspection Examples.generic_parser
             Examples.dir1 Examples.manifest_inspection "2025" "08" "26"
             "T10:45:29+0800" item eq_refl eq_refl eq_refl eq_refl eq_refl
             eq_refl eq_refl H).
  - vm_compute in H. discriminate H.
Defined.

(** X23.  A ['one'] run writes only when the manifest of its directory
    ([file_status.json] in [Path(dir)]) could be read and has the keys
    [hostname] and [files], one of [sid] and [oracle_sid], and one of
    [collect_date] and [inspection_time]. *)
Theorem one_run_requires_keys (env : Env) (db_type dir out : string)
        (ident : option string) (p : string) (d : Document) :
  written (parse_metadata env db_type "one" [dir] out ident) = Some (p, d) ->
  exists data,
    path_exists env (Py.path_join (Path.normal dir) "file_status.json") = true
    /\ load_json env (Py.path_join (Path.normal dir) "file_status.json")
       = Some data
    /\ is_some (m_hostname data) = true
    /\ is_some (m_files data) = true
    /\ (is_some (m_sid data) || is_some (m_oracle_sid data)) = true
    /\ (is_some (m_collect_date data) || is_some (m_inspection_time data)) = true.
Proof.
  intros Hw. apply RunFacts.one_run_written in Hw
    as (parser & items & _ & Hd & _).
  cbn [DatabaseMetaParser.parse_dirs List.map] in Hd.
  destruct (DatabaseMetaParser.parse_file_status env parser (Path.normal dir) None)
    as [item|] eqn:Hp; [|discriminate].
  apply RecordFacts.parse_file_status_inv in Hp
    as (data & He & Hl & _ & Hh & _ & Hf & Hs & Hdate).
  exists data. repeat split; try assumption.
  destruct (m_files data); [reflexivity | destruct Hf].
Qed.

(** The run on one directory of the examples, through the theorem. *)
Lemma one_run_requires_keys_witness :
  exists data,
    load_json Examples.env_cluster
      (Py.path_join (Path.normal Examples.dir1) "file_status.json")
    = Some data
    /\ is_some (m_files data) = true.
Proof.
  destruct (written (parse_metadata Examples.env_cluster "oracle" "one"
                       [Examples.dir1] "/out" None)) as [[p d]|] eqn:H.
  - destruct (one_run_requires_keys _ _ _ _ _ _ _ H)
      as (data & _ & Hl & _ & Hf & _).
    exists data. now split.
  - vm_compute in H. discriminate H.
Defined.

(** X24.  The replacement [re.sub(r'[^a-zA-Z0-9_-]', '_', s)] that makes
    an identifier of a name keeps the length of the name, leaves only
    characters of [[A-Za-z0-9_-]], changes nothing in a name that has only
    such characters, and changes nothing when applied again. *)
Theorem sanitised_name (s : string) :
  let r := Re.re_sub Re.not_ident "_" s in
  String.length r = String.length s
  /\ Py.forall_chars Py.is_ident r = true
  /\ (Py.forall_chars Py.is_ident s = true -> r = s)
  /\ Re.re_sub Re.not_ident "_" r = r.
Proof.
  cbv zeta.
  assert (forall x, Py.forall_chars Py.is_ident x = true ->
                    Re.re_sub Re.not_ident "_" x = x) as Hid.
  { intros x. rewrite ReFacts.re_sub_not_ident.
    induction x as [|a x IH]; [reflexivity |]. cbn [Py.forall_chars Py.map_chars].
    intros H. apply andb_true_iff in H as [Ha Hx].
    unfold Spec.sanitize_char at 1. rewrite Ha. now rewrite IH. }
  split; [|split; [|split]].
  - rewrite ReFacts.re_sub_not_ident.
    induction s as [|a s IH]; [reflexivity |]. cbn. now rewrite IH.
  - apply ReFacts.sanitized_all_ident.
  - apply Hid.
  - apply Hid, ReFacts.sanitized_all_ident.
Qed.

(** A host name with a dot and a blank, through the theorem. *)
Lemma sanitised_name_witness :
  Re.re_sub Re.not_ident "_" (Re.re_sub Re.not_ident "_" "db.a 1_orcl_20250826")
  = Re.re_sub Re.not_ident "_" "db.a 1_orcl_20250826".
Proof. apply (sanitised_name "db.a 1_orcl_20250826"). Defined.

(** X25.  The record of a ['one'] run is marked [passed] exactly when
    every required file of the database type exists in the directory
    ([Path(dir)]) and every file the record lists with a path has an
    [exists] flag that agrees with the file system; otherwise it is marked
    [failed]. *)
Theorem one_record_status (env : Env) (db_type dir out : string)
        (ident : option string) (p : string) (d : Document) (item : NodeRecord) :
  written (parse_metadata env db_type "one" [dir] out ident) = Some (p, d) ->
  In item (doc_metainfo d) ->
  (nr_validation_status item = Some passed
   <-> (forall f, In f (Spec.required_of db_type) ->
                  path_exists env (Py.path_join (Path.normal dir) f) = true)
       /\ (forall k e, nr_files item !! k = Some e ->
                       Py.nonempty (fe_path e) = true ->
                       default false (fe_exists e) = path_exists env (fe_path e)))
  /\ (nr_validation_status item <> Some passed ->
      nr_validation_status item = Some failed).
Proof.
  intros Hw Hin. apply RunFacts.one_run_written in Hw
    as (parser & items & Hi & Hd & Hm).
  apply RunFacts.init_ok in Hi as (required & Hl & -> & _).
  rewrite Hm in Hin. cbn [DatabaseMetaParser.parse_dirs List.map] in Hd.
  destruct (DatabaseMetaParser.parse_file_status env _ (Path.normal dir) None)
    as [item0|] eqn:Hp; [|discriminate].
  injection Hd as <-. destruct Hin as [<- | []].
  unfold Spec.required_of. rewrite Hl. cbn [default from_option id].
  assert (DatabaseMetaParser.validate_directory env
            (DatabaseMetaParser.mk db_type "one" required [Path.normal dir]
               (Spec.output_dir env out) ident
               (JsonSchemaValidator.create_empty_json env db_type "one"
                  (default "temp" (Py.or_else ident None))))
            (Path.normal dir) item0 = true
          <-> (forall f, In f required ->
                         path_exists env (Py.path_join (Path.normal dir) f) = true)
              /\ (forall k e, nr_files item0 !! k = Some e ->
                              Py.nonempty (fe_path e) = true ->
                              default false (fe_exists e)
                              = path_exists env (fe_path e))) as Hv.
  { unfold DatabaseMetaParser.validate_directory.
    cbn [DatabaseMetaParser.required_files].
    rewrite andb_true_iff, !List.forallb_forall. split.
    - intros [Hr Hf]. split; [exact Hr |]. intros k e Hk Hne.
      specialize (Hf (k, e)). cbn [snd] in Hf.
      unfold DatabaseMetaParser.entry_consistent in Hf. rewrite Hne in Hf.
      apply Bool.eqb_prop, Hf, list_elem_of_In, elem_of_map_to_list, Hk.
    - intros [Hr Hf]. split; [exact Hr |]. intros [k e] Hke.
      apply list_elem_of_In, elem_of_map_to_list in Hke. cbn [snd].
      unfold DatabaseMetaParser.entry_consistent.
      destruct (Py.nonempty (fe_path e)) eqn:Hne; [|reflexivity].
      rewrite (Hf k e Hke Hne). apply Bool.eqb_reflx. }
  destruct (DatabaseMetaParser.validate_directory env _ (Path.normal dir) item0);
    cbn [set_validation_status nr_validation_status nr_files].
  - split; [|intros H; now contradiction H].
    split; [intros _; now apply Hv | reflexivity].
  - split; [|reflexivity].
    split; [discriminate | intros H; apply Hv in H; discriminate H].
Qed.

(** The run on one directory of the examples, where no required file is
    on disk, through the theorem: the record is marked [failed]. *)
Lemma one_record_status_witness :
  match written (parse_metadata Examples.env_cluster "oracle" "one"
                   [Examples.dir1] "/out" None) with
  | Some (p, d) =>
      Forall (fun item => nr_validation_status item = Some failed) (doc_metainfo d)
  | None => False
  end.
Proof.
  destruct (written _) as [[p d]|] eqn:H;
    [|vm_compute in H; discriminate H].
  apply List.Forall_forall. intros item Hin.
  destruct (one_record_status _ _ _ _ _ _ _ item H Hin) as [Hiff Hfailed].
  apply Hfailed. intros Hp. apply Hiff in Hp as [Hreq _].
  specialize (Hreq "01_system_info.txt" (or_intror (or_introl eq_refl))).
  vm_compute in Hreq. discriminate Hreq.
Defined.

(** X26.  Without an identifier, the MySQL parser names the document
    after its first directory: when the name of that directory
    ([Path(dir).name]) has three parts or more between ['_'] and the last
    part is a date, the identifier
    is that name with every character outside [[A-Za-z0-9_-]] replaced by
    ['_']; otherwise it is [unknown_mysql_] followed by the date of the
    run. *)
Theorem mysql_identifier_from_directory (env : Env) (dir : string)
        (rest : list string) (out : string) (ident : option string)
        (p : string) (d : Document) :
  Py.truthy ident = false ->
  written (parse_mysql_metadata env (dir :: rest) out ident) = Some (p, d) ->
  doc_identifier d
  = Py.map_chars Spec.sanitize_char
      (if (3 <=? List.length (Py.split "_" (Path.name dir)))%nat
          && is_some (Re.re_match Re.date8
                        (List.last (Py.split "_" (Path.name dir)) ""))
       then Path.name dir
       else ("unknown_mysql_" ++ today env)%string).
Proof.
  intros Ht Hw. rewrite <- (PathFacts.name_normal dir).
  apply MySQLFacts.mysql_run_doc in Hw
    as (items & i & _ & -> & _ & _ & Hg).
  specialize (Hg Ht). cbn [doc_identifier].
  unfold MySQLMetaParser._generate_identifier, MySQLMetaParser.init in Hg.
  cbn [MySQLMetaParser.identifier MySQLMetaParser.import_dirs] in Hg.
  rewrite Ht in Hg.
  cbn [List.map] in Hg.
  pose proof (MySQLFacts.mysql_extract_rejoined env (Path.normal dir)) as Hr.
  destruct (MySQLMetaParser._extract_identifier_from_dir env (Path.normal dir))
    as [[hostname dbname] collect_date].
  injection Hg as <-. rewrite ReFacts.re_sub_not_ident. f_equal. exact Hr.
Qed.

(** A directory whose host name has a dot, written with a slash at its
    end, through the theorem. *)
Lemma mysql_identifier_from_directory_witness :
  match written (parse_mysql_metadata Examples.env_dots
                   [(Examples.dot1 ++ "/")%string] "/out" None) with
  | Some (p, d) => doc_identifier d = "db_a1_hnoms1_20250826"
  | None => False
  end.
Proof.
  destruct (written _) as [[p d]|] eqn:H.
  - rewrite (mysql_identifier_from_directory _ _ _ _ None _ _ eq_refl H).
    vm_compute. reflexivity.
  - vm_compute in H. discriminate H.
Defined.

(* ================================================================== *)
(** * Runs that write *)
(* ================================================================== *)

Module ProgressFacts.
Import PyFacts Spec.













End ProgressFacts.

(* ================================================================== *)
(** * What is kept of a [files] array *)
(* ================================================================== *)

Module KeptFacts.
Import Spec Kept.

(** The element [last_keyed] returns is in the array and has the key. *)
Lemma last_keyed_In (key_of : FileInfo -> option string) (k : string)
      (l : list FileInfo) (fi : FileInfo) :
  last_keyed key_of k l = Some fi -> In fi l /\ key_of fi = Some k.
Proof.
  induction l as [|x l IH]; [discriminate |]. cbn [last_keyed].
  destruct (last_keyed key_of k l) as [later|].
  - intros [= <-]. destruct (IH eq_refl) as [Hin Hk]. split; [now right | exact Hk].
  - destruct (key_of x) as [k'|] eqn:Hx; [|discriminate].
    destruct (String.eqb_spec k' k) as [-> |]; [|discriminate].
    intros [= <-]. split; [now left | exact Hx].
Qed.

(** [last_keyed] finds an element as soon as one has the key. *)
Lemma last_keyed_is_Some (key_of : FileInfo -> option string) (k : string)
      (l : list FileInfo) :
  is_Some (last_keyed key_of k l) <-> exists fi, In fi l /\ key_of fi = Some k.
Proof.
  split.
  - intros [fi H]. exists fi. exact (last_keyed_In _ _ _ _ H).
  - intros (fi & Hin & Hk). induction l as [|x l IH]; [destruct Hin |].
    cbn [last_keyed]. destruct (last_keyed key_of k l) as [later|]; [eauto |].
    destruct Hin as [-> | Hin]; [|destruct (IH Hin) as [? [=]]].
    rewrite Hk, String.eqb_refl. eauto.
Qed.

(** An element that no later one shares its key with is the one
    [last_keyed] returns. *)
Lemma last_keyed_split (key_of : FileInfo -> option string) (k : string)
      (l1 l2 : list FileInfo) (fi : FileInfo) :
  key_of fi = Some k ->
  Forall (fun x => key_of x <> Some k) l2 ->
  last_keyed key_of k (l1 ++ fi :: l2) = Some fi.
Proof.
  intros Hk Hl2.
  assert (last_keyed key_of k l2 = None) as Hn.
  { destruct (last_keyed key_of k l2) as [x|] eqn:Hx; [|reflexivity].
    apply last_keyed_In in Hx as [Hin Hx]. rewrite List.Forall_forall in Hl2.
    now destruct (Hl2 x Hin). }
  induction l1 as [|x l1 IH]; cbn [last_keyed app].
  - now rewrite Hn, Hk, String.eqb_refl.
  - now rewrite IH.
Qed.

(** The map the single-instance loop builds: under a key, the entry of the
    last element stored under it, or what the map had. *)
Lemma files_of_list_kept (directory : string) (l : list FileInfo)
      (files : gmap string FileEntry) (k : string) :
  DatabaseMetaParser.files_of_list directory l files !! k
  = match last_keyed single_key k l with
    | Some fi => Some (single_entry directory fi)
    | None => files !! k
    end.
Proof.
  revert files. induction l as [|fi l IH]; intros files; [reflexivity |].
  cbn [DatabaseMetaParser.files_of_list last_keyed]. unfold single_key at 2.
  destruct (fi_filename fi) as [filename|] eqn:Hf; cbn [default from_option id].
  - destruct (Py.nonempty filename); rewrite IH;
      destruct (last_keyed single_key k l); try reflexivity.
    destruct (String.eqb_spec (Py.stem filename) k) as [<- | Hne].
    + rewrite lookup_insert_eq. unfold single_entry, DatabaseMetaParser.status_entry.
      now rewrite Hf.
    + now rewrite lookup_insert_ne.
  - unfold default. cbn [from_option id Py.nonempty]. rewrite IH.
    now destruct (last_keyed single_key k l).
Qed.

(** The same for the loop of [merge_node_files]. *)
Lemma merge_list_kept (directory : string) (l : list FileInfo)
      (files : gmap string FileEntry) (k : string) :
  RacParser.merge_list directory l files !! k
  = match last_keyed cluster_key k l with
    | Some fi => Some (cluster_entry directory fi)
    | None => files !! k
    end.
Proof.
  revert files. induction l as [|fi l IH]; intros files; [reflexivity |].
  cbn [RacParser.merge_list last_keyed].
  unfold cluster_key at 2, has_filename_and_status, rac_key.
  destruct (fi_filename fi) as [filename|] eqn:Hf;
    [destruct (fi_status fi) as [status|] eqn:Hs |];
    cbn [is_some andb]; rewrite IH;
    destruct (last_keyed cluster_key k l); try reflexivity.
  change (default "" (Some filename)) with filename.
  destruct (String.eqb_spec (List.hd "" (Py.split "." filename)) k) as [<- | Hne].
  - rewrite lookup_insert_eq. unfold cluster_entry, RacParser.list_entry.
    now rewrite Hf, Hs.
  - now rewrite lookup_insert_ne.
Qed.

End KeptFacts.

(* ================================================================== *)
(** * The records of a written document: number, mark, files *)
(* ================================================================== *)

(** C5, as the code has it.  The generic parser turns the directories it
    is given into paths ([str(Path(d))]).  A ['rac'] run of it that writes
    a document was given two to four directories; the document has one
    record for each path that resolves to a valid node, in input order,
    numbered from 1 without gaps; there are at least two of them; there
    are as many as directories when every path resolves.  The MySQL
    parser, which the command line calls for the type [mysql] whatever the
    model, has no ['rac'] mode: a document it writes has one record for
    each directory, none with a node number, and the model ['one']. *)
Theorem rac_metainfo_of_resolved (env : Env) (dirs : list string) (out : string)
        (ident : option string) (p : string) (d : Document) :
  (forall db_type,
      written (parse_metadata env db_type "rac" dirs out ident) = Some (p, d) ->
      let paths := List.map Path.normal dirs in
      List.map nr_source_dir (doc_metainfo d)
      = List.filter (Spec.resolvable env) paths
      /\ Spec.node_numbers (doc_metainfo d)
         = List.map Some (List.seq 1 (List.length (doc_metainfo d)))
      /\ List.length (doc_metainfo d)
         = List.length (List.filter (Spec.resolvable env) paths)
      /\ (2 <= List.length (doc_metainfo d) <= List.length dirs)%nat
      /\ (2 <= List.length dirs <= 4)%nat
      /\ (forallb (Spec.resolvable env) paths = true ->
          List.length (doc_metainfo d) = List.length dirs))
  /\ (written (parse_mysql_metadata env dirs out ident) = Some (p, d) ->
      List.map nr_source_dir (doc_metainfo d) = List.map Path.normal dirs
      /\ Spec.node_numbers (doc_metainfo d) = List.map (fun _ => None) dirs
      /\ doc_dbmodel d = "one").
Proof.
  split.
  - intros db_type Hw paths.
    apply RunFacts.rac_run_written in Hw as (cluster & Hc & Hm & Hd & Hv & Hn).
    fold paths in Hc.
    pose proof (DocumentFacts.parse_rac_directories_resolvable env paths) as Hk.
    rewrite Hc in Hk.
    destruct Hk as (_ & Hnodes & Hdirs).
    pose proof (DocumentFacts.validated_rac_length d Hv Hd) as H2.
    assert (List.length paths = List.length dirs) as Hlp
        by apply List.length_map.
    assert (List.length (doc_metainfo d)
            = List.length (List.filter (Spec.resolvable env) paths)) as Hlen.
    { rewrite Hm. unfold RacParser.merge_node_files.
      rewrite ClusterFacts.merge_from_length, <- Hdirs. now rewrite List.length_map. }
    split; [|split; [|split; [|split; [|split]]]].
    + rewrite Hm. unfold RacParser.merge_node_files.
      now rewrite ClusterFacts.merge_from_dirs.
    + rewrite Hm at 1. unfold RacParser.merge_node_files.
      rewrite ClusterFacts.merge_from_numbers. rewrite Hm.
      unfold RacParser.merge_node_files. now rewrite ClusterFacts.merge_from_length.
    + exact Hlen.
    + split; [exact H2 |]. rewrite Hlen, <- Hlp. apply List.filter_length_le.
    + exact Hn.
    + intros Hall. rewrite Hlen, <- Hlp. now rewrite DocumentFacts.filter_all.
  - intros Hw. apply MySQLFacts.mysql_run_doc in Hw as (items & i & Hp & -> & _).
    apply MySQLFacts.mysql_parse_dirs_shape in Hp as [Hs Hn].
    cbn [doc_metainfo doc_dbmodel]. split; [exact Hs |]. split; [|reflexivity].
    unfold Spec.node_numbers.
    rewrite <- (List.map_map Path.normal (fun _ => @None nat)), <- Hs, List.map_map.
    apply List.map_ext_in. intros r Hr. rewrite List.Forall_forall in Hn.
    destruct (Hn r Hr) as [_ ->]. reflexivity.
Qed.

(** C5 as stated fails: three directories, the second without a manifest;
    the document is written with two records, numbered 1 and 2. *)
Lemma rac_three_directories_two_records :
  let o := parse_metadata Examples.env_three "oracle" "rac"
             [Examples.dir1; Examples.dir2; Examples.dir3] "/out" None in
  Examples.written_dirs o = Some [Examples.dir1; Examples.dir3]
  /\ Examples.written_numbers o = Some [Some 1%nat; Some 2%nat].
Proof. split; vm_compute; reflexivity. Qed.

(** The run with three directories, the first written with a slash at its
    end, and a run of the MySQL parser over two directories, through the
    theorem. *)
Lemma rac_metainfo_of_resolved_witness :
  match written (parse_metadata Examples.env_three "oracle" "rac"
                   [(Examples.dir1 ++ "/")%string; Examples.dir2; Examples.dir3]
                   "/out" None) with
  | Some (p, d) =>
      List.map nr_source_dir (doc_metainfo d) = [Examples.dir1; Examples.dir3]
  | None => False
  end
  /\ match written (parse_mysql_metadata Examples.env_cluster
                      [Examples.dir1; Examples.dir2] "/out" None) with
     | Some (p, d) => Spec.node_numbers (doc_metainfo d) = [None; None]
     | None => False
     end.
Proof.
  split.
  - destruct (written _) as [[p d]|] eqn:H.
    + exact (proj1 (proj1 (rac_metainfo_of_resolved _ _ _ _ _ _) _ H)).
    + vm_compute in H. discriminate H.
  - destruct (written _) as [[p d]|] eqn:H.
    + exact (proj1 (proj2 (proj2 (rac_metainfo_of_resolved _ _ _ _ _ _) H))).
    + vm_compute in H. discriminate H.
Defined.




(** C10, as the code has it.  For a manifest whose [files] field is an
    array: the files of the record of the cluster path are built from the
    elements that have both a [filename] and a [status] key, and a key is
    in that map exactly when such an element has it, so an element without
    [status] adds nothing; under a key, the cluster path keeps the entry of
    the last such element whose file name, up to its first dot, is the
    key.  The record of the single-instance path keeps, under a stem, the
    entry of the last element with a non-empty [filename] that has the
    stem: an element is kept when no later one shares its stem, and is
    lost otherwise; a stem is a key exactly when such an element has
    it. *)
Theorem array_files_cluster_and_single (env : Env) (self : DatabaseMetaParser.t)
        (directory : string) (idx : nat) (data : Manifest) (l : list FileInfo)
        (item : NodeRecord) :
  path_exists env (Py.path_join directory "file_status.json") = true ->
  load_json env (Py.path_join directory "file_status.json") = Some data ->
  m_files data = Some (FilesList l) ->
  DatabaseMetaParser.parse_file_status env self directory None = Some item ->
  let rac_files :=
    nr_files (RacParser.node_record idx (RacNodeInfo.init env directory)) in
  rac_files
  = RacParser.merge_list directory
                         (List.filter Spec.has_filename_and_status l) ∅
  /\ (forall k, is_Some (rac_files !! k)
                <-> exists fi, In fi l
                               /\ Spec.has_filename_and_status fi = true
                               /\ Spec.rac_key fi = k)
  /\ (forall k, rac_files !! k
                = option_map (Kept.cluster_entry directory)
                             (Kept.last_keyed Kept.cluster_key k l))
  /\ (forall k, nr_files item !! k
                = option_map (Kept.single_entry directory)
                             (Kept.last_keyed Kept.single_key k l))
  /\ (forall k, is_Some (nr_files item !! k)
                <-> exists fi filename,
                      In fi l /\ fi_filename fi = Some filename
                      /\ Py.nonempty filename = true /\ Py.stem filename = k)
  /\ (forall l1 fi l2 filename,
         l = l1 ++ fi :: l2 ->
         fi_filename fi = Some filename -> Py.nonempty filename = true ->
         Forall (fun later => Kept.single_key later <> Some (Py.stem filename)) l2 ->
         nr_files item !! Py.stem filename
         = Some (mkFileEntry (Path.div directory filename)
                             (Some (default false (fi_exists fi)))
                             (Some (default 0%Z (fi_size fi)))
                             (fi_modified fi) None None None)).
Proof.
  intros He Hl Hf Hp rac_files. subst rac_files.
  rewrite (FileFacts.node_record_files _ _ _ _ _ He Hl Hf).
  rewrite (FileFacts.parse_file_status_files _ _ _ _ _ _ _ Hl Hf Hp).
  assert (forall k, DatabaseMetaParser.files_of_list directory l ∅ !! k
                    = option_map (Kept.single_entry directory)
                                 (Kept.last_keyed Kept.single_key k l)) as Hone.
  { intros k. rewrite KeptFacts.files_of_list_kept, lookup_empty.
    now destruct (Kept.last_keyed _ _ _). }
  split; [apply FileFacts.merge_list_filter |]. split; [|split; [|split; [|split]]].
  - intros k. rewrite FileFacts.merge_list_lookup, lookup_empty.
    split; [intros [[x Hx] | H]; [discriminate | exact H] | now right].
  - intros k. rewrite KeptFacts.merge_list_kept, lookup_empty.
    now destruct (Kept.last_keyed _ _ _).
  - exact Hone.
  - intros k. rewrite Hone. split.
    + intros [e He']. destruct (Kept.last_keyed Kept.single_key k l) as [fi|] eqn:Hk;
        [|discriminate].
      apply KeptFacts.last_keyed_In in Hk as [Hin Hk]. unfold Kept.single_key in Hk.
      destruct (fi_filename fi) as [filename|] eqn:Hn; [|discriminate].
      destruct (Py.nonempty filename) eqn:Hne; [|discriminate].
      injection Hk as Hk. exists fi, filename. now repeat split.
    + intros (fi & filename & Hin & Hn & Hne & Hk).
      destruct (proj2 (KeptFacts.last_keyed_is_Some Kept.single_key k l)) as [x ->];
        [|now eexists].
      exists fi. split; [exact Hin |]. unfold Kept.single_key.
      now rewrite Hn, Hne, Hk.
  - intros l1 fi l2 filename -> Hn Hne Hl2. rewrite Hone.
    rewrite (KeptFacts.last_keyed_split Kept.single_key _ l1 l2 fi);
      [|unfold Kept.single_key; now rewrite Hn, Hne | exact Hl2].
    cbn [option_map]. unfold Kept.single_entry. now rewrite Hn.
Qed.

(** C10 as stated fails for two array elements with the same stem: of
    [a.txt] and [a.json] the record of the single-instance path keeps one
    entry, the one of [a.json]. *)
Lemma single_record_loses_same_stem :
  match DatabaseMetaParser.init Examples.env_same_stem "oracle" "one"
          [Examples.dir1] "/out" None with
  | Ok self =>
      match DatabaseMetaParser.parse_file_status Examples.env_same_stem self
              Examples.dir1 None with
      | Some item =>
          map_to_list (nr_files item)
          = [("a", mkFileEntry (Examples.dir1 ++ "/a.json") (Some false)
                               (Some 10%Z) None None None None)]
      | None => False
      end
  | Raise _ => False
  end.
Proof. vm_compute. reflexivity. Qed.

(** The manifest of the examples, whose second file has no [status]: the
    single-instance record has its entry, the cluster record has not. *)
Lemma array_files_cluster_and_single_witness :
  match DatabaseMetaParser.init Examples.env_cluster "oracle" "one"
          [Examples.dir1] "/out" None with
  | Ok self =>
      match DatabaseMetaParser.parse_file_status Examples.env_cluster self
              Examples.dir1 None with
      | Some item =>
          nr_files item !! "02_hardware_info"
          = Some (Kept.single_entry Examples.dir1
                    (Examples.file_without_status "02_hardware_info.json"))
          /\ nr_files (RacParser.node_record 1
                         (RacNodeInfo.init Examples.env_cluster Examples.dir1))
             !! "02_hardware_info" = None
      | None => False
      end
  | Raise _ => False
  end.
Proof.
  destruct (DatabaseMetaParser.init _ _ _ _ _ _) as [self|] eqn:Hi;
    [|vm_compute in Hi; discriminate Hi].
  destruct (DatabaseMetaParser.parse_file_status _ _ _ _) as [item|] eqn:Hp;
    [|vm_compute in Hi; injection Hi as <-; vm_compute in Hp; discriminate Hp].
  destruct (array_files_cluster_and_single
              Examples.env_cluster self Examples.dir1 1
              (Examples.manifest "oms-db1" "hnoms1" "20250826")
              [Examples.file "01_system_info.txt";
               Examples.file_without_status "02_hardware_info.json"]
              item eq_refl eq_refl eq_refl Hp) as (_ & _ & Hrac & Hone & _).
  split; [rewrite Hone | rewrite Hrac]; reflexivity.
Defined.
